(** * Plan enforcement and billing synchronisation of the blog server

    A shallow embedding of the Express server: the plan policy
    ([PLAN_LIMITS], [getPlanLimit]), the profile provisioner
    ([ensureProfile]), the post routes, the checkout route and the Stripe
    webhook.  The Supabase tables and the Stripe account are an explicit
    world that every handler threads; each handler is a function from the
    world to a response and the world after it. *)

From stdpp Require Import base decidable option list strings gmap pretty.
From Stdlib Require Import ZArith Lia Sorted.

Local Open Scope Z_scope.
Local Open Scope string_scope.

(** ** JavaScript values the server computes with *)

Module Js.

(** What a property read on the [PLAN_LIMITS] literal can produce: a
    number held by the object itself, a member inherited from
    [Object.prototype], or [undefined]. *)
Inductive value :=
| Undefined
| Number (n : Z)
| Inherited (name : string).

(** The property names every object literal inherits from
    [Object.prototype]. *)
Definition Object_prototype : list string :=
  [ "constructor"; "hasOwnProperty"; "isPrototypeOf";
    "propertyIsEnumerable"; "toLocaleString"; "toString"; "valueOf";
    "__proto__"; "__defineGetter__"; "__defineSetter__";
    "__lookupGetter__"; "__lookupSetter__" ].

(** [obj[key]] on an object literal whose own properties are [own]: own
    properties first, then the prototype chain. *)
Definition get (own : gmap string Z) (key : string) : value :=
  match own !! key with
  | Some n => Number n
  | None => if decide (key ∈ Object_prototype) then Inherited key else Undefined
  end.

(** ToBoolean. Functions and objects are truthy, [0] and [undefined] are
    not. *)
Definition truthy (v : value) : bool :=
  match v with
  | Undefined => false
  | Number n => negb (Z.eqb n 0)
  | Inherited _ => true
  end.

(** [a || b] *)
Definition or (a b : value) : value := if truthy a then a else b.

(** [count >= v] for a number [count]: ToNumber of a function, of an
    object or of [undefined] is NaN, and every comparison with NaN is
    false. *)
Definition ge (count : Z) (v : value) : bool :=
  match v with
  | Number n => Z.leb n count
  | Undefined | Inherited _ => false
  end.

(** [`${v}`] *)
Definition template (v : value) : string :=
  match v with
  | Undefined => "undefined"
  | Number n => pretty n
  | Inherited name =>
      if String.eqb name "__proto__" then "[object Object]"
      else "function " ++ (if String.eqb name "constructor" then "Object" else name)
           ++ "() { [native code] }"
  end.

(** ToBoolean of a value that is a string, [null] or [undefined]: only a
    non-empty string is truthy. *)
Definition truthy_str (v : option string) : bool :=
  match v with
  | Some s => negb (String.eqb s "")
  | None => false
  end.

(** [`${v}`] for a string or [null]. *)
Definition template_str (v : option string) : string :=
  match v with
  | Some s => s
  | None => "null"
  end.

End Js.

(** ** Plan policy *)

Definition PLAN_LIMITS : gmap string Z := {[ "free" := 4; "premium" := 20 ]}.
Definition DEFAULT_PLAN : string := "free".

Definition getPlanLimit (plan : string) : Js.value :=
  Js.or (Js.get PLAN_LIMITS plan) (Js.get PLAN_LIMITS DEFAULT_PLAN).

(** ** Rows of the two tables *)

Module Profile.
(** Modelled from the spec: the declaration of the [profiles] table, which
    the server's source does not hold.  The identity id is the primary
    key, the plan is a text, and the two billing references can be NULL. *)
Record t := mk {
  id : string;
  plan : string;
  stripe_customer_id : option string;
  stripe_subscription_id : option string }.
End Profile.

Module Blog.
(** Modelled from the spec: the declaration of the [blogs] table, which
    the server's source does not hold.  The id is generated, the owner is
    the id of a profile, and the two texts are not NULL. *)
Record t := mk {
  id : Z;
  title : string;
  content : string;
  user_id : string }.
End Blog.

(** [req.user], as the auth middleware leaves it on the request. *)
Module User.
Record t := mk {
  id : string;
  email : option string }.
End User.

(** ** The Supabase client *)

Module Supabase.

Record PostgrestError := mkError { code : string; message : string }.

(** [{ data, error }], the value every awaited query resolves to. *)
Record Response (A : Type) := mkResponse {
  data : option A;
  error : option PostgrestError }.
Arguments mkResponse {A}.
Arguments data {A}.
Arguments error {A}.

Definition ok {A} (a : A) : Response A := mkResponse (Some a) None.
Definition failed {A} (e : PostgrestError) : Response A := mkResponse None (Some e).

(** The error of a singular request that selects no row, or several rows. *)
Definition PGRST116 : PostgrestError :=
  mkError "PGRST116" "JSON object requested, multiple (or no) rows returned".

(** The error of an insert that repeats a primary key. *)
Definition unique_violation : PostgrestError :=
  mkError "23505" "duplicate key value violates unique constraint".

(** [.single()]: exactly one row, or [PGRST116]. *)
Definition single {A} (rows : list A) : Response A :=
  match rows with
  | [row] => ok row
  | _ => failed PGRST116
  end.

(** The object handed to [.update(...)] on [profiles]: [None] leaves the
    column alone, [Some v] assigns [v] ([Some None] assigns SQL NULL). *)
Record ProfileUpdate := mkUpdate {
  set_plan : option string;
  set_stripe_customer_id : option (option string);
  set_stripe_subscription_id : option (option string) }.

Definition apply_update (u : ProfileUpdate) (p : Profile.t) : Profile.t :=
  Profile.mk (Profile.id p)
    (default (Profile.plan p) (set_plan u))
    (default (Profile.stripe_customer_id p) (set_stripe_customer_id u))
    (default (Profile.stripe_subscription_id p) (set_stripe_subscription_id u)).

(** The two filters the server puts on [profiles].  The client writes the
    filter as [`eq.${value}`], so a [null] reference is compared as the
    text "null"; a NULL column equals nothing. *)
Inductive ProfileFilter :=
| eq_id (value : string)
| eq_stripe_customer_id (value : option string).

Definition profile_matches (f : ProfileFilter) (p : Profile.t) : bool :=
  match f with
  | eq_id v => String.eqb (Profile.id p) v
  | eq_stripe_customer_id v =>
      match Profile.stripe_customer_id p with
      | Some c => String.eqb c (Js.template_str v)
      | None => false
      end
  end.

(** [.eq("id", id).eq("user_id", user_id)] on [blogs]. *)
Definition blog_matches (id : Z) (user_id : string) (b : Blog.t) : bool :=
  Z.eqb (Blog.id b) id && String.eqb (Blog.user_id b) user_id.

Definition owned_by (user_id : string) (b : Blog.t) : bool :=
  String.eqb (Blog.user_id b) user_id.

End Supabase.

(** ** The Stripe account *)

Module Stripe.

(** [event.data.object], with the fields the webhook reads.  A reference
    the provider left unset is [null]; [metadata_supabaseUserId] is
    [session.metadata?.supabaseUserId], [None] when there is no such tag. *)
Record DataObject := mkObject {
  metadata_supabaseUserId : option string;
  customer : option string;
  subscription : option string }.

Record Event := mkEvent {
  type : string;
  data_object : DataObject }.

Record Customer := mkCustomer {
  customer_id : string;
  customer_email : option string;
  customer_metadata_supabaseUserId : string }.

Record CheckoutSession := mkSession {
  session_customer : option string;
  session_price : option string;
  session_success_url : string;
  session_cancel_url : string;
  session_metadata_supabaseUserId : string;
  url : string }.

(** The parts of the provider the server cannot compute: the signature
    check of [stripe.webhooks.constructEvent body signature secret], which
    returns the event or throws with a message, and the identifiers the
    provider issues, as a function of how many it has issued before. *)
Record Sdk := mkSdk {
  constructEvent : string -> option string -> string -> Event + string;
  issue_customer_id : nat -> string;
  issue_session_url : nat -> string }.

End Stripe.

(** ** Environment and world *)

Record Config := mkConfig {
  stripeSecretKey : option string;
  stripePriceId : option string;
  stripeWebhookSecret : option string;
  FRONTEND_URL : option string }.

(** [stripe] is a client when the secret key is set and [null] otherwise. *)
Definition stripe (cfg : Config) : bool := Js.truthy_str (stripeSecretKey cfg).

(** A call that leaves the process. *)
Module Call.
Inductive t :=
| stripe_webhooks_constructEvent
| stripe_customers_create
| stripe_checkout_sessions_create
| profiles_select (f : Supabase.ProfileFilter)
| profiles_insert (id : string)
| profiles_update (u : Supabase.ProfileUpdate) (f : Supabase.ProfileFilter)
| blogs_count (user_id : string)
| blogs_insert (user_id : string)
| blogs_update (id : Z) (user_id : string)
| blogs_delete (id : Z) (user_id : string).

(** The calls that reach the tables. *)
Definition store (c : t) : bool :=
  match c with
  | stripe_webhooks_constructEvent
  | stripe_customers_create
  | stripe_checkout_sessions_create => false
  | _ => true
  end.
End Call.

Record World := mkWorld {
  profiles : list Profile.t;
  blogs : list Blog.t;
  blogs_id_seq : Z;
  customers : list Stripe.Customer;
  checkout_sessions : list Stripe.CheckoutSession;
  calls : list Call.t }.

Definition log (c : Call.t) (w : World) : World :=
  mkWorld (profiles w) (blogs w) (blogs_id_seq w) (customers w)
    (checkout_sessions w) (calls w ++ [c]).

Definition with_profiles (ps : list Profile.t) (w : World) : World :=
  mkWorld ps (blogs w) (blogs_id_seq w) (customers w) (checkout_sessions w) (calls w).

Definition with_blogs (bs : list Blog.t) (w : World) : World :=
  mkWorld (profiles w) bs (blogs_id_seq w) (customers w) (checkout_sessions w) (calls w).

Definition with_blog_inserted (b : Blog.t) (w : World) : World :=
  mkWorld (profiles w) (blogs w ++ [b]) (blogs_id_seq w + 1) (customers w)
    (checkout_sessions w) (calls w).

Definition with_customer (c : Stripe.Customer) (w : World) : World :=
  mkWorld (profiles w) (blogs w) (blogs_id_seq w) (customers w ++ [c])
    (checkout_sessions w) (calls w).

Definition with_checkout_session (s : Stripe.CheckoutSession) (w : World) : World :=
  mkWorld (profiles w) (blogs w) (blogs_id_seq w) (customers w)
    (checkout_sessions w ++ [s]) (calls w).

(** ** Async functions: a world transformer that fulfils or rejects *)

Inductive Completion (A : Type) :=
| Fulfilled (a : A)
| Rejected (e : Supabase.PostgrestError).
Arguments Fulfilled {A}.
Arguments Rejected {A}.

Definition Async (A : Type) : Type := World -> Completion A * World.

Definition ret {A} (a : A) : Async A := fun w => (Fulfilled a, w).

Definition throw {A} (e : Supabase.PostgrestError) : Async A := fun w => (Rejected e, w).

Definition bind {A B} (m : Async A) (k : A -> Async B) : Async B :=
  fun w =>
    match m w with
    | (Fulfilled a, w') => k a w'
    | (Rejected e, w') => (Rejected e, w')
    end.

Notation "'let*' x ':=' m 'in' k" := (bind m (fun x => k))
  (at level 10, x name, m at level 100, k at level 200).

(** ** Queries

    Every awaited query resolves to [{ data, error }]; none rejects.  A
    query fails only for what the tables themselves decide: a singular
    request that does not select exactly one row, or an insert that
    repeats a primary key. *)

Definition profiles_select_single (f : Supabase.ProfileFilter)
  : Async (Supabase.Response Profile.t) :=
  fun w =>
    (Fulfilled (Supabase.single (List.filter (Supabase.profile_matches f) (profiles w))),
     log (Call.profiles_select f) w).

(** [.insert({ id, plan }).select().single()]: the columns that are not
    given are NULL. *)
Definition profiles_insert_select_single (id plan : string)
  : Async (Supabase.Response Profile.t) :=
  fun w =>
    let row := Profile.mk id plan None None in
    if existsb (Supabase.profile_matches (Supabase.eq_id id)) (profiles w)
    then (Fulfilled (Supabase.failed Supabase.unique_violation), log (Call.profiles_insert id) w)
    else (Fulfilled (Supabase.ok row),
          with_profiles (profiles w ++ [row]) (log (Call.profiles_insert id) w)).

Definition update_where (u : Supabase.ProfileUpdate) (f : Supabase.ProfileFilter)
  (p : Profile.t) : Profile.t :=
  if Supabase.profile_matches f p then Supabase.apply_update u p else p.

(** [.update(u).eq(...)] without [.select()]: every matching row is
    rewritten, and the response carries no data. *)
Definition profiles_update (u : Supabase.ProfileUpdate) (f : Supabase.ProfileFilter)
  : Async (Supabase.Response unit) :=
  fun w =>
    (Fulfilled (Supabase.mkResponse None None),
     with_profiles (map (update_where u f) (profiles w)) (log (Call.profiles_update u f) w)).

(** [.select("*", { count: "exact", head: true }).eq("user_id", userId)];
    [data] stands for the [count] field. *)
Definition blogs_count_eq_user_id (userId : string) : Async (Supabase.Response Z) :=
  fun w =>
    (Fulfilled (Supabase.ok (Z.of_nat (length (List.filter (Supabase.owned_by userId) (blogs w))))),
     log (Call.blogs_count userId) w).

(** [.insert({ title, content, user_id }).select().single()]: the id comes
    from the table's sequence. *)
Definition blogs_insert_select_single (title content user_id : string)
  : Async (Supabase.Response Blog.t) :=
  fun w =>
    let row := Blog.mk (blogs_id_seq w) title content user_id in
    (Fulfilled (Supabase.ok row), with_blog_inserted row (log (Call.blogs_insert user_id) w)).

Definition retitle (title content : string) (b : Blog.t) : Blog.t :=
  Blog.mk (Blog.id b) title content (Blog.user_id b).

(** [.update({ title, content }).eq("id", id).eq("user_id", user_id)
    .select().single()]: a singular mutation that does not touch exactly
    one row is refused as a whole. *)
Definition blogs_update_select_single (title content : string) (id : Z) (user_id : string)
  : Async (Supabase.Response Blog.t) :=
  fun w =>
    match List.filter (Supabase.blog_matches id user_id) (blogs w) with
    | [b] =>
        (Fulfilled (Supabase.ok (retitle title content b)),
         with_blogs
           (map (fun b => if Supabase.blog_matches id user_id b
                          then retitle title content b else b) (blogs w))
           (log (Call.blogs_update id user_id) w))
    | _ => (Fulfilled (Supabase.failed Supabase.PGRST116), log (Call.blogs_update id user_id) w)
    end.

(** [.delete().eq("id", id).eq("user_id", user_id).select().single()] *)
Definition blogs_delete_select_single (id : Z) (user_id : string)
  : Async (Supabase.Response Blog.t) :=
  fun w =>
    match List.filter (Supabase.blog_matches id user_id) (blogs w) with
    | [b] =>
        (Fulfilled (Supabase.ok b),
         with_blogs
           (List.filter (fun b => negb (Supabase.blog_matches id user_id b)) (blogs w))
           (log (Call.blogs_delete id user_id) w))
    | _ => (Fulfilled (Supabase.failed Supabase.PGRST116), log (Call.blogs_delete id user_id) w)
    end.

(** ** Profile provisioner and post count *)

Definition ensureProfile (user : User.t) : Async Profile.t :=
  let* r := profiles_select_single (Supabase.eq_id (User.id user)) in
  (* the statements after the two early exits *)
  let insert : Async Profile.t :=
    let* r' := profiles_insert_select_single (User.id user) DEFAULT_PLAN in
    match Supabase.error r', Supabase.data r' with
    | Some insertError, _ => throw insertError
    | None, Some newProfile => ret newProfile
    | None, None =>
        (* a null row: the caller's first property read throws *)
        throw (Supabase.mkError "TypeError" "Cannot read properties of null")
    end in
  match Supabase.data r, Supabase.error r with
  | Some profile, _ => ret profile
  | None, Some error =>
      if negb (String.eqb (Supabase.code error) "PGRST116") then throw error else insert
  | None, None => insert
  end.

Definition getBlogCount (userId : string) : Async Z :=
  let* r := blogs_count_eq_user_id userId in
  match Supabase.error r with
  | Some error => throw error
  | None => ret (default 0 (Supabase.data r))
  end.

(** ** HTTP responses *)

Module Http.

Inductive Body :=
| json_error (error : string)
| json_received (received : bool)
| json_blog (data : Blog.t)
| json_message (message : string)
| json_checkoutUrl (checkoutUrl : string)
| json_null
| text (s : string).

Record Response := mkResponse {
  status : Z;
  body : Body }.

(** [res.json(b)] *)
Definition json (b : Body) : Response := mkResponse 200 b.

(** [res.status(n).json({ error })] *)
Definition error (n : Z) (msg : string) : Response := mkResponse n (json_error msg).

End Http.

Definition Handler : Type := World -> Http.Response * World.

(** [try { ... } catch (error) { ... }] around a handler body. *)
Definition try_catch (body : Async Http.Response)
  (handler : Supabase.PostgrestError -> Http.Response) : Handler :=
  fun w =>
    match body w with
    | (Fulfilled r, w') => (r, w')
    | (Rejected e, w') => (handler e, w')
    end.

(** [req.body] of the post routes: each field is a string or absent. *)
Record BlogBody := mkBody {
  title : option string;
  content : option string }.

Section Server.

Variable cfg : Config.
Variable sdk : Stripe.Sdk.

(** *** Stripe calls *)

Definition stripe_customers_create (email : option string) (supabaseUserId : string)
  : Async Stripe.Customer :=
  fun w =>
    let customer :=
      Stripe.mkCustomer (Stripe.issue_customer_id sdk (length (customers w)))
        email supabaseUserId in
    (Fulfilled customer, with_customer customer (log Call.stripe_customers_create w)).

Definition stripe_checkout_sessions_create (customer : option string)
  (supabaseUserId : string) : Async Stripe.CheckoutSession :=
  fun w =>
    let base := if Js.truthy_str (FRONTEND_URL cfg)
                then Js.template_str (FRONTEND_URL cfg) else "http://localhost:3000" in
    let session :=
      Stripe.mkSession customer (stripePriceId cfg)
        (base ++ "/billing-success") (base ++ "/billing-cancel") supabaseUserId
        (Stripe.issue_session_url sdk (length (checkout_sessions w))) in
    (Fulfilled session,
     with_checkout_session session (log Call.stripe_checkout_sessions_create w)).

(** *** POST /stripe/webhook *)

Definition post_stripe_webhook (req_body : string) (stripe_signature : option string)
  : Handler :=
  fun w =>
    if negb (stripe cfg) || negb (Js.truthy_str (stripeWebhookSecret cfg))
    then (Http.error 400 "Stripe webhook not configured.", w)
    else
      let signature := stripe_signature in
      match Stripe.constructEvent sdk req_body signature
              (Js.template_str (stripeWebhookSecret cfg)) with
      | inr err_message =>
          (Http.mkResponse 400 (Http.text ("Webhook Error: " ++ err_message)),
           log Call.stripe_webhooks_constructEvent w)
      | inl event =>
          try_catch
            (let* _ :=
               if String.eqb (Stripe.type event) "checkout.session.completed" then
                 let session := Stripe.data_object event in
                 let supabaseUserId := Stripe.metadata_supabaseUserId session in
                 if Js.truthy_str supabaseUserId then
                   let* _ :=
                     profiles_update
                       (Supabase.mkUpdate (Some "premium")
                          (Some (Stripe.customer session))
                          (Some (Stripe.subscription session)))
                       (Supabase.eq_id (Js.template_str supabaseUserId)) in
                   ret tt
                 else ret tt
               else if String.eqb (Stripe.type event) "customer.subscription.deleted" then
                 let subscription := Stripe.data_object event in
                 let* _ :=
                   profiles_update
                     (Supabase.mkUpdate (Some DEFAULT_PLAN) None (Some None))
                     (Supabase.eq_stripe_customer_id (Stripe.customer subscription)) in
                 ret tt
               else ret tt in
             ret (Http.json (Http.json_received true)))
            (fun error => Http.error 500 "Failed to process webhook.")
            (log Call.stripe_webhooks_constructEvent w)
      end.

(** *** POST /blogs *)

Definition post_blogs (user : User.t) (req_body : BlogBody) : Handler :=
  try_catch
    (if negb (Js.truthy_str (title req_body)) || negb (Js.truthy_str (content req_body))
     then ret (Http.error 400 "Title and content are required.")
     else
       let* profile := ensureProfile user in
       let* userBlogCount := getBlogCount (User.id user) in
       let planLimit := getPlanLimit (Profile.plan profile) in
       if Js.ge userBlogCount planLimit
       then ret (Http.error 403
                   ("Plan limit reached. Upgrade to add more than "
                    ++ Js.template planLimit ++ " blogs."))
       else
         (* both fields are strings here: they passed the truthiness test *)
         let* r := blogs_insert_select_single
                     (default "" (title req_body)) (default "" (content req_body))
                     (User.id user) in
         match Supabase.error r, Supabase.data r with
         | Some error, _ => throw error
         | None, Some data => ret (Http.json (Http.json_blog data))
         | None, None => ret (Http.json Http.json_null)
         end)
    (fun error => Http.error 500 "Failed to add blog.").

(** *** PUT /blogs/:id *)

Definition put_blogs_id (user : User.t) (blogId : Z) (req_body : BlogBody) : Handler :=
  try_catch
    (if negb (Js.truthy_str (title req_body)) || negb (Js.truthy_str (content req_body))
     then ret (Http.error 400 "Title and content are required.")
     else
       let* r := blogs_update_select_single
                   (default "" (title req_body)) (default "" (content req_body))
                   blogId (User.id user) in
       match Supabase.error r, Supabase.data r with
       | Some error, _ => throw error
       | None, None => ret (Http.error 404 "Blog not found.")
       | None, Some data => ret (Http.json (Http.json_blog data))
       end)
    (fun error => Http.error 500 "Failed to update blog.").

(** *** DELETE /blogs/:id *)

Definition delete_blogs_id (user : User.t) (blogId : Z) : Handler :=
  try_catch
    (let* r := blogs_delete_select_single blogId (User.id user) in
     match Supabase.error r, Supabase.data r with
     | Some error, _ => throw error
     | None, None => ret (Http.error 404 "Blog not found.")
     | None, Some data => ret (Http.json (Http.json_message "Blog deleted successfully."))
     end)
    (fun error => Http.error 500 "Failed to delete blog.").

(** *** POST /billing/checkout *)

Definition post_billing_checkout (user : User.t) : Handler :=
  try_catch
    (if negb (stripe cfg) || negb (Js.truthy_str (stripePriceId cfg))
     then ret (Http.error 500 "Stripe not configured.")
     else
       let* profile := ensureProfile user in
       if String.eqb (Profile.plan profile) "premium"
       then ret (Http.error 400 "You already have the premium plan.")
       else
         let* customerId :=
           if negb (Js.truthy_str (Profile.stripe_customer_id profile)) then
             let* customer :=
               stripe_customers_create
                 (if Js.truthy_str (User.email user) then User.email user else None)
                 (User.id user) in
             let* _ :=
               profiles_update
                 (Supabase.mkUpdate None (Some (Some (Stripe.customer_id customer))) None)
                 (Supabase.eq_id (User.id user)) in
             ret (Some (Stripe.customer_id customer))
           else ret (Profile.stripe_customer_id profile) in
         let* checkoutSession := stripe_checkout_sessions_create customerId (User.id user) in
         ret (Http.json (Http.json_checkoutUrl (Stripe.url checkoutSession))))
    (fun error => Http.error 500 "Failed to create checkout session.").

End Server.

(** ** What the statements below speak about *)

(** The profile rows of an identity. *)
Definition profiles_of (id : string) (w : World) : list Profile.t :=
  List.filter (Supabase.profile_matches (Supabase.eq_id id)) (profiles w).

(** The number of posts an identity owns. *)
Definition post_count (user_id : string) (w : World) : Z :=
  Z.of_nat (length (List.filter (Supabase.owned_by user_id) (blogs w))).

(** The webhook is configured: a Stripe client and a signing secret. *)
Definition webhook_configured (cfg : Config) (secret : string) : Prop :=
  stripe cfg = true /\ stripeWebhookSecret cfg = Some secret /\ secret <> "".

(** The checkout is configured: a Stripe client and a price. *)
Definition checkout_configured (cfg : Config) : Prop :=
  stripe cfg = true /\ Js.truthy_str (stripePriceId cfg) = true.

(** What the handler does with a verified event: the world after the
    check, changed by at most one update of [profiles]. *)
Definition applied (event : Stripe.Event) (w : World) : World :=
  let w0 := log Call.stripe_webhooks_constructEvent w in
  let obj := Stripe.data_object event in
  if String.eqb (Stripe.type event) "checkout.session.completed" then
    if Js.truthy_str (Stripe.metadata_supabaseUserId obj) then
      let u := Supabase.mkUpdate (Some "premium")
                 (Some (Stripe.customer obj)) (Some (Stripe.subscription obj)) in
      let f := Supabase.eq_id (Js.template_str (Stripe.metadata_supabaseUserId obj)) in
      with_profiles (map (update_where u f) (profiles w)) (log (Call.profiles_update u f) w0)
    else w0
  else if String.eqb (Stripe.type event) "customer.subscription.deleted" then
    let u := Supabase.mkUpdate (Some DEFAULT_PLAN) None (Some None) in
    let f := Supabase.eq_stripe_customer_id (Stripe.customer obj) in
    with_profiles (map (update_where u f) (profiles w)) (log (Call.profiles_update u f) w0)
  else w0.

(** ** Sample configuration, provider and worlds *)

Module Sample.

Definition cfg : Config :=
  mkConfig (Some "sk_test_1") (Some "price_1") (Some "whsec_1") None.

(** A stand-in for the provider.  A delivery verifies when its signature
    header is the secret itself, and then yields [event]; customer ids and
    session urls are numbered. *)
Definition sdk (event : Stripe.Event) : Stripe.Sdk :=
  Stripe.mkSdk
    (fun body signature secret =>
       if Js.truthy_str signature && String.eqb (Js.template_str signature) secret
       then inl event
       else inr "No signatures found matching the expected signature for payload.")
    (fun n => "cus_" ++ pretty n)
    (fun n => "https://checkout.stripe.com/c/pay/cs_test_" ++ pretty n).

Definition completed : Stripe.Event :=
  Stripe.mkEvent "checkout.session.completed"
    (Stripe.mkObject (Some "U1") (Some "cus_1") (Some "sub_1")).

Definition deleted : Stripe.Event :=
  Stripe.mkEvent "customer.subscription.deleted"
    (Stripe.mkObject None (Some "cus_1") None).

Definition invoice_paid : Stripe.Event :=
  Stripe.mkEvent "invoice.paid" (Stripe.mkObject None (Some "cus_1") (Some "sub_1")).

Definition alice : User.t := User.mk "alice" (Some "alice@example.com").
Definition bob : User.t := User.mk "bob" None.
Definition U1 : User.t := User.mk "U1" (Some "u1@example.com").

(** Alice is on the free plan and owns one post; U1 subscribed once and
    cancelled; Bob has no profile yet. *)
Definition world : World :=
  mkWorld
    [ Profile.mk "alice" "free" None None;
      Profile.mk "U1" "free" (Some "cus_1") None ]
    [ Blog.mk 1 "Hello" "World" "alice" ]
    2 [] [] [].

(** The same, with U1 subscribed. *)
Definition subscribed : World :=
  mkWorld
    [ Profile.mk "alice" "free" None None;
      Profile.mk "U1" "premium" (Some "cus_1") (Some "sub_1") ]
    [ Blog.mk 1 "Hello" "World" "alice" ]
    2 [] [] [].

(** Alice with [n] more posts. *)
Fixpoint more_posts (n : nat) (w : World) : World :=
  match n with
  | O => w
  | S n' =>
      more_posts n' (with_blog_inserted (Blog.mk (blogs_id_seq w) "t" "c" "alice") w)
  end.

End Sample.


(** ** The rest of the server: the auth middleware and the read routes *)

(** *** [String.prototype.replace] and [String.prototype.trim] *)

Module JsString.

Fixpoint drop (n : nat) (s : string) : string :=
  match n, s with
  | O, _ => s
  | S n', String _ s' => drop n' s'
  | S _, EmptyString => EmptyString
  end.

(** [s.replace(pattern, replacement)] for a string pattern: the first
    occurrence only.  The replacement is taken literally, which is what
    JavaScript does for a replacement without a dollar sign. *)
Fixpoint replace (pattern replacement s : string) : string :=
  if String.prefix pattern s
  then replacement ++ drop (String.length pattern) s
  else match s with
       | EmptyString => EmptyString
       | String c s' => String c (replace pattern replacement s')
       end.

(** White space and line terminators among the Latin-1 characters, which
    is what a header value is made of: tab, line feed, vertical tab, form
    feed, carriage return, space and no-break space. *)
Definition is_space (c : Ascii.ascii) : bool :=
  existsb (Nat.eqb (Ascii.nat_of_ascii c)) [9; 10; 11; 12; 13; 32; 160]%nat.

Fixpoint trim_start (s : string) : string :=
  match s with
  | EmptyString => EmptyString
  | String c s' => if is_space c then trim_start s' else s
  end.

Fixpoint trim_end (s : string) : string :=
  match s with
  | EmptyString => EmptyString
  | String c s' =>
      match trim_end s' with
      | EmptyString => if is_space c then EmptyString else String c EmptyString
      | r => String c r
      end
  end.

(** [s.trim()] *)
Definition trim (s : string) : string := trim_end (trim_start s).

(** No character of [s] is white space. *)
Fixpoint no_space (s : string) : bool :=
  match s with
  | EmptyString => true
  | String c s' => negb (is_space c) && no_space s'
  end.

(** Every character of [s] is white space. *)
Fixpoint blank (s : string) : bool :=
  match s with
  | EmptyString => true
  | String c s' => is_space c && blank s'
  end.

End JsString.

(** *** [requireAuth] *)

Module Auth.

(** [{ data: { user }, error }], what [supabase.auth.getUser] resolves to. *)
Record UserResponse := mkUserResponse {
  data_user : option User.t;
  error : option string }.

(** The auth service: [getUser token] resolves or, when the call itself
    fails, rejects. *)
Record Provider := mkProvider {
  getUser : string -> Completion UserResponse }.

(** How the middleware ends: it answers itself, or it sets [req.user] and
    calls [next()]. *)
Inductive Outcome :=
| respond (status : Z) (error : string)
| next (user : User.t).

End Auth.

Definition requireAuth (auth : Auth.Provider) (authorization : option string)
  : Auth.Outcome :=
  let authHeader := if Js.truthy_str authorization
                    then Js.template_str authorization else "" in
  let token := JsString.trim (JsString.replace "Bearer " "" authHeader) in
  if negb (Js.truthy_str (Some token))
  then Auth.respond 401 "Missing auth token."
  else
    match Auth.getUser auth token with
    | Rejected _ => Auth.respond 500 "Authentication failed."
    | Fulfilled r =>
        match Auth.error r, Auth.data_user r with
        | Some _, _ | None, None => Auth.respond 401 "Invalid auth token."
        | None, Some user => Auth.next user
        end
    end.

(** *** Replies of the read routes *)

Module Reply.
Inductive t (A : Type) :=
| json (data : A)
| error (status : Z) (message : string).
Arguments json {A}.
Arguments error {A}.
End Reply.

(** The object GET /profile hands to [res.json]. *)
Record ProfileInfo := mkProfileInfo {
  info_plan : string;
  blogCount : Z;
  maxBlogs : Js.value }.

Definition try_catch_reply {A : Type} (body : Async (Reply.t A))
  (handler : Supabase.PostgrestError -> Reply.t A) : World -> Reply.t A * World :=
  fun w =>
    match body w with
    | (Fulfilled r, w') => (r, w')
    | (Rejected e, w') => (handler e, w')
    end.

(** *** GET /profile *)

Definition get_profile (user : User.t) : World -> Reply.t ProfileInfo * World :=
  try_catch_reply
    (let* profile := ensureProfile user in
     let* blogCount := getBlogCount (User.id user) in
     ret (Reply.json
            (mkProfileInfo (Profile.plan profile) blogCount
               (getPlanLimit (Profile.plan profile)))))
    (fun error => Reply.error 500 "Failed to fetch profile.").

(** *** GET /blogs *)

Fixpoint insert_by_id (b : Blog.t) (l : list Blog.t) : list Blog.t :=
  match l with
  | [] => [b]
  | x :: l' => if Z.leb (Blog.id b) (Blog.id x) then b :: l else x :: insert_by_id b l'
  end.

(** [.order("id", { ascending: true })] *)
Fixpoint order_by_id (l : list Blog.t) : list Blog.t :=
  match l with
  | [] => []
  | b :: l' => insert_by_id b (order_by_id l')
  end.

(** [.select("*").eq("user_id", userId).order("id", { ascending: true })].
    The alphabet of [calls] is that of the writing routes; this read is
    not recorded in it. *)
Definition blogs_select_eq_user_id_order_id (userId : string)
  : Async (Supabase.Response (list Blog.t)) :=
  fun w =>
    (Fulfilled (Supabase.ok (order_by_id (List.filter (Supabase.owned_by userId) (blogs w)))),
     w).

Definition get_blogs (user : User.t) : World -> Reply.t (list Blog.t) * World :=
  try_catch_reply
    (let* _ := ensureProfile user in
     let* r := blogs_select_eq_user_id_order_id (User.id user) in
     match Supabase.error r with
     | Some error => throw error
     | None => ret (Reply.json (default [] (Supabase.data r)))
     end)
    (fun error => Reply.error 500 "Failed to fetch blogs.").

(** *** The routes, as [app.get], [app.post], [app.put] and [app.delete]
    register them *)

Inductive Request :=
| POST_stripe_webhook (body : string) (stripe_signature : option string)
| GET_profile (authorization : option string)
| GET_blogs (authorization : option string)
| POST_blogs (authorization : option string) (body : BlogBody)
| PUT_blogs_id (authorization : option string) (id : Z) (body : BlogBody)
| DELETE_blogs_id (authorization : option string) (id : Z)
| POST_billing_checkout (authorization : option string).

Inductive Answer :=
| http (r : Http.Response)
| profile_reply (r : Reply.t ProfileInfo)
| blogs_reply (r : Reply.t (list Blog.t)).

Section Routes.

Variable cfg : Config.
Variable sdk : Stripe.Sdk.
Variable auth : Auth.Provider.

(** A route registered behind [requireAuth]. *)
Definition protect {R : Type} (deny : Z -> string -> R) (authorization : option string)
  (handler : User.t -> World -> R * World) : World -> R * World :=
  fun w =>
    match requireAuth auth authorization with
    | Auth.respond status error => (deny status error, w)
    | Auth.next user => handler user w
    end.

Definition answer {R : Type} (wrap : R -> Answer) (h : World -> R * World)
  : World -> Answer * World :=
  fun w => (wrap (fst (h w)), snd (h w)).

Definition serve (req : Request) : World -> Answer * World :=
  match req with
  | POST_stripe_webhook body stripe_signature =>
      answer http (post_stripe_webhook cfg sdk body stripe_signature)
  | GET_profile a =>
      answer profile_reply (protect Reply.error a get_profile)
  | GET_blogs a =>
      answer blogs_reply (protect Reply.error a get_blogs)
  | POST_blogs a body =>
      answer http (protect Http.error a (fun user => post_blogs user body))
  | PUT_blogs_id a id body =>
      answer http (protect Http.error a (fun user => put_blogs_id user id body))
  | DELETE_blogs_id a id =>
      answer http (protect Http.error a (fun user => delete_blogs_id user id))
  | POST_billing_checkout a =>
      answer http (protect Http.error a (post_billing_checkout cfg sdk))
  end.

(** The world after a sequence of requests, served one after the other. *)
Definition run (reqs : list Request) (w : World) : World :=
  fold_left (fun w req => snd (serve req w)) reqs w.

(** The user a request is served for, if the middleware lets it through. *)
Definition requester (req : Request) : option User.t :=
  let user_of a := match requireAuth auth a with
                   | Auth.next user => Some user
                   | Auth.respond _ _ => None
                   end in
  match req with
  | POST_stripe_webhook _ _ => None
  | GET_profile a | GET_blogs a | POST_blogs a _ | PUT_blogs_id a _ _
  | DELETE_blogs_id a _ | POST_billing_checkout a => user_of a
  end.

End Routes.

(** ** Well-formed worlds *)


(** Post ids are unique and below the next value of the sequence. *)
Definition fresh_ids (w : World) : Prop :=
  NoDup (map Blog.id (blogs w)) /\
  Forall (fun b => Blog.id b < blogs_id_seq w) (blogs w).

(** Every plan is one of the two tiers. *)
Definition known_plans (w : World) : Prop :=
  Forall (fun p => Profile.plan p = "free" \/ Profile.plan p = "premium") (profiles w).

(** The status an answer is sent with. *)
Definition status_of (a : Answer) : Z :=
  match a with
  | http r => Http.status r
  | profile_reply (Reply.json _) | blogs_reply (Reply.json _) => 200
  | profile_reply (Reply.error status _) | blogs_reply (Reply.error status _) => status
  end.

(** ** Invariants of the tables

    Every write of the server is one of eight changes of the world.  A
    policy says which of them may happen: for which ids a profile may be
    provisioned, which updates of [profiles] may run, and which users may
    write posts.  A property of worlds is closed under a policy when each
    change the policy lets through keeps it. *)

Record Policy := mkPolicy {
  may_provision : string -> Prop;
  may_update : Supabase.ProfileUpdate -> Supabase.ProfileFilter -> Prop;
  may_write : string -> Prop }.

Record Closed (P : Policy) (I : World -> Prop) : Prop := mkClosed {
  closed_log : forall c w, I w -> I (log c w);
  closed_customer : forall c w, I w -> I (with_customer c w);
  closed_session : forall s w, I w -> I (with_checkout_session s w);
  closed_provision : forall id w,
    may_provision P id ->
    existsb (Supabase.profile_matches (Supabase.eq_id id)) (profiles w) = false ->
    I w -> I (with_profiles (profiles w ++ [Profile.mk id DEFAULT_PLAN None None]) w);
  closed_update : forall u f w,
    may_update P u f ->
    I w -> I (with_profiles (map (update_where u f) (profiles w)) w);
  closed_insert : forall t c uid w,
    may_write P uid ->
    I w -> I (with_blog_inserted (Blog.mk (blogs_id_seq w) t c uid) w);
  closed_retitle : forall t c id uid w,
    may_write P uid ->
    I w ->
    I (with_blogs
         (map (fun b => if Supabase.blog_matches id uid b then retitle t c b else b)
            (blogs w)) w);
  closed_delete : forall id uid w,
    may_write P uid ->
    I w ->
    I (with_blogs
         (List.filter (fun b => negb (Supabase.blog_matches id uid b)) (blogs w)) w) }.

(** What a request needs from the policy: the webhook its two updates; a
    request that passes the middleware the provisioning of its user's
    profile, and, by route, the right to write posts or the update that
    stores the customer id. *)
Definition permits (auth : Auth.Provider) (P : Policy) (req : Request) : Prop :=
  match req with
  | POST_stripe_webhook _ _ =>
      (forall id cus sub,
         may_update P (Supabase.mkUpdate (Some "premium") (Some cus) (Some sub))
           (Supabase.eq_id id)) /\
      (forall c,
         may_update P (Supabase.mkUpdate (Some DEFAULT_PLAN) None (Some None))
           (Supabase.eq_stripe_customer_id c))
  | _ =>
      forall user, requester auth req = Some user ->
        may_provision P (User.id user) /\
        match req with
        | POST_blogs _ _ | PUT_blogs_id _ _ _ | DELETE_blogs_id _ _ =>
            may_write P (User.id user)
        | POST_billing_checkout _ =>
            forall cid,
              may_update P (Supabase.mkUpdate None (Some (Some cid)) None)
                (Supabase.eq_id (User.id user))
        | _ => True
        end
  end.

(** A computation keeps a property of worlds. *)
Definition keeps {R : Type} (I : World -> Prop) (h : World -> R * World) : Prop :=
  forall w, I w -> I (snd (h w)).

(** The policy that lets every change through. *)
Definition anything : Policy :=
  mkPolicy (fun _ => True) (fun _ _ => True) (fun _ => True).

(** Everybody but [V] may write posts. *)
Definition not_as (V : string) : Policy :=
  mkPolicy (fun _ => True) (fun _ _ => True) (fun uid => uid <> V).

(** No update of [profiles] may set the plan. *)
Definition plan_untouched : Policy :=
  mkPolicy (fun _ => True) (fun u _ => Supabase.set_plan u = None) (fun _ => True).

(** Nobody may write posts. *)
Definition read_only : Policy :=
  mkPolicy (fun _ => True) (fun _ _ => True) (fun _ => False).

(** The updates of [profiles] the server ever runs set the plan, if at all,
    to one of the two tiers. *)
Definition tier_updates : Policy :=
  mkPolicy (fun _ => True)
    (fun u _ => Supabase.set_plan u = None \/ Supabase.set_plan u = Some "premium"
                \/ Supabase.set_plan u = Some "free")
    (fun _ => True).

Definition is_webhook (req : Request) : bool :=
  match req with
  | POST_stripe_webhook _ _ => true
  | _ => false
  end.

Definition writes_posts (req : Request) : bool :=
  match req with
  | POST_blogs _ _ | PUT_blogs_id _ _ _ | DELETE_blogs_id _ _ => true
  | _ => false
  end.

(** The posts of one owner. *)
Definition posts_of (user_id : string) (w : World) : list Blog.t :=
  List.filter (Supabase.owned_by user_id) (blogs w).

(** ** The browser client (App.js)

    The state the post handlers of the component read and set, and the
    handlers as functions of that state and of the server's world.  One
    handler runs to its end before the next starts, and every state
    setter takes effect in the order the handler calls it. *)

(** What the promise of an axios request settles to.  A status from 200
    to 299 resolves it with the answer; any other status rejects it with
    an error that carries the answer, of which the handlers read
    [error.response?.data?.error]. *)
Module Axios.

Inductive Settled :=
| resolved (answer : Answer)
| rejected (response_data_error : option string).

Definition data_error (a : Answer) : option string :=
  match a with
  | http (Http.mkResponse _ (Http.json_error error)) => Some error
  | profile_reply (Reply.error _ error) | blogs_reply (Reply.error _ error) => Some error
  | _ => None
  end.

Definition settle (a : Answer) : Settled :=
  if Z.leb 200 (status_of a) && Z.ltb (status_of a) 300
  then resolved a
  else rejected (data_error a).

(** [error.response?.data?.error || fallback] *)
Definition message (response_data_error : option string) (fallback : string) : string :=
  if Js.truthy_str response_data_error
  then Js.template_str response_data_error else fallback.

End Axios.

(** A value after [JSON.stringify] on the server and [JSON.parse] in the
    browser: a number stays; a property whose value is a function is left
    out, so it reads as [undefined]; the prototype object arrives as an
    object, for which [Inherited "__proto__"] stands ([>=] is false and
    the template is "[object Object]", as for every plain object). *)
Definition through_json (v : Js.value) : Js.value :=
  match v with
  | Js.Number n => Js.Number n
  | Js.Undefined => Js.Undefined
  | Js.Inherited name =>
      if String.eqb name "__proto__" then Js.Inherited "__proto__" else Js.Undefined
  end.

Module Client.

(** The [blog] state: the two inputs of the form. *)
Record Draft := mkDraft {
  title : string;
  content : string }.

Record t := mk {
  blog : Draft;
  blogs : list Blog.t;
  createPost : bool;
  session_access_token : option string;
  profile : option ProfileInfo;
  statusMessage : string }.

Definition setStatusMessage (s : string) (cl : t) : t :=
  mk (blog cl) (blogs cl) (createPost cl) (session_access_token cl) (profile cl) s.

Definition setBlogs (bs : list Blog.t) (cl : t) : t :=
  mk (blog cl) bs (createPost cl) (session_access_token cl) (profile cl)
     (statusMessage cl).

Definition setProfile (p : option ProfileInfo) (cl : t) : t :=
  mk (blog cl) (blogs cl) (createPost cl) (session_access_token cl) p
     (statusMessage cl).

Definition setCreatePost (b : bool) (cl : t) : t :=
  mk (blog cl) (blogs cl) b (session_access_token cl) (profile cl) (statusMessage cl).

Definition setBlog (d : Draft) (cl : t) : t :=
  mk d (blogs cl) (createPost cl) (session_access_token cl) (profile cl)
     (statusMessage cl).

(** [prev ? { ...prev, blogCount: f(prev.blogCount) } : prev] *)
Definition with_blogCount (f : Z -> Z) (p : option ProfileInfo) : option ProfileInfo :=
  match p with
  | Some v => Some (mkProfileInfo (info_plan v) (f (blogCount v)) (maxBlogs v))
  | None => None
  end.

(** [profile && profile.blogCount >= profile.maxBlogs] *)
Definition reachedLimit (cl : t) : bool :=
  match profile cl with
  | Some v => Js.ge (blogCount v) (maxBlogs v)
  | None => false
  end.

(** The row a 200 answer of POST /blogs or PUT /blogs/:id carries. *)
Definition data_blog (a : Answer) : option Blog.t :=
  match a with
  | http (Http.mkResponse _ (Http.json_blog b)) => Some b
  | _ => None
  end.

Section Handlers.

Variable cfg : Config.
Variable sdk : Stripe.Sdk.
Variable auth : Auth.Provider.

Definition authorization (access_token : string) : option string :=
  Some ("Bearer " ++ access_token).



Definition submitPost (cl : t) (w : World) : t * World :=
  match session_access_token cl with
  | None => (cl, w)
  | Some access_token =>
      if String.eqb (title (blog cl)) "" || String.eqb (content (blog cl)) ""
      then (setStatusMessage "Title and content are required." cl, w)
      else if reachedLimit cl
      then (setStatusMessage
              ("You have reached your plan limit of "
               ++ match profile cl with
                  | Some v => Js.template (maxBlogs v)
                  | None => "undefined"
                  end ++ " blogs.") cl, w)
      else
        let (answer, w') :=
          serve cfg sdk auth
            (POST_blogs (authorization access_token)
               (mkBody (Some (title (blog cl))) (Some (content (blog cl))))) w in
        match Axios.settle answer with
        | Axios.resolved result =>
            match data_blog result with
            | Some data =>
                (setStatusMessage ""
                   (setBlog (mkDraft "" "")
                      (setCreatePost false
                         (setProfile (with_blogCount (fun n => n + 1) (profile cl))
                            (setBlogs (blogs cl ++ [data]) cl)))), w')
            | None => (cl, w')  (* never the case, see [posted_answer_carries_row] *)
            end
        | Axios.rejected e =>
            (setStatusMessage (Axios.message e "Failed to add blog.") cl, w')
        end
  end.

Definition editBlog (id : Z) (editedBlog : BlogBody) (cl : t) (w : World) : t * World :=
  match session_access_token cl with
  | None => (cl, w)
  | Some access_token =>
      let (answer, w') :=
        serve cfg sdk auth (PUT_blogs_id (authorization access_token) id editedBlog) w in
      match Axios.settle answer with
      | Axios.resolved result =>
          match data_blog result with
          | Some data =>
              (setStatusMessage ""
                 (setBlogs
                    (map (fun item => if Z.eqb (Blog.id item) id then data else item)
                       (blogs cl)) cl), w')
          | None => (cl, w')  (* never the case, see [posted_answer_carries_row] *)
          end
      | Axios.rejected e =>
          (setStatusMessage (Axios.message e "Failed to update blog.") cl, w')
      end
  end.

Definition deleteBlog (id : Z) (cl : t) (w : World) : t * World :=
  match session_access_token cl with
  | None => (cl, w)
  | Some access_token =>
      let (answer, w') :=
        serve cfg sdk auth (DELETE_blogs_id (authorization access_token) id) w in
      match Axios.settle answer with
      | Axios.resolved _ =>
          (setStatusMessage ""
             (setProfile (with_blogCount (fun n => Z.max (n - 1) 0) (profile cl))
                (setBlogs
                   (List.filter (fun item => negb (Z.eqb (Blog.id item) id)) (blogs cl))
                   cl)), w')
      | Axios.rejected e =>
          (setStatusMessage (Axios.message e "Failed to delete blog.") cl, w')
      end
  end.

End Handlers.

(** The client shows what the server holds for [user]: its list is the
    listing GET /blogs would answer with, and its profile card, if it has
    one, counts the posts the server counts. *)
Definition in_step (user : User.t) (cl : t) (w : World) : Prop :=
  blogs cl = order_by_id (posts_of (User.id user) w) /\
  forall v, profile cl = Some v -> blogCount v = post_count (User.id user) w.

End Client.

(** ** A sample auth service *)

Module SampleAuth.

(** Three sessions are open; every other token is refused. *)
Definition provider : Auth.Provider :=
  Auth.mkProvider
    (fun token =>
       if String.eqb token "jwt.alice" then
         Fulfilled (Auth.mkUserResponse (Some Sample.alice) None)
       else if String.eqb token "jwt.bob" then
         Fulfilled (Auth.mkUserResponse (Some Sample.bob) None)
       else if String.eqb token "jwt.U1" then
         Fulfilled (Auth.mkUserResponse (Some Sample.U1) None)
       else Fulfilled (Auth.mkUserResponse None (Some "invalid JWT"))).

End SampleAuth.

(** ** A sample provider that tells deliveries apart *)

Module SampleDeliveries.

(** A delivery verifies when its signature header is the secret itself;
    the payload is then looked up in [events]. *)
Definition sdk (events : list (string * Stripe.Event)) : Stripe.Sdk :=
  Stripe.mkSdk
    (fun body signature secret =>
       if Js.truthy_str signature && String.eqb (Js.template_str signature) secret
       then match List.find (fun e => String.eqb (fst e) body) events with
            | Some e => inl (snd e)
            | None => inr "Unexpected end of JSON input"
            end
       else inr "No signatures found matching the expected signature for payload.")
    (fun n => "cus_" ++ pretty n)
    (fun n => "https://checkout.stripe.com/c/pay/cs_test_" ++ pretty n).

(** Alice's checkout completed for the customer "cus_0". *)
Definition alice_completed : Stripe.Event :=
  Stripe.mkEvent "checkout.session.completed"
    (Stripe.mkObject (Some "alice") (Some "cus_0") (Some "sub_7")).

Definition events : list (string * Stripe.Event) :=
  [ ("evt_completed", Sample.completed); ("evt_deleted", Sample.deleted);
    ("evt_alice", alice_completed) ].

End SampleDeliveries.

(** ** A sample client *)

Module SampleClient.

(** Alice is signed in, has loaded her list and her profile, and has
    filled in the form. *)
Definition alice : Client.t :=
  Client.mk (Client.mkDraft "Second" "post")
    [ Blog.mk 1 "Hello" "World" "alice" ]
    true (Some "jwt.alice")
    (Some (mkProfileInfo "free" 1 (Js.Number 4))) "".

End SampleClient.

(** * Properties *)

(** ** Plan policy *)

Lemma PLAN_LIMITS_other (plan : string) :
  plan <> "free" -> plan <> "premium" -> PLAN_LIMITS !! plan = None.
Proof.
  intros Hf Hp. unfold PLAN_LIMITS.
  rewrite lookup_insert_ne by congruence.
  apply lookup_singleton_ne. congruence.
Qed.

Lemma getPlanLimit_free : getPlanLimit "free" = Js.Number 4.
Proof. vm_compute. reflexivity. Qed.

Lemma getPlanLimit_premium : getPlanLimit "premium" = Js.Number 20.
Proof. vm_compute. reflexivity. Qed.

(** A tier that is neither a key of [PLAN_LIMITS] nor a member of
    [Object.prototype] gets the free ceiling. *)
Lemma getPlanLimit_fallback (plan : string) :
  plan <> "free" -> plan <> "premium" -> plan ∉ Js.Object_prototype ->
  getPlanLimit plan = Js.Number 4.
Proof.
  intros Hf Hp Hproto. unfold getPlanLimit, Js.get.
  rewrite PLAN_LIMITS_other by assumption.
  destruct (decide (plan ∈ Js.Object_prototype)) as [Hin | _]; [contradiction |].
  reflexivity.
Qed.

(** A tier that names a member of [Object.prototype] gets that member:
    the read finds it through the prototype chain, and it is truthy. *)
Lemma getPlanLimit_inherited (plan : string) :
  plan ∈ Js.Object_prototype -> getPlanLimit plan = Js.Inherited plan.
Proof.
  intros Hin. unfold getPlanLimit, Js.get.
  assert (Hf : plan <> "free").
  { intros ->.
    repeat (apply elem_of_cons in Hin as [Hin | Hin]; [discriminate |]).
    inversion Hin. }
  assert (Hp : plan <> "premium").
  { intros ->.
    repeat (apply elem_of_cons in Hin as [Hin | Hin]; [discriminate |]).
    inversion Hin. }
  rewrite PLAN_LIMITS_other by assumption.
  destruct (decide (plan ∈ Js.Object_prototype)); [reflexivity | contradiction].
Qed.

(** C5. [getPlanLimit] is total and returns 4 for "free" and 20 for
    "premium", but not every other tier string gets the free ceiling: for
    the tier "constructor" the read [PLAN_LIMITS[plan]] finds the member
    inherited from [Object.prototype], which is truthy, so the fallback is
    not taken and the result is not the number 4. *)
Theorem getPlanLimit_constructor :
  getPlanLimit "free" = Js.Number 4 /\
  getPlanLimit "premium" = Js.Number 20 /\
  "constructor" <> "free" /\ "constructor" <> "premium" /\
  getPlanLimit "constructor" = Js.Inherited "constructor" /\
  getPlanLimit "constructor" <> Js.Number 4.
Proof.
  repeat split; try (vm_compute; reflexivity); discriminate.
Qed.

(** ** Truthiness of strings *)

Lemma truthy_str_Some (s : string) : s <> "" -> Js.truthy_str (Some s) = true.
Proof.
  intros Hs. unfold Js.truthy_str.
  destruct (String.eqb_spec s ""); [contradiction | reflexivity].
Qed.

Lemma truthy_str_inv (v : option string) :
  Js.truthy_str v = true -> exists s, v = Some s /\ s <> "".
Proof.
  destruct v as [s |]; [| discriminate]. unfold Js.truthy_str.
  destruct (String.eqb_spec s ""); [discriminate |]. eauto.
Qed.

Lemma falsy_str_inv (v : option string) :
  Js.truthy_str v = false -> v = None \/ v = Some "".
Proof.
  destruct v as [s |]; [| auto]. unfold Js.truthy_str.
  destruct (String.eqb_spec s ""); [subst; auto | discriminate].
Qed.

(** ** Profile provisioner *)

(** The lookup finds the one row: it is returned and nothing is written. *)
Lemma ensureProfile_found (user : User.t) (p : Profile.t) (w : World) :
  profiles_of (User.id user) w = [p] ->
  ensureProfile user w
  = (Fulfilled p, log (Call.profiles_select (Supabase.eq_id (User.id user))) w).
Proof.
  intros Hp. unfold ensureProfile, bind, profiles_select_single.
  unfold profiles_of in Hp. rewrite Hp. reflexivity.
Qed.

Lemma profiles_of_absent (id : string) (w : World) :
  profiles_of id w = [] ->
  existsb (Supabase.profile_matches (Supabase.eq_id id)) (profiles w) = false.
Proof.
  unfold profiles_of. induction (profiles w) as [| q qs IH]; [reflexivity |].
  cbn [List.filter existsb].
  destruct (Supabase.profile_matches (Supabase.eq_id id) q); [discriminate |].
  exact IH.
Qed.

(** The lookup finds no row: one row is inserted, on the default plan and
    with NULL billing references, and returned. *)
Lemma ensureProfile_absent (user : User.t) (w : World) :
  profiles_of (User.id user) w = [] ->
  let p := Profile.mk (User.id user) DEFAULT_PLAN None None in
  ensureProfile user w
  = (Fulfilled p,
     with_profiles (profiles w ++ [p])
       (log (Call.profiles_insert (User.id user))
          (log (Call.profiles_select (Supabase.eq_id (User.id user))) w))).
Proof.
  intros Hp p. pose proof (profiles_of_absent _ _ Hp) as Hex.
  unfold ensureProfile, bind, profiles_select_single.
  unfold profiles_of in Hp. rewrite Hp.
  cbn [Supabase.single Supabase.failed Supabase.data Supabase.error
       Supabase.PGRST116 Supabase.code].
  replace (negb (String.eqb "PGRST116" "PGRST116")) with false by reflexivity.
  unfold profiles_insert_select_single.
  cbn [log profiles]. rewrite Hex. reflexivity.
Qed.

Lemma eq_id_mk (id plan : string) (c s : option string) :
  Supabase.profile_matches (Supabase.eq_id id) (Profile.mk id plan c s) = true.
Proof. cbn. apply String.eqb_refl. Qed.

Lemma profiles_of_app (id : string) (ps qs : list Profile.t) (w : World) :
  profiles w = (ps ++ qs)%list ->
  profiles_of id w
  = (List.filter (Supabase.profile_matches (Supabase.eq_id id)) ps
     ++ List.filter (Supabase.profile_matches (Supabase.eq_id id)) qs)%list.
Proof. intros Hw. unfold profiles_of. rewrite Hw. apply List.filter_app. Qed.

(** C6. For an identity with no profile row, the first call of
    [ensureProfile] inserts exactly one row, on the free plan and with
    null billing references, and returns it; a second call right after
    finds that row and returns the same row, reads only, and leaves the
    table as the first call left it. *)
Theorem ensureProfile_idempotent (user : User.t) (w : World) :
  profiles_of (User.id user) w = [] ->
  exists w1 w2,
    let p := Profile.mk (User.id user) "free" None None in
    let lookup := Call.profiles_select (Supabase.eq_id (User.id user)) in
    ensureProfile user w = (Fulfilled p, w1) /\
    profiles w1 = (profiles w ++ [p])%list /\
    calls w1 = (calls w ++ [lookup; Call.profiles_insert (User.id user)])%list /\
    ensureProfile user w1 = (Fulfilled p, w2) /\
    profiles w2 = profiles w1 /\
    calls w2 = (calls w1 ++ [lookup])%list.
Proof.
  intros Habsent.
  pose proof (ensureProfile_absent user w Habsent) as H1. cbv zeta in H1.
  set (p := Profile.mk (User.id user) DEFAULT_PLAN None None) in *.
  set (w1 := with_profiles _ _) in H1.
  assert (Hfound : profiles_of (User.id user) w1 = [p]).
  { rewrite (profiles_of_app _ (profiles w) [p]) by reflexivity.
    fold (profiles_of (User.id user) w). rewrite Habsent.
    unfold p. cbn [List.filter app]. rewrite eq_id_mk. reflexivity. }
  exists w1, (log (Call.profiles_select (Supabase.eq_id (User.id user))) w1).
  cbv zeta. repeat split.
  - exact H1.
  - cbn [w1 with_profiles log calls]. rewrite <- app_assoc. reflexivity.
  - apply ensureProfile_found. exact Hfound.
Qed.

(** ** Post gatekeeper *)

Lemma getBlogCount_counts (userId : string) (w : World) :
  getBlogCount userId w = (Fulfilled (post_count userId w), log (Call.blogs_count userId) w).
Proof. reflexivity. Qed.

Lemma post_count_log (userId : string) (c : Call.t) (w : World) :
  post_count userId (log c w) = post_count userId w.
Proof. reflexivity. Qed.

Lemma post_count_inserted (userId t c : string) (w : World) (i : Z) :
  post_count userId (with_blog_inserted (Blog.mk i t c userId) w)
  = post_count userId w + 1.
Proof.
  unfold post_count, with_blog_inserted. cbn [blogs].
  rewrite List.filter_app, length_app. cbn [List.filter].
  unfold Supabase.owned_by at 2. cbn [Blog.user_id].
  rewrite String.eqb_refl. cbn [length]. lia.
Qed.

(** C1. A user whose one profile row is on the free plan posts a
    non-empty title and content.  With four or more posts already, the
    answer is 403 with the message that names the ceiling 4, and the
    handler only read: one profile lookup and one count, no insert.  With
    fewer than four, the post is inserted under the user's id, returned,
    and the user's post count is one more than before. *)
Theorem post_blogs_free_ceiling
  (user : User.t) (t c : string) (p : Profile.t) (w : World) :
  t <> "" -> c <> "" ->
  profiles_of (User.id user) w = [p] ->
  Profile.plan p = "free" ->
  let n := post_count (User.id user) w in
  let res := fst (post_blogs user (mkBody (Some t) (Some c)) w) in
  let w' := snd (post_blogs user (mkBody (Some t) (Some c)) w) in
  (4 <= n ->
     res = Http.error 403 "Plan limit reached. Upgrade to add more than 4 blogs." /\
     blogs w' = blogs w /\
     profiles w' = profiles w /\
     calls w' = (calls w ++ [Call.profiles_select (Supabase.eq_id (User.id user));
                             Call.blogs_count (User.id user)])%list) /\
  (n < 4 ->
     let b := Blog.mk (blogs_id_seq w) t c (User.id user) in
     res = Http.json (Http.json_blog b) /\
     blogs w' = (blogs w ++ [b])%list /\
     post_count (User.id user) w' = n + 1).
Proof.
  intros Ht Hc Hp Hplan n res w'.
  assert (Hrun : post_blogs user (mkBody (Some t) (Some c)) w
    = if Z.leb 4 n
      then (Http.error 403 "Plan limit reached. Upgrade to add more than 4 blogs.",
            log (Call.blogs_count (User.id user))
              (log (Call.profiles_select (Supabase.eq_id (User.id user))) w))
      else (Http.json (Http.json_blog (Blog.mk (blogs_id_seq w) t c (User.id user))),
            with_blog_inserted (Blog.mk (blogs_id_seq w) t c (User.id user))
              (log (Call.blogs_insert (User.id user))
                 (log (Call.blogs_count (User.id user))
                    (log (Call.profiles_select (Supabase.eq_id (User.id user))) w))))).
  { unfold post_blogs, try_catch. cbn [title content].
    rewrite !truthy_str_Some by assumption. cbn [negb orb].
    unfold bind at 1. rewrite (ensureProfile_found user p w Hp).
    unfold bind at 1. rewrite getBlogCount_counts, post_count_log.
    rewrite Hplan, getPlanLimit_free. cbn [Js.ge]. fold n.
    destruct (Z.leb 4 n); reflexivity. }
  subst res w'. rewrite Hrun. split; intros Hn.
  - replace (Z.leb 4 n) with true by (symmetry; apply Z.leb_le; exact Hn).
    cbn [fst snd]. repeat split.
    cbn [log calls]. rewrite <- app_assoc. reflexivity.
  - replace (Z.leb 4 n) with false by (symmetry; apply Z.leb_gt; exact Hn).
    cbn [fst snd]. repeat split.
    rewrite post_count_inserted. reflexivity.
Qed.

(** The ceiling is only enforced when it is a number.  For a profile whose
    plan names a member of [Object.prototype], [count >= planLimit]
    compares a number with a function and is false, so the post is
    inserted whatever the count. *)
Lemma post_blogs_inherited_limit
  (user : User.t) (t c : string) (p : Profile.t) (w : World) :
  t <> "" -> c <> "" ->
  profiles_of (User.id user) w = [p] ->
  Profile.plan p ∈ Js.Object_prototype ->
  fst (post_blogs user (mkBody (Some t) (Some c)) w)
  = Http.json (Http.json_blog (Blog.mk (blogs_id_seq w) t c (User.id user))).
Proof.
  intros Ht Hc Hp Hplan.
  unfold post_blogs, try_catch. cbn [title content].
  rewrite !truthy_str_Some by assumption. cbn [negb orb].
  unfold bind at 1. rewrite (ensureProfile_found user p w Hp).
  unfold bind at 1. rewrite getBlogCount_counts.
  rewrite (getPlanLimit_inherited _ Hplan). reflexivity.
Qed.

(** ** Validation of the post body *)

Lemma post_blogs_falsy_field (user : User.t) (body : BlogBody) (w : World) :
  Js.truthy_str (title body) = false \/ Js.truthy_str (content body) = false ->
  post_blogs user body w = (Http.error 400 "Title and content are required.", w).
Proof.
  intros H. unfold post_blogs, try_catch.
  assert (Hb : negb (Js.truthy_str (title body)) || negb (Js.truthy_str (content body)) = true)
    by (destruct H as [-> | ->]; [| rewrite orb_true_r]; reflexivity).
  rewrite Hb. reflexivity.
Qed.

Lemma put_blogs_id_falsy_field (user : User.t) (blogId : Z) (body : BlogBody) (w : World) :
  Js.truthy_str (title body) = false \/ Js.truthy_str (content body) = false ->
  put_blogs_id user blogId body w = (Http.error 400 "Title and content are required.", w).
Proof.
  intros H. unfold put_blogs_id, try_catch.
  assert (Hb : negb (Js.truthy_str (title body)) || negb (Js.truthy_str (content body)) = true)
    by (destruct H as [-> | ->]; [| rewrite orb_true_r]; reflexivity).
  rewrite Hb. reflexivity.
Qed.

(** C10. When the title or the content is the empty string, POST /blogs
    and PUT /blogs/:id answer 400 "Title and content are required." and
    return the world they were given: no call was made, no profile
    provisioned, no post counted, inserted or updated.  The same request
    with the empty field left out gets the same answer. *)
Theorem empty_field_is_rejected
  (user : User.t) (blogId : Z) (body : BlogBody) (w : World) :
  title body = Some "" \/ content body = Some "" ->
  let rejected := (Http.error 400 "Title and content are required.", w) in
  post_blogs user body w = rejected /\
  put_blogs_id user blogId body w = rejected /\
  (title body = Some "" ->
     post_blogs user (mkBody None (content body)) w = post_blogs user body w /\
     put_blogs_id user blogId (mkBody None (content body)) w
     = put_blogs_id user blogId body w) /\
  (content body = Some "" ->
     post_blogs user (mkBody (title body) None) w = post_blogs user body w /\
     put_blogs_id user blogId (mkBody (title body) None) w
     = put_blogs_id user blogId body w).
Proof.
  intros H rejected.
  assert (Hfalsy : Js.truthy_str (title body) = false \/ Js.truthy_str (content body) = false)
    by (destruct H as [-> | ->]; [left | right]; reflexivity).
  rewrite (post_blogs_falsy_field user body w Hfalsy).
  rewrite (put_blogs_id_falsy_field user blogId body w Hfalsy).
  split; [reflexivity |]. split; [reflexivity |]. split; intros _; split.
  - apply post_blogs_falsy_field. left. reflexivity.
  - apply put_blogs_id_falsy_field. left. reflexivity.
  - apply post_blogs_falsy_field. right. reflexivity.
  - apply put_blogs_id_falsy_field. right. reflexivity.
Qed.

(** ** Webhook synchroniser *)

Section Webhook.

Variable cfg : Config.
Variable sdk : Stripe.Sdk.

Lemma webhook_not_configured (body : string) (sig : option string) (w : World) :
  stripe cfg = false \/ Js.truthy_str (stripeWebhookSecret cfg) = false ->
  post_stripe_webhook cfg sdk body sig w
  = (Http.error 400 "Stripe webhook not configured.", w).
Proof.
  intros H. unfold post_stripe_webhook.
  assert (Hb : negb (stripe cfg) || negb (Js.truthy_str (stripeWebhookSecret cfg)) = true)
    by (destruct H as [-> | ->]; [| rewrite orb_true_r]; reflexivity).
  rewrite Hb. reflexivity.
Qed.

Lemma webhook_configured_guard (secret : string) :
  webhook_configured cfg secret ->
  negb (stripe cfg) || negb (Js.truthy_str (stripeWebhookSecret cfg)) = false
  /\ Js.template_str (stripeWebhookSecret cfg) = secret.
Proof.
  intros (Hs & Hsec & Hne). rewrite Hs, Hsec, truthy_str_Some by assumption.
  split; reflexivity.
Qed.

(** The signature check throws: 400 with the thrown message, and the only
    call made is the check itself. *)
Lemma webhook_signature_throws
  (body : string) (sig : option string) (secret msg : string) (w : World) :
  webhook_configured cfg secret ->
  Stripe.constructEvent sdk body sig secret = inr msg ->
  post_stripe_webhook cfg sdk body sig w
  = (Http.mkResponse 400 (Http.text ("Webhook Error: " ++ msg)),
     log Call.stripe_webhooks_constructEvent w).
Proof.
  intros Hcfg Hsig. destruct (webhook_configured_guard secret Hcfg) as [Hg Hsec].
  unfold post_stripe_webhook. rewrite Hg, Hsec, Hsig. reflexivity.
Qed.

(** Every verified event is acknowledged. *)
Lemma webhook_verified
  (body : string) (sig : option string) (secret : string) (event : Stripe.Event)
  (w : World) :
  webhook_configured cfg secret ->
  Stripe.constructEvent sdk body sig secret = inl event ->
  post_stripe_webhook cfg sdk body sig w
  = (Http.json (Http.json_received true), applied event w).
Proof.
  intros Hcfg Hsig. destruct (webhook_configured_guard secret Hcfg) as [Hg Hsec].
  unfold post_stripe_webhook, applied. rewrite Hg, Hsec, Hsig.
  unfold try_catch, bind.
  destruct (String.eqb (Stripe.type event) "checkout.session.completed").
  - destruct (Js.truthy_str (Stripe.metadata_supabaseUserId (Stripe.data_object event)));
      reflexivity.
  - destruct (String.eqb (Stripe.type event) "customer.subscription.deleted");
      reflexivity.
Qed.

Lemma applied_calls (event : Stripe.Event) (w : World) :
  exists rest,
    calls (applied event w) = (calls w ++ Call.stripe_webhooks_constructEvent :: rest)%list.
Proof.
  unfold applied.
  destruct (String.eqb (Stripe.type event) "checkout.session.completed");
    [destruct (Js.truthy_str _) |
     destruct (String.eqb (Stripe.type event) "customer.subscription.deleted")];
    cbn [with_profiles log calls]; rewrite <- ?app_assoc; eauto.
Qed.

(** C2. A delivery whose signature does not verify against the webhook
    secret is answered with status 400, and the world is the one the
    handler was given, up to the record of the signature check: no table
    is read or written.  The check comes first in every delivery: whatever
    the payload, the calls a delivery makes are none at all or start with
    the signature check. *)
Theorem webhook_unverified_signature
  (body : string) (sig : option string) (w : World) :
  (forall secret, stripeWebhookSecret cfg = Some secret ->
     exists msg, Stripe.constructEvent sdk body sig secret = inr msg) ->
  let res := fst (post_stripe_webhook cfg sdk body sig w) in
  let w' := snd (post_stripe_webhook cfg sdk body sig w) in
  Http.status res = 400 /\
  (w' = w \/ w' = log Call.stripe_webhooks_constructEvent w) /\
  profiles w' = profiles w /\
  (forall (body' : string) (sig' : option string),
     let w'' := snd (post_stripe_webhook cfg sdk body' sig' w) in
     calls w'' = calls w \/
     exists rest,
       calls w'' = (calls w ++ Call.stripe_webhooks_constructEvent :: rest)%list).
Proof.
  intros Hbad res w'.
  destruct (stripe cfg) eqn:Hs;
    [destruct (Js.truthy_str (stripeWebhookSecret cfg)) eqn:Hk |].
  - (* configured *)
    destruct (truthy_str_inv _ Hk) as (secret & Hsec & Hne).
    assert (Hcfg : webhook_configured cfg secret) by (repeat split; assumption).
    destruct (Hbad secret Hsec) as [msg Hmsg].
    subst res w'. rewrite (webhook_signature_throws body sig secret msg w Hcfg Hmsg).
    cbn [fst snd].
    split; [reflexivity |]. split; [right; reflexivity |]. split; [reflexivity |].
    intros body' sig'. right.
    destruct (Stripe.constructEvent sdk body' sig' secret) as [event | msg'] eqn:Hev.
    + rewrite (webhook_verified body' sig' secret event w Hcfg Hev). cbn [snd].
      apply applied_calls.
    + rewrite (webhook_signature_throws body' sig' secret msg' w Hcfg Hev).
      exists []. reflexivity.
  - subst res w'. rewrite webhook_not_configured by (right; assumption).
    cbn [fst snd].
    split; [reflexivity |]. split; [left; reflexivity |]. split; [reflexivity |].
    intros body' sig'.
    rewrite webhook_not_configured by (right; assumption). left. reflexivity.
  - subst res w'. rewrite webhook_not_configured by (left; assumption).
    cbn [fst snd].
    split; [reflexivity |]. split; [left; reflexivity |]. split; [reflexivity |].
    intros body' sig'.
    rewrite webhook_not_configured by (left; assumption). left. reflexivity.
Qed.

(** *** The two transitions, row by row *)

Lemma Forall2_map_r {A : Type} (R : A -> A -> Prop) (f : A -> A) (l : list A) :
  (forall x, R x (f x)) -> Forall2 R l (map f l).
Proof. intros HR. induction l; cbn [map]; constructor; auto. Qed.

Lemma completed_row (U : string) (cus sub : option string) (p : Profile.t) :
  update_where (Supabase.mkUpdate (Some "premium") (Some cus) (Some sub))
    (Supabase.eq_id U) p
  = if String.eqb (Profile.id p) U then Profile.mk (Profile.id p) "premium" cus sub else p.
Proof. reflexivity. Qed.

Lemma deleted_row (cus : string) (p : Profile.t) :
  update_where (Supabase.mkUpdate (Some DEFAULT_PLAN) None (Some None))
    (Supabase.eq_stripe_customer_id (Some cus)) p
  = match Profile.stripe_customer_id p with
    | Some c =>
        if String.eqb c cus then Profile.mk (Profile.id p) "free" (Some c) None else p
    | None => p
    end.
Proof.
  unfold update_where, Supabase.profile_matches. cbn [Js.template_str].
  destruct p as [i pl [c |] s]; cbn [Profile.stripe_customer_id]; reflexivity.
Qed.

Lemma update_where_no_match
  (u : Supabase.ProfileUpdate) (f : Supabase.ProfileFilter) (ps : list Profile.t) :
  List.filter (Supabase.profile_matches f) ps = [] -> map (update_where u f) ps = ps.
Proof.
  induction ps as [| p ps IH]; [reflexivity |].
  cbn [List.filter map]. unfold update_where at 1.
  destruct (Supabase.profile_matches f p); [discriminate |].
  intros H. rewrite (IH H). reflexivity.
Qed.

(** C3. A verified "checkout.session.completed" event that carries the
    identity tag U1 (a non-empty string), the customer cus_1 and the
    subscription sub_1 is acknowledged with [{received: true}]; every
    profile row with id U1 becomes (U1, premium, cus_1, sub_1), every other
    row stays as it was; so when a profile with id U1 exists, that row is
    in the table afterwards and no other row has id U1. *)
Theorem webhook_checkout_completed
  (body : string) (sig : option string) (secret U1 cus_1 sub_1 : string)
  (p : Profile.t) (w : World) :
  webhook_configured cfg secret ->
  Stripe.constructEvent sdk body sig secret
  = inl (Stripe.mkEvent "checkout.session.completed"
           (Stripe.mkObject (Some U1) (Some cus_1) (Some sub_1))) ->
  U1 <> "" ->
  In p (profiles w) -> Profile.id p = U1 ->
  let res := fst (post_stripe_webhook cfg sdk body sig w) in
  let w' := snd (post_stripe_webhook cfg sdk body sig w) in
  let premium := Profile.mk U1 "premium" (Some cus_1) (Some sub_1) in
  res = Http.json (Http.json_received true) /\
  In premium (profiles w') /\
  (forall q, In q (profiles w') -> Profile.id q = U1 -> q = premium) /\
  Forall2 (fun q q' => (Profile.id q = U1 -> q' = premium) /\
                       (Profile.id q <> U1 -> q' = q))
    (profiles w) (profiles w').
Proof.
  intros Hcfg Hev HU Hin Hid res w' premium. subst res w'.
  rewrite (webhook_verified body sig secret _ w Hcfg Hev). cbn [fst snd].
  unfold applied. cbn [Stripe.type Stripe.data_object Stripe.metadata_supabaseUserId
                       Stripe.customer Stripe.subscription].
  replace (String.eqb "checkout.session.completed" "checkout.session.completed")
    with true by reflexivity.
  rewrite (truthy_str_Some U1 HU). cbn [Js.template_str with_profiles profiles].
  set (f := update_where _ _).
  assert (Hrow : forall q, (Profile.id q = U1 -> f q = premium) /\
                           (Profile.id q <> U1 -> f q = q)).
  { intros q. unfold f. rewrite completed_row.
    destruct (String.eqb_spec (Profile.id q) U1) as [<- | Hne];
      split; intros H; try reflexivity; contradiction. }
  split; [reflexivity |]. split; [| split].
  - rewrite <- (proj1 (Hrow p) Hid). apply in_map. exact Hin.
  - intros q Hq Hqid. apply in_map_iff in Hq as (q0 & <- & _).
    destruct (String.eqb_spec (Profile.id q0) U1) as [He | Hne].
    + apply (proj1 (Hrow q0) He).
    + rewrite (proj2 (Hrow q0) Hne) in Hqid. contradiction.
  - apply Forall2_map_r. exact Hrow.
Qed.

(** C4. A verified "customer.subscription.deleted" event for the customer
    cus_1 is acknowledged; every profile row whose stripe_customer_id is
    cus_1 keeps its id and its stripe_customer_id and gets plan free and a
    null stripe_subscription_id; every other row, and every post, stays as
    it was. *)
Theorem webhook_subscription_deleted
  (body : string) (sig : option string) (secret cus_1 : string)
  (obj : Stripe.DataObject) (w : World) :
  webhook_configured cfg secret ->
  Stripe.constructEvent sdk body sig secret
  = inl (Stripe.mkEvent "customer.subscription.deleted" obj) ->
  Stripe.customer obj = Some cus_1 ->
  let res := fst (post_stripe_webhook cfg sdk body sig w) in
  let w' := snd (post_stripe_webhook cfg sdk body sig w) in
  res = Http.json (Http.json_received true) /\
  Forall2 (fun q q' =>
             (Profile.stripe_customer_id q = Some cus_1 ->
              q' = Profile.mk (Profile.id q) "free" (Some cus_1) None) /\
             (Profile.stripe_customer_id q <> Some cus_1 -> q' = q))
    (profiles w) (profiles w') /\
  blogs w' = blogs w.
Proof.
  intros Hcfg Hev Hcus res w'. subst res w'.
  rewrite (webhook_verified body sig secret _ w Hcfg Hev). cbn [fst snd].
  unfold applied. cbn [Stripe.type Stripe.data_object]. rewrite Hcus.
  replace (String.eqb "customer.subscription.deleted" "checkout.session.completed")
    with false by reflexivity.
  replace (String.eqb "customer.subscription.deleted" "customer.subscription.deleted")
    with true by reflexivity.
  cbn [with_profiles profiles blogs log].
  split; [reflexivity |]. split; [| reflexivity].
  apply Forall2_map_r. intros q. rewrite deleted_row.
  destruct (Profile.stripe_customer_id q) as [c |] eqn:Hc.
  - destruct (String.eqb_spec c cus_1) as [-> | Hne]; split; intros H;
      try reflexivity; congruence.
  - split; intros H; [discriminate | reflexivity].
Qed.

(** C9. A verified event that is none of the two transitions is
    acknowledged with [{received: true}] and leaves every profile row as
    it was: an event of any other type, a "checkout.session.completed"
    event without an identity tag, and a "checkout.session.completed"
    event whose identity tag is the id of no profile. *)
Theorem webhook_event_ignored
  (body : string) (sig : option string) (secret : string) (event : Stripe.Event)
  (w : World) :
  webhook_configured cfg secret ->
  Stripe.constructEvent sdk body sig secret = inl event ->
  (Stripe.type event <> "checkout.session.completed" /\
   Stripe.type event <> "customer.subscription.deleted")
  \/ (Stripe.type event = "checkout.session.completed" /\
      Js.truthy_str (Stripe.metadata_supabaseUserId (Stripe.data_object event)) = false)
  \/ (Stripe.type event = "checkout.session.completed" /\
      exists U, Stripe.metadata_supabaseUserId (Stripe.data_object event) = Some U /\
                profiles_of U w = []) ->
  let res := fst (post_stripe_webhook cfg sdk body sig w) in
  let w' := snd (post_stripe_webhook cfg sdk body sig w) in
  res = Http.json (Http.json_received true) /\
  profiles w' = profiles w /\
  blogs w' = blogs w.
Proof.
  intros Hcfg Hev Hkind res w'. subst res w'.
  rewrite (webhook_verified body sig secret _ w Hcfg Hev). cbn [fst snd].
  split; [reflexivity |]. unfold applied.
  destruct Hkind as [[Hc Hd] | [[Hc Htag] | [Hc (U & Htag & Habsent)]]].
  - apply String.eqb_neq in Hc, Hd. rewrite Hc, Hd. split; reflexivity.
  - rewrite Hc, Htag. split; reflexivity.
  - rewrite Hc, Htag.
    replace (String.eqb "checkout.session.completed" "checkout.session.completed")
      with true by reflexivity.
    destruct (Js.truthy_str (Some U)); [| split; reflexivity].
    cbn [Js.template_str with_profiles profiles blogs log].
    split; [| reflexivity]. apply update_where_no_match. exact Habsent.
Qed.

End Webhook.

(** ** Ownership of posts *)

Lemma no_owned_row (blogId : Z) (userId : string) (bs : list Blog.t) :
  (forall b, In b bs -> Blog.id b = blogId -> Blog.user_id b <> userId) ->
  List.filter (Supabase.blog_matches blogId userId) bs = [].
Proof.
  induction bs as [| b bs IH]; intros H; [reflexivity |].
  cbn [List.filter]. unfold Supabase.blog_matches at 1.
  destruct (Z.eqb_spec (Blog.id b) blogId) as [Hid | Hid]; cbn [andb].
  - destruct (String.eqb_spec (Blog.user_id b) userId) as [Hu | Hu].
    + exfalso. apply (H b); [left; reflexivity | exact Hid | exact Hu].
    + apply IH. intros b' Hb'. apply H. right. exact Hb'.
  - apply IH. intros b' Hb'. apply H. right. exact Hb'.
Qed.

(** An update addressed at a post the user does not own, or at no post:
    the singular update selects no row, the error is thrown on, and the
    catch block answers 500.  The posts stay as they were. *)
Lemma put_blogs_id_not_owned
  (user : User.t) (blogId : Z) (t c : string) (w : World) :
  t <> "" -> c <> "" ->
  (forall b, In b (blogs w) -> Blog.id b = blogId -> Blog.user_id b <> User.id user) ->
  put_blogs_id user blogId (mkBody (Some t) (Some c)) w
  = (Http.error 500 "Failed to update blog.",
     log (Call.blogs_update blogId (User.id user)) w).
Proof.
  intros Ht Hc Hown. unfold put_blogs_id, try_catch. cbn [title content].
  rewrite !truthy_str_Some by assumption. cbn [negb orb].
  unfold bind, blogs_update_select_single.
  rewrite (no_owned_row _ _ _ Hown). reflexivity.
Qed.

(** The same for a delete. *)
Lemma delete_blogs_id_not_owned (user : User.t) (blogId : Z) (w : World) :
  (forall b, In b (blogs w) -> Blog.id b = blogId -> Blog.user_id b <> User.id user) ->
  delete_blogs_id user blogId w
  = (Http.error 500 "Failed to delete blog.",
     log (Call.blogs_delete blogId (User.id user)) w).
Proof.
  intros Hown. unfold delete_blogs_id, try_catch, bind, blogs_delete_select_single.
  rewrite (no_owned_row _ _ _ Hown). reflexivity.
Qed.

(** The owner's update and delete go through. *)
Example owner_updates_post :
  put_blogs_id Sample.alice 1 (mkBody (Some "Hi") (Some "there")) Sample.world
  = (Http.json (Http.json_blog (Blog.mk 1 "Hi" "there" "alice")),
     with_blogs [Blog.mk 1 "Hi" "there" "alice"]
       (log (Call.blogs_update 1 "alice") Sample.world)).
Proof. vm_compute. reflexivity. Qed.

Example owner_deletes_post :
  delete_blogs_id Sample.alice 1 Sample.world
  = (Http.json (Http.json_message "Blog deleted successfully."),
     with_blogs [] (log (Call.blogs_delete 1 "alice") Sample.world)).
Proof. vm_compute. reflexivity. Qed.

(** C8. Bob updates and deletes post 1, which Alice owns, and post 2,
    which does not exist.  The posts stay as they were, but each answer is
    500 ("Failed to update blog.", "Failed to delete blog."), not 404:
    [.single()] reports the missing row as an error, the handler throws it
    on, and the 404 branch behind the throw is never reached. *)
Theorem not_owned_post_answers_500 :
  let w := Sample.world in
  let put := put_blogs_id Sample.bob 1 (mkBody (Some "Mine") (Some "now")) w in
  let del := delete_blogs_id Sample.bob 1 w in
  let put_absent := put_blogs_id Sample.bob 2 (mkBody (Some "Mine") (Some "now")) w in
  let del_absent := delete_blogs_id Sample.bob 2 w in
  blogs w = [Blog.mk 1 "Hello" "World" "alice"] /\
  User.id Sample.bob = "bob" /\
  fst put = Http.error 500 "Failed to update blog." /\
  fst del = Http.error 500 "Failed to delete blog." /\
  fst put_absent = Http.error 500 "Failed to update blog." /\
  fst del_absent = Http.error 500 "Failed to delete blog." /\
  Http.status (fst put) <> 404 /\ Http.status (fst del) <> 404 /\
  blogs (snd put) = blogs w /\ blogs (snd del) = blogs w /\
  blogs (snd put_absent) = blogs w /\ blogs (snd del_absent) = blogs w.
Proof. vm_compute. repeat split; discriminate. Qed.

(** ** Checkout initiator *)

Section Checkout.

Variable cfg : Config.
Variable sdk : Stripe.Sdk.
Variable user : User.t.

Hypothesis configured : checkout_configured cfg.

Lemma checkout_guard :
  negb (stripe cfg) || negb (Js.truthy_str (stripePriceId cfg)) = false.
Proof. destruct configured as [-> ->]. reflexivity. Qed.

(** The profile has no customer reference yet: a customer is created and
    its id written to the profile before the session is created. *)
Lemma checkout_unbilled (p : Profile.t) (w w0 : World) :
  ensureProfile user w = (Fulfilled p, w0) ->
  Profile.plan p <> "premium" ->
  Js.truthy_str (Profile.stripe_customer_id p) = false ->
  let c := Stripe.mkCustomer (Stripe.issue_customer_id sdk (length (customers w0)))
             (if Js.truthy_str (User.email user) then User.email user else None)
             (User.id user) in
  let u := Supabase.mkUpdate None (Some (Some (Stripe.customer_id c))) None in
  let w' := snd (post_billing_checkout cfg sdk user w) in
  customers w' = (customers w0 ++ [c])%list /\
  profiles w' = map (update_where u (Supabase.eq_id (User.id user))) (profiles w0) /\
  exists s, checkout_sessions w' = (checkout_sessions w0 ++ [s])%list /\
            Stripe.session_customer s = Some (Stripe.customer_id c).
Proof.
  intros Hp Hplan Hcus c u w'. subst w'.
  remember (post_billing_checkout cfg sdk user w) as r eqn:Hr.
  unfold post_billing_checkout, try_catch in Hr. rewrite checkout_guard in Hr.
  unfold bind at 1 in Hr. rewrite Hp in Hr.
  apply String.eqb_neq in Hplan. rewrite Hplan, Hcus in Hr. cbn [negb] in Hr.
  subst r. cbn. repeat split. eexists. split; reflexivity.
Qed.

(** The profile has a customer reference: it is reused, and the call
    creates a session and nothing else. *)
Lemma checkout_billed (p : Profile.t) (w w0 : World) :
  ensureProfile user w = (Fulfilled p, w0) ->
  Profile.plan p <> "premium" ->
  Js.truthy_str (Profile.stripe_customer_id p) = true ->
  let w' := snd (post_billing_checkout cfg sdk user w) in
  customers w' = customers w0 /\
  profiles w' = profiles w0 /\
  exists s, checkout_sessions w' = (checkout_sessions w0 ++ [s])%list /\
            Stripe.session_customer s = Profile.stripe_customer_id p.
Proof.
  intros Hp Hplan Hcus w'. subst w'.
  remember (post_billing_checkout cfg sdk user w) as r eqn:Hr.
  unfold post_billing_checkout, try_catch in Hr. rewrite checkout_guard in Hr.
  unfold bind at 1 in Hr. rewrite Hp in Hr.
  apply String.eqb_neq in Hplan. rewrite Hplan, Hcus in Hr. cbn [negb] in Hr.
  subst r. cbn. repeat split. eexists. split; reflexivity.
Qed.

Lemma filter_update_eq_id (u : Supabase.ProfileUpdate) (id : string) (ps : list Profile.t) :
  List.filter (Supabase.profile_matches (Supabase.eq_id id))
    (map (update_where u (Supabase.eq_id id)) ps)
  = map (Supabase.apply_update u)
      (List.filter (Supabase.profile_matches (Supabase.eq_id id)) ps).
Proof.
  induction ps as [| p ps IH]; [reflexivity |].
  cbn [map List.filter].
  destruct (Supabase.profile_matches (Supabase.eq_id id) p) eqn:Hm.
  - assert (Hu : update_where u (Supabase.eq_id id) p = Supabase.apply_update u p)
      by (unfold update_where; rewrite Hm; reflexivity).
    rewrite Hu.
    replace (Supabase.profile_matches (Supabase.eq_id id) (Supabase.apply_update u p))
      with true by (symmetry; exact Hm).
    cbn [map]. rewrite IH. reflexivity.
  - assert (Hu : update_where u (Supabase.eq_id id) p = p)
      by (unfold update_where; rewrite Hm; reflexivity).
    rewrite Hu, Hm. exact IH.
Qed.

(** After [ensureProfile], the identity has the one row it returned, and
    the provider has seen nothing. *)
Lemma ensureProfile_provisions (p : Profile.t) (w : World) :
  profiles_of (User.id user) w = [p]
  \/ (profiles_of (User.id user) w = [] /\ p = Profile.mk (User.id user) "free" None None) ->
  exists w0,
    ensureProfile user w = (Fulfilled p, w0) /\
    customers w0 = customers w /\
    profiles_of (User.id user) w0 = [p].
Proof.
  intros [Hp | [Hp ->]].
  - eexists. split; [apply (ensureProfile_found user p w Hp) |].
    split; [reflexivity | exact Hp].
  - eexists. split; [apply (ensureProfile_absent user w Hp) |].
    split; [reflexivity |].
    erewrite profiles_of_app by reflexivity.
    fold (profiles_of (User.id user) w). rewrite Hp.
    cbn [List.filter app]. unfold DEFAULT_PLAN. rewrite eq_id_mk. reflexivity.
Qed.

(** C7, as the code has it. For an identity whose profile is not on the
    premium plan (or who has no profile yet), two calls of the checkout in
    a row create at most one customer.  When the profile has no customer
    reference, the first call creates one customer and writes its id to
    the profile, and the second call creates none and opens its session
    for that same customer.  When the profile already has a customer
    reference, neither call creates a customer. *)
Theorem checkout_twice_at_most_one_customer (p : Profile.t) (w : World) :
  (forall n, Stripe.issue_customer_id sdk n <> "") ->
  profiles_of (User.id user) w = [p]
  \/ (profiles_of (User.id user) w = [] /\ p = Profile.mk (User.id user) "free" None None) ->
  Profile.plan p <> "premium" ->
  let w1 := snd (post_billing_checkout cfg sdk user w) in
  let w2 := snd (post_billing_checkout cfg sdk user w1) in
  (Js.truthy_str (Profile.stripe_customer_id p) = false ->
   exists c s,
     customers w1 = (customers w ++ [c])%list /\
     profiles_of (User.id user) w1
     = [Profile.mk (Profile.id p) (Profile.plan p) (Some (Stripe.customer_id c))
          (Profile.stripe_subscription_id p)] /\
     customers w2 = customers w1 /\
     checkout_sessions w2 = (checkout_sessions w1 ++ [s])%list /\
     Stripe.session_customer s = Some (Stripe.customer_id c)) /\
  (Js.truthy_str (Profile.stripe_customer_id p) = true ->
   customers w1 = customers w /\ customers w2 = customers w) /\
  (length (customers w2) <= length (customers w) + 1)%nat.
Proof.
  intros Hissue Hprof Hplan w1 w2.
  destruct (ensureProfile_provisions p w Hprof) as (w0 & Hens & Hcus0 & Hp0).
  assert (Hcases :
    (Js.truthy_str (Profile.stripe_customer_id p) = false ->
     exists c s,
       customers w1 = (customers w ++ [c])%list /\
       profiles_of (User.id user) w1
       = [Profile.mk (Profile.id p) (Profile.plan p) (Some (Stripe.customer_id c))
            (Profile.stripe_subscription_id p)] /\
       customers w2 = customers w1 /\
       checkout_sessions w2 = (checkout_sessions w1 ++ [s])%list /\
       Stripe.session_customer s = Some (Stripe.customer_id c)) /\
    (Js.truthy_str (Profile.stripe_customer_id p) = true ->
     customers w1 = customers w /\ customers w2 = customers w)).
  { split; intros Hcus.
    - destruct (checkout_unbilled p w w0 Hens Hplan Hcus) as (Hc1 & Hp1 & _).
      fold w1 in Hc1, Hp1. cbv zeta in Hc1, Hp1.
      set (c := Stripe.mkCustomer _ _ _) in Hc1, Hp1.
      set (p1 := Profile.mk (Profile.id p) (Profile.plan p) (Some (Stripe.customer_id c))
                   (Profile.stripe_subscription_id p)).
      assert (Hfound : profiles_of (User.id user) w1 = [p1]).
      { unfold profiles_of. rewrite Hp1, filter_update_eq_id.
        fold (profiles_of (User.id user) w0). rewrite Hp0. reflexivity. }
      pose proof (ensureProfile_found user p1 w1 Hfound) as Hens1.
      assert (Hbilled : Js.truthy_str (Profile.stripe_customer_id p1) = true)
        by (apply truthy_str_Some, Hissue).
      destruct (checkout_billed p1 w1 _ Hens1 Hplan Hbilled) as (Hc2 & _ & s & Hs2 & Hsc).
      fold w2 in Hc2, Hs2. exists c, s.
      split; [rewrite Hc1, Hcus0; reflexivity |]. split; [exact Hfound |].
      split; [exact Hc2 |]. split; [exact Hs2 | exact Hsc].
    - destruct (checkout_billed p w w0 Hens Hplan Hcus) as (Hc1 & Hp1 & _).
      fold w1 in Hc1, Hp1.
      assert (Hfound : profiles_of (User.id user) w1 = [p])
        by (unfold profiles_of; rewrite Hp1; exact Hp0).
      pose proof (ensureProfile_found user p w1 Hfound) as Hens1.
      destruct (checkout_billed p w1 _ Hens1 Hplan Hcus) as (Hc2 & _).
      fold w2 in Hc2. cbn [log customers] in Hc2.
      split; congruence. }
  destruct Hcases as [Hnew Hold]. split; [exact Hnew |]. split; [exact Hold |].
  destruct (Js.truthy_str (Profile.stripe_customer_id p)) eqn:Hcus.
  - destruct (Hold eq_refl) as [_ ->]. lia.
  - destruct (Hnew eq_refl) as (c & s & Hc1 & _ & Hc2 & _).
    rewrite Hc2, Hc1, length_app. cbn [length]. lia.
Qed.

End Checkout.

(** C7, as stated, fails for a profile that is not premium but already
    has a customer reference (U1 subscribed once and cancelled): both
    calls answer with a checkout url and reuse "cus_1", and no customer is
    created at all, so it is not the case that exactly one is. *)
Lemma checkout_twice_billed_creates_none :
  let sdk := Sample.sdk Sample.completed in
  let w := Sample.world in
  let w1 := snd (post_billing_checkout Sample.cfg sdk Sample.U1 w) in
  let w2 := snd (post_billing_checkout Sample.cfg sdk Sample.U1 w1) in
  profiles_of "U1" w = [Profile.mk "U1" "free" (Some "cus_1") None] /\
  Http.status (fst (post_billing_checkout Sample.cfg sdk Sample.U1 w)) = 200 /\
  Http.status (fst (post_billing_checkout Sample.cfg sdk Sample.U1 w1)) = 200 /\
  customers w1 = customers w /\
  customers w2 = customers w /\
  ~ (exists c, customers w2 = (customers w ++ [c])%list).
Proof.
  vm_compute. repeat split. intros [c Hc]. discriminate Hc.
Qed.

(** ** The statements at sample inputs *)

Lemma post_blogs_free_ceiling_witness :
  fst (post_blogs Sample.alice (mkBody (Some "Fifth") (Some "post"))
         (Sample.more_posts 3 Sample.world))
  = Http.error 403 "Plan limit reached. Upgrade to add more than 4 blogs."
  /\ post_count "alice"
       (snd (post_blogs Sample.alice (mkBody (Some "Fourth") (Some "post"))
               (Sample.more_posts 2 Sample.world)))
     = 4.
Proof.
  split.
  - refine (proj1 (proj1 (post_blogs_free_ceiling Sample.alice "Fifth" "post"
              (Profile.mk "alice" "free" None None) (Sample.more_posts 3 Sample.world)
              _ _ _ _) _)).
    + discriminate.
    + discriminate.
    + reflexivity.
    + reflexivity.
    + vm_compute. discriminate.
  - refine (proj2 (proj2 (proj2 (post_blogs_free_ceiling Sample.alice "Fourth" "post"
              (Profile.mk "alice" "free" None None) (Sample.more_posts 2 Sample.world)
              _ _ _ _) _))).
    + discriminate.
    + discriminate.
    + reflexivity.
    + reflexivity.
    + vm_compute. reflexivity.
Defined.

Lemma webhook_unverified_signature_witness :
  let r := post_stripe_webhook Sample.cfg (Sample.sdk Sample.completed)
             "{}" (Some "forged") Sample.world in
  Http.status (fst r) = 400 /\ profiles (snd r) = profiles Sample.world.
Proof.
  pose proof (webhook_unverified_signature Sample.cfg (Sample.sdk Sample.completed)
                "{}" (Some "forged") Sample.world) as H.
  cbv zeta in H. intros r.
  assert (Hbad : forall secret, stripeWebhookSecret Sample.cfg = Some secret ->
            exists msg, Stripe.constructEvent (Sample.sdk Sample.completed)
                          "{}" (Some "forged") secret = inr msg).
  { intros secret Hs. injection Hs as <-. eexists. reflexivity. }
  destruct (H Hbad) as (H400 & _ & Hprofiles & _).
  split; [exact H400 | exact Hprofiles].
Defined.

Lemma webhook_checkout_completed_witness :
  In (Profile.mk "U1" "premium" (Some "cus_1") (Some "sub_1"))
    (profiles (snd (post_stripe_webhook Sample.cfg (Sample.sdk Sample.completed)
                      "{}" (Some "whsec_1") Sample.world))).
Proof.
  refine (proj1 (proj2 (webhook_checkout_completed Sample.cfg (Sample.sdk Sample.completed)
            "{}" (Some "whsec_1") "whsec_1" "U1" "cus_1" "sub_1"
            (Profile.mk "U1" "free" (Some "cus_1") None) Sample.world _ _ _ _ _))).
  - repeat split. discriminate.
  - reflexivity.
  - discriminate.
  - right. left. reflexivity.
  - reflexivity.
Defined.

Lemma webhook_subscription_deleted_witness :
  Forall2 (fun q q' =>
             (Profile.stripe_customer_id q = Some "cus_1" ->
              q' = Profile.mk (Profile.id q) "free" (Some "cus_1") None) /\
             (Profile.stripe_customer_id q <> Some "cus_1" -> q' = q))
    (profiles Sample.subscribed)
    (profiles (snd (post_stripe_webhook Sample.cfg (Sample.sdk Sample.deleted)
                      "{}" (Some "whsec_1") Sample.subscribed))).
Proof.
  refine (proj1 (proj2 (webhook_subscription_deleted Sample.cfg (Sample.sdk Sample.deleted)
            "{}" (Some "whsec_1") "whsec_1" "cus_1"
            (Stripe.mkObject None (Some "cus_1") None) Sample.subscribed _ _ _))).
  - repeat split. discriminate.
  - reflexivity.
  - reflexivity.
Defined.

Lemma ensureProfile_idempotent_witness :
  exists w1 w2,
    let p := Profile.mk "bob" "free" None None in
    let lookup := Call.profiles_select (Supabase.eq_id "bob") in
    ensureProfile Sample.bob Sample.world = (Fulfilled p, w1) /\
    profiles w1 = (profiles Sample.world ++ [p])%list /\
    calls w1 = (calls Sample.world ++ [lookup; Call.profiles_insert "bob"])%list /\
    ensureProfile Sample.bob w1 = (Fulfilled p, w2) /\
    profiles w2 = profiles w1 /\
    calls w2 = (calls w1 ++ [lookup])%list.
Proof.
  apply (ensureProfile_idempotent Sample.bob Sample.world). reflexivity.
Defined.

Lemma checkout_twice_at_most_one_customer_witness :
  let sdk := Sample.sdk Sample.completed in
  let w1 := snd (post_billing_checkout Sample.cfg sdk Sample.alice Sample.world) in
  let w2 := snd (post_billing_checkout Sample.cfg sdk Sample.alice w1) in
  exists c s,
    customers w1 = (customers Sample.world ++ [c])%list /\
    profiles_of "alice" w1
    = [Profile.mk "alice" "free" (Some (Stripe.customer_id c)) None] /\
    customers w2 = customers w1 /\
    checkout_sessions w2 = (checkout_sessions w1 ++ [s])%list /\
    Stripe.session_customer s = Some (Stripe.customer_id c).
Proof.
  refine (proj1 (checkout_twice_at_most_one_customer Sample.cfg
            (Sample.sdk Sample.completed) Sample.alice _
            (Profile.mk "alice" "free" None None) Sample.world _ _ _) _).
  - split; reflexivity.
  - intros n. cbn. discriminate.
  - left. reflexivity.
  - discriminate.
  - reflexivity.
Defined.

Lemma webhook_event_ignored_witness :
  let unknown := Stripe.mkEvent "checkout.session.completed"
                   (Stripe.mkObject (Some "nobody") (Some "cus_9") (Some "sub_9")) in
  profiles (snd (post_stripe_webhook Sample.cfg (Sample.sdk Sample.invoice_paid)
                   "{}" (Some "whsec_1") Sample.world)) = profiles Sample.world
  /\ profiles (snd (post_stripe_webhook Sample.cfg (Sample.sdk unknown)
                      "{}" (Some "whsec_1") Sample.world)) = profiles Sample.world.
Proof.
  split.
  - refine (proj1 (proj2 (webhook_event_ignored Sample.cfg (Sample.sdk Sample.invoice_paid)
              "{}" (Some "whsec_1") "whsec_1" Sample.invoice_paid Sample.world _ _ _))).
    + repeat split. discriminate.
    + reflexivity.
    + left. split; discriminate.
  - refine (proj1 (proj2 (webhook_event_ignored Sample.cfg (Sample.sdk _)
              "{}" (Some "whsec_1") "whsec_1" _ Sample.world _ _ _))).
    + repeat split. discriminate.
    + reflexivity.
    + right. right. split; [reflexivity |]. exists "nobody". split; reflexivity.
Defined.

Lemma empty_field_is_rejected_witness :
  post_blogs Sample.alice (mkBody (Some "") (Some "text")) Sample.world
  = (Http.error 400 "Title and content are required.", Sample.world)
  /\ put_blogs_id Sample.alice 1 (mkBody (Some "") (Some "text")) Sample.world
     = (Http.error 400 "Title and content are required.", Sample.world).
Proof.
  pose proof (empty_field_is_rejected Sample.alice 1 (mkBody (Some "") (Some "text"))
                Sample.world (or_introl eq_refl)) as (Hpost & Hput & _).
  split; [exact Hpost | exact Hput].
Defined.

(** * Further properties *)

(** ** The auth middleware *)

Lemma append_cons (c : Ascii.ascii) (p s : string) :
  String c p ++ s = String c (p ++ s).
Proof. reflexivity. Qed.

Lemma prefix_app (p s : string) : String.prefix p (p ++ s) = true.
Proof.
  induction p as [| c p IH]; [destruct s; reflexivity |].
  rewrite append_cons. cbn [String.prefix].
  destruct (Ascii.ascii_dec c c); [exact IH | contradiction].
Qed.

Lemma drop_app (p s : string) : JsString.drop (String.length p) (p ++ s) = s.
Proof.
  induction p as [| c p IH]; [destruct s; reflexivity |].
  rewrite append_cons. exact IH.
Qed.

Lemma prefix_split (p s : string) :
  String.prefix p s = true -> exists r, s = p ++ r.
Proof.
  revert s. induction p as [| c p IH]; intros s H.
  - exists s. reflexivity.
  - destruct s as [| d s]; [discriminate |]. cbn in H.
    destruct (Ascii.ascii_dec c d) as [-> | _]; [| discriminate].
    destruct (IH s H) as [r ->]. exists r. reflexivity.
Qed.

(** A leading occurrence is the first one. *)
Lemma replace_leading (p r s : string) :
  JsString.replace p r (p ++ s) = r ++ s.
Proof.
  destruct (p ++ s) as [| c t] eqn:E; cbn [JsString.replace];
    rewrite <- E, prefix_app, drop_app; reflexivity.
Qed.

Lemma no_space_no_bearer (s : string) :
  JsString.no_space s = true -> String.prefix "Bearer " s = false.
Proof.
  intros Hs. destruct (String.prefix "Bearer " s) eqn:Hp; [| reflexivity].
  destruct (prefix_split _ _ Hp) as [r ->]. cbn in Hs. discriminate Hs.
Qed.

Lemma blank_no_bearer (s : string) :
  JsString.blank s = true -> String.prefix "Bearer " s = false.
Proof.
  intros Hs. destruct (String.prefix "Bearer " s) eqn:Hp; [| reflexivity].
  destruct (prefix_split _ _ Hp) as [r ->]. cbn in Hs. discriminate Hs.
Qed.

Lemma replace_no_space (s : string) :
  JsString.no_space s = true -> JsString.replace "Bearer " "" s = s.
Proof.
  induction s as [| c s IH]; intros Hs; [reflexivity |].
  cbn [JsString.replace]. rewrite (no_space_no_bearer _ Hs).
  cbn [JsString.no_space] in Hs. apply andb_prop in Hs as [_ Hs].
  rewrite (IH Hs). reflexivity.
Qed.

Lemma replace_blank (s : string) :
  JsString.blank s = true -> JsString.replace "Bearer " "" s = s.
Proof.
  induction s as [| c s IH]; intros Hs; [reflexivity |].
  cbn [JsString.replace]. rewrite (blank_no_bearer _ Hs).
  cbn [JsString.blank] in Hs. apply andb_prop in Hs as [_ Hs].
  rewrite (IH Hs). reflexivity.
Qed.

Lemma trim_end_no_space (s : string) :
  JsString.no_space s = true -> JsString.trim_end s = s.
Proof.
  induction s as [| c s IH]; intros Hs; [reflexivity |].
  cbn [JsString.no_space] in Hs. apply andb_prop in Hs as [Hc Hs].
  cbn [JsString.trim_end]. rewrite (IH Hs).
  destruct s; [| reflexivity].
  apply negb_true_iff in Hc. rewrite Hc. reflexivity.
Qed.

Lemma trim_no_space (s : string) :
  JsString.no_space s = true -> JsString.trim s = s.
Proof.
  intros Hs. unfold JsString.trim.
  assert (Hstart : JsString.trim_start s = s).
  { destruct s as [| c s]; [reflexivity |].
    cbn [JsString.no_space] in Hs. apply andb_prop in Hs as [Hc _].
    apply negb_true_iff in Hc. cbn [JsString.trim_start]. rewrite Hc. reflexivity. }
  rewrite Hstart. apply trim_end_no_space. exact Hs.
Qed.

Lemma trim_blank (s : string) :
  JsString.blank s = true -> JsString.trim s = "".
Proof.
  intros Hs. unfold JsString.trim.
  assert (Hstart : JsString.trim_start s = "").
  { induction s as [| c s IH]; [reflexivity |].
    cbn [JsString.blank] in Hs. apply andb_prop in Hs as [Hc Hs].
    cbn [JsString.trim_start]. rewrite Hc. exact (IH Hs). }
  rewrite Hstart. reflexivity.
Qed.

(** The token the middleware extracts from the header the client sends. *)
Lemma token_of_bearer_header (tok : string) :
  JsString.no_space tok = true ->
  JsString.trim (JsString.replace "Bearer " "" ("Bearer " ++ tok)) = tok.
Proof.
  intros Hs. rewrite replace_leading. change ("" ++ tok) with tok.
  apply trim_no_space, Hs.
Qed.

(** X1. The client sends [Bearer <token>].  For a token that is not empty
    and holds no white space, the middleware asks the auth service about
    exactly that token, and its outcome is the service's: the user the
    service names goes on to the route; an error or a missing user is 401
    "Invalid auth token."; a failed call is 500 "Authentication failed." *)
Theorem requireAuth_bearer_token (auth : Auth.Provider) (tok : string) :
  tok <> "" -> JsString.no_space tok = true ->
  requireAuth auth (Some ("Bearer " ++ tok))
  = match Auth.getUser auth tok with
    | Fulfilled (Auth.mkUserResponse (Some user) None) => Auth.next user
    | Fulfilled _ => Auth.respond 401 "Invalid auth token."
    | Rejected _ => Auth.respond 500 "Authentication failed."
    end.
Proof.
  intros Hne Hs. unfold requireAuth.
  replace (Js.truthy_str (Some ("Bearer " ++ tok))) with true by reflexivity.
  cbn [Js.template_str]. rewrite (token_of_bearer_header tok Hs).
  rewrite (truthy_str_Some tok Hne). cbn [negb].
  destruct (Auth.getUser auth tok) as [[[u |] [e |]] | e]; reflexivity.
Qed.

(** X2. Without a token nobody is asked: when the header is absent, blank,
    or [Bearer] followed by nothing but white space, the answer is 401
    "Missing auth token." whatever the auth service would say. *)
Theorem requireAuth_missing_token (auth : Auth.Provider) (authorization : option string) :
  authorization = None
  \/ (exists s, JsString.blank s = true /\
                (authorization = Some s \/ authorization = Some ("Bearer " ++ s))) ->
  requireAuth auth authorization = Auth.respond 401 "Missing auth token.".
Proof.
  intros [-> | (s & Hs & [-> | ->])].
  - reflexivity.
  - unfold requireAuth.
    destruct (Js.truthy_str (Some s)); cbn [Js.template_str];
      [rewrite (replace_blank s Hs), (trim_blank s Hs) |]; reflexivity.
  - unfold requireAuth.
    replace (Js.truthy_str (Some ("Bearer " ++ s))) with true by reflexivity.
    cbn [Js.template_str]. rewrite replace_leading.
    change ("" ++ s) with s. rewrite (trim_blank s Hs). reflexivity.
Qed.

(** X3. The scheme is not required: a header that is the bare token, with
    no [Bearer] in front, is accepted exactly as the header with it. *)
Theorem requireAuth_bare_token (auth : Auth.Provider) (tok : string) :
  JsString.no_space tok = true ->
  requireAuth auth (Some tok) = requireAuth auth (Some ("Bearer " ++ tok)).
Proof.
  intros Hs. unfold requireAuth.
  replace (Js.truthy_str (Some ("Bearer " ++ tok))) with true by reflexivity.
  cbn [Js.template_str]. rewrite (token_of_bearer_header tok Hs).
  destruct tok as [| c tok]; [reflexivity |].
  replace (Js.truthy_str (Some (String c tok))) with true by reflexivity.
  rewrite (replace_no_space _ Hs), (trim_no_space _ Hs). reflexivity.
Qed.

(** ** What every request keeps *)

Section Keeps.

Variable P : Policy.
Variable I : World -> Prop.
Hypothesis closed : Closed P I.

Lemma keeps_ret {A : Type} (a : A) : keeps I (ret a).
Proof. intros w Hw. exact Hw. Qed.

Lemma keeps_throw {A : Type} (e : Supabase.PostgrestError) : keeps I (@throw A e).
Proof. intros w Hw. exact Hw. Qed.

Lemma keeps_bind {A B : Type} (m : Async A) (k : A -> Async B) :
  keeps I m -> (forall a, keeps I (k a)) -> keeps I (bind m k).
Proof.
  intros Hm Hk w Hw. unfold bind. specialize (Hm w Hw).
  destruct (m w) as [[a | e] w']; cbn [snd] in *; [apply Hk |]; exact Hm.
Qed.

Lemma keeps_try_catch (body : Async Http.Response)
  (handler : Supabase.PostgrestError -> Http.Response) :
  keeps I body -> keeps I (try_catch body handler).
Proof.
  intros Hb w Hw. unfold try_catch. specialize (Hb w Hw).
  destruct (body w) as [[r | e] w']; exact Hb.
Qed.

Lemma keeps_try_catch_reply {A : Type} (body : Async (Reply.t A))
  (handler : Supabase.PostgrestError -> Reply.t A) :
  keeps I body -> keeps I (try_catch_reply body handler).
Proof.
  intros Hb w Hw. unfold try_catch_reply. specialize (Hb w Hw).
  destruct (body w) as [[r | e] w']; exact Hb.
Qed.

(** *** The queries *)

Lemma keeps_profiles_select_single (f : Supabase.ProfileFilter) :
  keeps I (profiles_select_single f).
Proof. intros w Hw. apply (closed_log _ _ closed), Hw. Qed.

Lemma keeps_profiles_insert (id : string) :
  may_provision P id -> keeps I (profiles_insert_select_single id DEFAULT_PLAN).
Proof.
  intros Hid w Hw. unfold profiles_insert_select_single.
  destruct (existsb _ (profiles w)) eqn:Hex; cbn [snd].
  - apply (closed_log _ _ closed), Hw.
  - apply (closed_provision _ _ closed id (log (Call.profiles_insert id) w) Hid Hex).
    apply (closed_log _ _ closed), Hw.
Qed.

Lemma keeps_profiles_update (u : Supabase.ProfileUpdate) (f : Supabase.ProfileFilter) :
  may_update P u f -> keeps I (profiles_update u f).
Proof.
  intros Hu w Hw. unfold profiles_update. cbn [snd].
  apply (closed_update _ _ closed u f (log (Call.profiles_update u f) w) Hu).
  apply (closed_log _ _ closed), Hw.
Qed.

Lemma keeps_blogs_count (userId : string) : keeps I (blogs_count_eq_user_id userId).
Proof. intros w Hw. apply (closed_log _ _ closed), Hw. Qed.

Lemma keeps_blogs_select (userId : string) :
  keeps I (blogs_select_eq_user_id_order_id userId).
Proof. intros w Hw. exact Hw. Qed.

Lemma keeps_blogs_insert (t c uid : string) :
  may_write P uid -> keeps I (blogs_insert_select_single t c uid).
Proof.
  intros Hu w Hw. unfold blogs_insert_select_single. cbn [snd].
  apply (closed_insert _ _ closed t c uid (log (Call.blogs_insert uid) w) Hu).
  apply (closed_log _ _ closed), Hw.
Qed.

Lemma keeps_blogs_update (t c : string) (id : Z) (uid : string) :
  may_write P uid -> keeps I (blogs_update_select_single t c id uid).
Proof.
  intros Hu w Hw. unfold blogs_update_select_single.
  destruct (List.filter _ (blogs w)) as [| b [| b' l]]; cbn [snd];
    try (apply (closed_log _ _ closed), Hw).
  apply (closed_retitle _ _ closed t c id uid (log (Call.blogs_update id uid) w) Hu).
  apply (closed_log _ _ closed), Hw.
Qed.

Lemma keeps_blogs_delete (id : Z) (uid : string) :
  may_write P uid -> keeps I (blogs_delete_select_single id uid).
Proof.
  intros Hu w Hw. unfold blogs_delete_select_single.
  destruct (List.filter _ (blogs w)) as [| b [| b' l]]; cbn [snd];
    try (apply (closed_log _ _ closed), Hw).
  apply (closed_delete _ _ closed id uid (log (Call.blogs_delete id uid) w) Hu).
  apply (closed_log _ _ closed), Hw.
Qed.

Lemma keeps_customers_create (sdk : Stripe.Sdk) (email : option string) (uid : string) :
  keeps I (stripe_customers_create sdk email uid).
Proof.
  intros w Hw. unfold stripe_customers_create. cbn [snd].
  apply (closed_customer _ _ closed), (closed_log _ _ closed), Hw.
Qed.

Lemma keeps_sessions_create (cfg : Config) (sdk : Stripe.Sdk)
  (customer : option string) (uid : string) :
  keeps I (stripe_checkout_sessions_create cfg sdk customer uid).
Proof.
  intros w Hw. unfold stripe_checkout_sessions_create. cbn [snd].
  apply (closed_session _ _ closed), (closed_log _ _ closed), Hw.
Qed.

(** *** The async functions and the handlers *)

Lemma keeps_ensureProfile (user : User.t) :
  may_provision P (User.id user) -> keeps I (ensureProfile user).
Proof.
  intros Hid. unfold ensureProfile.
  apply keeps_bind; [apply keeps_profiles_select_single |]. intros r. cbv zeta.
  assert (Hinsert : keeps I
    (let* r' := profiles_insert_select_single (User.id user) DEFAULT_PLAN in
     match Supabase.error r', Supabase.data r' with
     | Some insertError, _ => throw insertError
     | None, Some newProfile => ret newProfile
     | None, None =>
         throw (Supabase.mkError "TypeError" "Cannot read properties of null")
     end)).
  { apply keeps_bind; [apply keeps_profiles_insert, Hid |]. intros r'.
    destruct (Supabase.error r'), (Supabase.data r');
      first [apply keeps_ret | apply keeps_throw]. }
  destruct (Supabase.data r); [apply keeps_ret |].
  destruct (Supabase.error r) as [e |]; [| exact Hinsert].
  destruct (negb _); [apply keeps_throw | exact Hinsert].
Qed.

Lemma keeps_getBlogCount (userId : string) : keeps I (getBlogCount userId).
Proof.
  unfold getBlogCount. apply keeps_bind; [apply keeps_blogs_count |]. intros r.
  destruct (Supabase.error r); [apply keeps_throw | apply keeps_ret].
Qed.

Lemma keeps_get_profile (user : User.t) :
  may_provision P (User.id user) -> keeps I (get_profile user).
Proof.
  intros Hid. unfold get_profile. apply keeps_try_catch_reply.
  apply keeps_bind; [apply keeps_ensureProfile, Hid |]. intros p.
  apply keeps_bind; [apply keeps_getBlogCount |]. intros n. apply keeps_ret.
Qed.

Lemma keeps_get_blogs (user : User.t) :
  may_provision P (User.id user) -> keeps I (get_blogs user).
Proof.
  intros Hid. unfold get_blogs. apply keeps_try_catch_reply.
  apply keeps_bind; [apply keeps_ensureProfile, Hid |]. intros p.
  apply keeps_bind; [apply keeps_blogs_select |]. intros r.
  destruct (Supabase.error r); [apply keeps_throw | apply keeps_ret].
Qed.

Lemma keeps_post_blogs (user : User.t) (body : BlogBody) :
  may_provision P (User.id user) -> may_write P (User.id user) ->
  keeps I (post_blogs user body).
Proof.
  intros Hid Hwr. unfold post_blogs. apply keeps_try_catch.
  destruct (negb _ || negb _); [apply keeps_ret |].
  apply keeps_bind; [apply keeps_ensureProfile, Hid |]. intros p.
  apply keeps_bind; [apply keeps_getBlogCount |]. intros n. cbv zeta.
  destruct (Js.ge n _); [apply keeps_ret |].
  apply keeps_bind; [apply keeps_blogs_insert, Hwr |]. intros r.
  destruct (Supabase.error r), (Supabase.data r);
    first [apply keeps_ret | apply keeps_throw].
Qed.

Lemma keeps_put_blogs_id (user : User.t) (blogId : Z) (body : BlogBody) :
  may_write P (User.id user) -> keeps I (put_blogs_id user blogId body).
Proof.
  intros Hwr. unfold put_blogs_id. apply keeps_try_catch.
  destruct (negb _ || negb _); [apply keeps_ret |].
  apply keeps_bind; [apply keeps_blogs_update, Hwr |]. intros r.
  destruct (Supabase.error r), (Supabase.data r);
    first [apply keeps_ret | apply keeps_throw].
Qed.

Lemma keeps_delete_blogs_id (user : User.t) (blogId : Z) :
  may_write P (User.id user) -> keeps I (delete_blogs_id user blogId).
Proof.
  intros Hwr. unfold delete_blogs_id. apply keeps_try_catch.
  apply keeps_bind; [apply keeps_blogs_delete, Hwr |]. intros r.
  destruct (Supabase.error r), (Supabase.data r);
    first [apply keeps_ret | apply keeps_throw].
Qed.

Lemma keeps_post_billing_checkout (cfg : Config) (sdk : Stripe.Sdk) (user : User.t) :
  may_provision P (User.id user) ->
  (forall cid,
     may_update P (Supabase.mkUpdate None (Some (Some cid)) None)
       (Supabase.eq_id (User.id user))) ->
  keeps I (post_billing_checkout cfg sdk user).
Proof.
  intros Hid Hup. unfold post_billing_checkout. apply keeps_try_catch.
  destruct (negb _ || negb _); [apply keeps_ret |].
  apply keeps_bind; [apply keeps_ensureProfile, Hid |]. intros p.
  destruct (String.eqb _ "premium"); [apply keeps_ret |].
  apply keeps_bind.
  - destruct (negb _); [| apply keeps_ret].
    apply keeps_bind; [apply keeps_customers_create |]. intros c.
    apply keeps_bind; [apply keeps_profiles_update, Hup |]. intros _.
    apply keeps_ret.
  - intros cid. apply keeps_bind; [apply keeps_sessions_create |]. intros s.
    apply keeps_ret.
Qed.

Lemma keeps_post_stripe_webhook (cfg : Config) (sdk : Stripe.Sdk)
  (body : string) (sig : option string) :
  (forall id cus sub,
     may_update P (Supabase.mkUpdate (Some "premium") (Some cus) (Some sub))
       (Supabase.eq_id id)) ->
  (forall c,
     may_update P (Supabase.mkUpdate (Some DEFAULT_PLAN) None (Some None))
       (Supabase.eq_stripe_customer_id c)) ->
  keeps I (post_stripe_webhook cfg sdk body sig).
Proof.
  intros Hpremium Hfree w Hw. unfold post_stripe_webhook.
  destruct (negb _ || negb _); [exact Hw |].
  destruct (Stripe.constructEvent sdk body sig _) as [event | msg]; cbn [snd];
    [| apply (closed_log _ _ closed), Hw].
  apply keeps_try_catch; [| apply (closed_log _ _ closed), Hw].
  apply keeps_bind; [| intros _; apply keeps_ret].
  destruct (String.eqb _ "checkout.session.completed").
  - cbv zeta. destruct (Js.truthy_str _); [| apply keeps_ret].
    apply keeps_bind; [apply keeps_profiles_update, Hpremium |]. intros _.
    apply keeps_ret.
  - destruct (String.eqb _ "customer.subscription.deleted"); [| apply keeps_ret].
    cbv zeta. apply keeps_bind; [apply keeps_profiles_update, Hfree |]. intros _.
    apply keeps_ret.
Qed.

(** *** The routes *)

Variable cfg : Config.
Variable sdk : Stripe.Sdk.
Variable auth : Auth.Provider.

Lemma keeps_serve (req : Request) :
  permits auth P req -> keeps I (serve cfg sdk auth req).
Proof.
  intros Hreq w Hw.
  destruct req as [body sig | a | a | a body | a id body | a id | a];
    cbn [serve answer snd];
    try (destruct Hreq as [Hpremium Hfree];
         apply (keeps_post_stripe_webhook cfg sdk body sig Hpremium Hfree w Hw));
    unfold permits, requester in Hreq; unfold protect;
    (destruct (requireAuth auth a) as [status error | user]; [exact Hw |]);
    destruct (Hreq user eq_refl) as [Hid Hmore].
  - apply keeps_get_profile; assumption.
  - apply keeps_get_blogs; assumption.
  - apply keeps_post_blogs; assumption.
  - apply keeps_put_blogs_id; assumption.
  - apply keeps_delete_blogs_id; assumption.
  - apply keeps_post_billing_checkout; assumption.
Qed.

Lemma keeps_run (reqs : list Request) (w : World) :
  Forall (permits auth P) reqs -> I w -> I (run cfg sdk auth reqs w).
Proof.
  unfold run. revert w. induction reqs as [| req reqs IH]; intros w Hreqs Hw;
    [exact Hw |].
  apply Forall_cons_1 in Hreqs as [Hreq Hreqs]. cbn [fold_left].
  apply IH; [exact Hreqs |]. apply keeps_serve; assumption.
Qed.

End Keeps.

(** ** Invariants *)



Lemma update_where_id (u : Supabase.ProfileUpdate) (f : Supabase.ProfileFilter)
  (p : Profile.t) : Profile.id (update_where u f p) = Profile.id p.
Proof. unfold update_where. destruct (Supabase.profile_matches f p); reflexivity. Qed.



Lemma permits_anything (auth : Auth.Provider) (req : Request) :
  permits auth anything req.
Proof. destruct req; cbn; intros; repeat split; intros; exact Logic.I. Qed.




Lemma Forall_filter_bool {A : Type} (Q : A -> Prop) (P : A -> bool) (l : list A) :
  Forall Q l -> Forall Q (List.filter P l).
Proof.
  intros H. apply Forall_forall. intros x Hx. apply list_elem_of_In in Hx.
  apply List.filter_In in Hx as [Hx _].
  rewrite Forall_forall in H. apply H, list_elem_of_In, Hx.
Qed.



Lemma known_plans_closed : Closed tier_updates known_plans.
Proof.
  constructor; unfold known_plans; try (intros; assumption).
  - intros id w _ _ Hw. cbn [with_profiles profiles]. apply Forall_app.
    split; [exact Hw |]. constructor; [left; reflexivity | constructor].
  - intros u f w Hu Hw. cbn [with_profiles profiles]. apply Forall_fmap.
    eapply Forall_impl; [exact Hw |]. cbn beta. intros p Hp. unfold compose, update_where.
    destruct (Supabase.profile_matches f p); [| exact Hp].
    cbn [Supabase.apply_update Profile.plan]. cbn [tier_updates may_update] in Hu.
    destruct Hu as [-> | [-> | ->]]; cbn [default]; auto.
Qed.

Lemma permits_tier_updates (auth : Auth.Provider) (req : Request) :
  permits auth tier_updates req.
Proof.
  destruct req; cbn; intros; repeat split; intros; auto.
Qed.

(** X6. The plan stays one of the two tiers.  If every profile is on
    "free" or "premium", then after any requests every profile still is,
    and so the ceiling of every profile is the number 4 or the number 20:
    the server writes no other plan. *)
Theorem run_keeps_known_plans
  (cfg : Config) (sdk : Stripe.Sdk) (auth : Auth.Provider)
  (reqs : list Request) (w : World) :
  known_plans w ->
  known_plans (run cfg sdk auth reqs w) /\
  forall p, In p (profiles (run cfg sdk auth reqs w)) ->
    getPlanLimit (Profile.plan p) = Js.Number 4 \/
    getPlanLimit (Profile.plan p) = Js.Number 20.
Proof.
  intros Hw.
  assert (Hrun : known_plans (run cfg sdk auth reqs w)).
  { apply (keeps_run tier_updates known_plans known_plans_closed); [| exact Hw].
    apply Forall_forall. intros req _. apply permits_tier_updates. }
  split; [exact Hrun |]. intros p Hp. unfold known_plans in Hrun.
  rewrite Forall_forall in Hrun. apply list_elem_of_In in Hp.
  destruct (Hrun p Hp) as [-> | ->]; [left | right]; reflexivity.
Qed.

(** ** What a request cannot do *)

Lemma matches_owner (id : Z) (uid : string) (b : Blog.t) :
  Supabase.blog_matches id uid b = true -> Blog.user_id b = uid.
Proof.
  unfold Supabase.blog_matches. intros H. apply andb_prop in H as [_ H].
  apply String.eqb_eq, H.
Qed.

Lemma owned_by_other (uid V : string) (b : Blog.t) :
  uid <> V -> Blog.user_id b = uid -> Supabase.owned_by V b = false.
Proof.
  intros Hne Hb. unfold Supabase.owned_by. rewrite Hb. apply String.eqb_neq, Hne.
Qed.

Lemma posts_of_closed (V : string) (L : list Blog.t) :
  Closed (not_as V) (fun w => posts_of V w = L).
Proof.
  constructor; unfold posts_of; try (intros; assumption).
  - intros t c uid w Hne Hw. cbn [with_blog_inserted blogs].
    rewrite List.filter_app, Hw. cbn [List.filter].
    rewrite (owned_by_other uid V) by (assumption || reflexivity).
    apply app_nil_r.
  - intros t c id uid w Hne Hw. cbn [with_blogs blogs]. rewrite <- Hw. clear Hw.
    induction (blogs w) as [| b bs IH]; [reflexivity |]. cbn [map List.filter].
    destruct (Supabase.blog_matches id uid b) eqn:Hm.
    + rewrite (owned_by_other uid V (retitle t c b) Hne (matches_owner _ _ _ Hm)).
      rewrite (owned_by_other uid V b Hne (matches_owner _ _ _ Hm)). exact IH.
    + destruct (Supabase.owned_by V b); [f_equal |]; exact IH.
  - intros id uid w Hne Hw. cbn [with_blogs blogs]. rewrite <- Hw. clear Hw.
    induction (blogs w) as [| b bs IH]; [reflexivity |]. cbn [List.filter].
    destruct (Supabase.blog_matches id uid b) eqn:Hm; cbn [negb].
    + rewrite (owned_by_other uid V b Hne (matches_owner _ _ _ Hm)). exact IH.
    + cbn [List.filter]. destruct (Supabase.owned_by V b); [f_equal |]; exact IH.
Qed.

Lemma permits_not_as (auth : Auth.Provider) (V : string) (req : Request) :
  (forall user, requester auth req = Some user -> User.id user <> V) ->
  permits auth (not_as V) req.
Proof.
  intros Hreq. destruct req; cbn [permits]; try (split; intros; exact Logic.I);
    intros user Hu; (split; [exact Logic.I |]); cbn [not_as may_write may_update];
    try exact Logic.I; try (intros; exact Logic.I); apply Hreq, Hu.
Qed.

(** X7. Nobody writes another user's posts.  After any requests none of
    which the middleware lets through as user [V] (requests of other
    users, unauthenticated requests, webhook deliveries), the posts of
    [V] are what they were, in the same order. *)
Theorem others_keep_my_posts
  (cfg : Config) (sdk : Stripe.Sdk) (auth : Auth.Provider)
  (V : string) (reqs : list Request) (w : World) :
  Forall (fun req => forall user, requester auth req = Some user -> User.id user <> V)
    reqs ->
  posts_of V (run cfg sdk auth reqs w) = posts_of V w.
Proof.
  intros Hreqs.
  apply (keeps_run (not_as V) (fun w' => posts_of V w' = posts_of V w)
           (posts_of_closed V (posts_of V w))); [| reflexivity].
  eapply Forall_impl; [exact Hreqs |]. intros req. apply permits_not_as.
Qed.

Lemma blogs_closed (B : list Blog.t) (n : Z) :
  Closed read_only (fun w => blogs w = B /\ blogs_id_seq w = n).
Proof.
  constructor; try (intros; assumption);
    cbn [read_only may_write]; intros; contradiction.
Qed.

Lemma permits_read_only (auth : Auth.Provider) (req : Request) :
  writes_posts req = false -> permits auth read_only req.
Proof.
  destruct req; cbn; intros; try discriminate; repeat split; intros; exact Logic.I.
Qed.

(** X8. Only the three post routes write posts.  Any sequence of the other
    requests (GET /profile, GET /blogs, POST /billing/checkout, webhook
    deliveries) leaves the [blogs] table and its id sequence as they
    were. *)
Theorem other_routes_keep_posts
  (cfg : Config) (sdk : Stripe.Sdk) (auth : Auth.Provider)
  (reqs : list Request) (w : World) :
  Forall (fun req => writes_posts req = false) reqs ->
  blogs (run cfg sdk auth reqs w) = blogs w /\
  blogs_id_seq (run cfg sdk auth reqs w) = blogs_id_seq w.
Proof.
  intros Hreqs.
  apply (keeps_run read_only (fun w' => blogs w' = blogs w /\ blogs_id_seq w' = blogs_id_seq w)
           (blogs_closed (blogs w) (blogs_id_seq w))); [| split; reflexivity].
  eapply Forall_impl; [exact Hreqs |]. intros req. apply permits_read_only.
Qed.

Lemma not_premium_closed :
  Closed plan_untouched
    (fun w => Forall (fun p => Profile.plan p <> "premium") (profiles w)).
Proof.
  constructor; try (intros; assumption).
  - intros id w _ _ Hw. cbn [with_profiles profiles]. apply Forall_app.
    split; [exact Hw |]. constructor; [discriminate | constructor].
  - intros u f w Hu Hw. cbn [with_profiles profiles]. apply Forall_fmap.
    eapply Forall_impl; [exact Hw |]. cbn beta. intros p Hp. unfold compose, update_where.
    destruct (Supabase.profile_matches f p); [| exact Hp].
    cbn [Supabase.apply_update Profile.plan]. cbn [plan_untouched may_update] in Hu.
    rewrite Hu. exact Hp.
Qed.

Lemma permits_plan_untouched (auth : Auth.Provider) (req : Request) :
  is_webhook req = false -> permits auth plan_untouched req.
Proof.
  destruct req; cbn; intros; try discriminate; repeat split; intros; auto.
Qed.

(** X9. No client request upgrades a plan.  If no profile is on premium,
    then after any requests that are not webhook deliveries no profile is
    on premium: only a verified event of the billing provider can set
    it. *)
Theorem no_premium_without_webhook
  (cfg : Config) (sdk : Stripe.Sdk) (auth : Auth.Provider)
  (reqs : list Request) (w : World) :
  Forall (fun req => is_webhook req = false) reqs ->
  Forall (fun p => Profile.plan p <> "premium") (profiles w) ->
  Forall (fun p => Profile.plan p <> "premium") (profiles (run cfg sdk auth reqs w)).
Proof.
  intros Hreqs.
  apply (keeps_run plan_untouched _ not_premium_closed).
  eapply Forall_impl; [exact Hreqs |]. intros req. apply permits_plan_untouched.
Qed.

(** X10. A request the middleware stops changes nothing.  On every route
    behind [requireAuth], a request that does not get through is answered
    with 401 or 500 and the world is the one before it: no profile is
    provisioned, nothing is read, written or logged. *)
Theorem stopped_request_changes_nothing
  (cfg : Config) (sdk : Stripe.Sdk) (auth : Auth.Provider)
  (req : Request) (w : World) :
  is_webhook req = false ->
  requester auth req = None ->
  snd (serve cfg sdk auth req w) = w /\
  (status_of (fst (serve cfg sdk auth req w)) = 401 \/
   status_of (fst (serve cfg sdk auth req w)) = 500).
Proof.
  intros Hweb Hreq.
  assert (Hstatus : forall a, (match requireAuth auth a with
                               | Auth.next user => Some user
                               | Auth.respond _ _ => None
                               end) = None ->
            exists status error, requireAuth auth a = Auth.respond status error /\
                                 (status = 401 \/ status = 500)).
  { intros a Ha. unfold requireAuth in *.
    destruct (negb (Js.truthy_str (Some _))); [eauto |].
    destruct (Auth.getUser auth _) as [[[u |] [e |]] | e]; try discriminate Ha; eauto. }
  destruct req as [body sig | a | a | a body | a id body | a id | a];
    [discriminate Hweb | ..];
    cbn [requester] in Hreq; destruct (Hstatus a Hreq) as (status & error & Ha & Hs);
    cbn [serve answer fst snd]; unfold protect; rewrite Ha; cbn [fst snd status_of];
    (split; [reflexivity | exact Hs]).
Qed.

(** ** The owner of a post *)

Lemma same_id_same_row {A : Type} (f : A -> Z) (l : list A) (a b : A) :
  NoDup (map f l) -> In a l -> In b l -> f a = f b -> a = b.
Proof.
  induction l as [| x l IH]; intros Hnd Ha Hb Hf; [destruct Ha |].
  cbn [map] in Hnd. apply NoDup_cons in Hnd as [Hx Hnd].
  assert (Hin : forall y, In y l -> f y <> f x).
  { intros y Hy Hfy. apply Hx. rewrite <- Hfy. apply list_elem_of_In, in_map, Hy. }
  destruct Ha as [<- | Ha], Hb as [<- | Hb].
  - reflexivity.
  - exfalso. apply (Hin b Hb). symmetry. exact Hf.
  - exfalso. apply (Hin a Ha). exact Hf.
  - apply IH; assumption.
Qed.

Lemma descends_closed (w0 : World) :
  Closed anything
    (fun w =>
       blogs_id_seq w0 <= blogs_id_seq w /\
       Forall (fun b => Blog.id b < blogs_id_seq w) (blogs w) /\
       forall b', In b' (blogs w) -> Blog.id b' < blogs_id_seq w0 ->
         exists b, In b (blogs w0) /\ Blog.id b = Blog.id b' /\
                   Blog.user_id b = Blog.user_id b').
Proof.
  constructor; try (intros; assumption).
  - intros t c uid w _ (Hseq & Hlt & Hold).
    cbn [with_blog_inserted blogs blogs_id_seq]. split; [lia |]. split.
    + apply Forall_app. split.
      * eapply Forall_impl; [exact Hlt |]. cbn beta. intros b Hb. lia.
      * constructor; [cbn [Blog.id]; lia | constructor].
    + intros b' Hb' Hid. apply in_app_iff in Hb' as [Hb' | [<- | []]].
      * apply Hold; assumption.
      * cbn [Blog.id] in Hid. lia.
  - intros t c id uid w _ (Hseq & Hlt & Hold).
    cbn [with_blogs blogs blogs_id_seq]. split; [exact Hseq |]. split.
    + apply Forall_fmap. eapply Forall_impl; [exact Hlt |]. cbn beta.
      intros b Hb. unfold compose. destruct (Supabase.blog_matches id uid b); exact Hb.
    + intros b' Hb' Hid. apply in_map_iff in Hb' as (b0 & <- & Hb0).
      destruct (Hold b0 Hb0) as (b & Hb & Hbid & Hbu).
      * destruct (Supabase.blog_matches id uid b0); exact Hid.
      * exists b. destruct (Supabase.blog_matches id uid b0); auto.
  - intros id uid w _ (Hseq & Hlt & Hold).
    cbn [with_blogs blogs blogs_id_seq]. split; [exact Hseq |]. split.
    + apply Forall_filter_bool, Hlt.
    + intros b' Hb' Hid. apply List.filter_In in Hb' as [Hb' _]. apply Hold; assumption.
Qed.

(** X11. A post never changes hands.  In a world whose post ids are
    distinct and below the sequence, take any post; after any requests, a
    post with that id, if there still is one, has the same owner.  An
    update cannot move a post to another user, and an id freed by a delete
    is not given to a later post. *)
Theorem owner_never_changes
  (cfg : Config) (sdk : Stripe.Sdk) (auth : Auth.Provider)
  (reqs : list Request) (w : World) (b b' : Blog.t) :
  fresh_ids w ->
  In b (blogs w) -> In b' (blogs (run cfg sdk auth reqs w)) ->
  Blog.id b' = Blog.id b ->
  Blog.user_id b' = Blog.user_id b.
Proof.
  intros [Hnd Hlt] Hb Hb' Hid.
  assert (Hrun := keeps_run anything _ (descends_closed w) cfg sdk auth reqs w).
  cbv beta in Hrun. destruct Hrun as (_ & _ & Hold).
  - apply Forall_forall. intros req _. apply permits_anything.
  - split; [lia |]. split; [exact Hlt |]. intros b0 Hb0 _. exists b0. auto.
  - destruct (Hold b' Hb') as (b0 & Hb0 & Hb0id & Hb0u).
    + rewrite Hid. rewrite Forall_forall in Hlt. apply Hlt, list_elem_of_In, Hb.
    + assert (b0 = b) as -> by
        (apply (same_id_same_row Blog.id (blogs w)); [assumption .. | congruence]).
      symmetry. exact Hb0u.
Qed.

(** ** The post gate, for every plan *)

(** [ensureProfile] for an identity with one profile row, or with none. *)
Lemma ensureProfile_cases (user : User.t) (p : Profile.t) (w : World) :
  profiles_of (User.id user) w = [p]
  \/ (profiles_of (User.id user) w = [] /\ p = Profile.mk (User.id user) "free" None None) ->
  exists w0,
    ensureProfile user w = (Fulfilled p, w0) /\
    blogs w0 = blogs w /\ blogs_id_seq w0 = blogs_id_seq w /\
    customers w0 = customers w /\ checkout_sessions w0 = checkout_sessions w /\
    profiles_of (User.id user) w0 = [p] /\
    (profiles w0 = profiles w \/ profiles w0 = (profiles w ++ [p])%list).
Proof.
  intros [Hp | [Hp ->]].
  - eexists. split; [apply (ensureProfile_found user p w Hp) |].
    repeat (split; [reflexivity |]). split; [exact Hp | left; reflexivity].
  - eexists. split; [apply (ensureProfile_absent user w Hp) |].
    repeat (split; [reflexivity |]). split; [| right; reflexivity].
    erewrite profiles_of_app by reflexivity.
    fold (profiles_of (User.id user) w). rewrite Hp.
    cbn [List.filter app]. unfold DEFAULT_PLAN. rewrite eq_id_mk. reflexivity.
Qed.

Lemma getPlanLimit_number (plan : string) :
  plan ∉ Js.Object_prototype ->
  getPlanLimit plan = Js.Number (if String.eqb plan "premium" then 20 else 4).
Proof.
  intros Hproto.
  destruct (String.eqb_spec plan "premium") as [-> | Hp]; [reflexivity |].
  destruct (String.eqb_spec plan "free") as [-> | Hf]; [reflexivity |].
  apply getPlanLimit_fallback; assumption.
Qed.

(** POST /blogs with both fields given, once the profile is at hand. *)
Lemma post_blogs_runs (user : User.t) (t c : string) (p : Profile.t) (w w0 : World) :
  t <> "" -> c <> "" ->
  ensureProfile user w = (Fulfilled p, w0) ->
  let planLimit := getPlanLimit (Profile.plan p) in
  let b := Blog.mk (blogs_id_seq w0) t c (User.id user) in
  post_blogs user (mkBody (Some t) (Some c)) w
  = if Js.ge (post_count (User.id user) w0) planLimit
    then (Http.error 403
            ("Plan limit reached. Upgrade to add more than "
             ++ Js.template planLimit ++ " blogs."),
          log (Call.blogs_count (User.id user)) w0)
    else (Http.json (Http.json_blog b),
          with_blog_inserted b
            (log (Call.blogs_insert (User.id user))
               (log (Call.blogs_count (User.id user)) w0))).
Proof.
  intros Ht Hc Hens planLimit b.
  unfold post_blogs, try_catch. cbn [title content].
  rewrite !truthy_str_Some by assumption. cbn [negb orb].
  unfold bind at 1. rewrite Hens.
  unfold bind at 1. rewrite getBlogCount_counts.
  fold planLimit. destruct (Js.ge _ planLimit); reflexivity.
Qed.

(** X12. The ceiling of every tier, at the route.  For a user with one
    profile, or none yet, whose plan is not a name inherited from
    [Object.prototype], the ceiling [L] is 20 on "premium" and 4 on every
    other plan.  With [L] or more posts, POST /blogs answers 403 with the
    message naming [L] and inserts nothing; with fewer, it inserts the
    post and the count goes up by one. *)
Theorem post_blogs_ceiling
  (user : User.t) (t c : string) (p : Profile.t) (w : World) :
  t <> "" -> c <> "" ->
  profiles_of (User.id user) w = [p]
  \/ (profiles_of (User.id user) w = [] /\ p = Profile.mk (User.id user) "free" None None) ->
  Profile.plan p ∉ Js.Object_prototype ->
  let L := if String.eqb (Profile.plan p) "premium" then 20 else 4 in
  let n := post_count (User.id user) w in
  let res := fst (post_blogs user (mkBody (Some t) (Some c)) w) in
  let w' := snd (post_blogs user (mkBody (Some t) (Some c)) w) in
  (L <= n ->
     res = Http.error 403
             ("Plan limit reached. Upgrade to add more than " ++ pretty L ++ " blogs.") /\
     blogs w' = blogs w) /\
  (n < L ->
     let b := Blog.mk (blogs_id_seq w) t c (User.id user) in
     res = Http.json (Http.json_blog b) /\
     blogs w' = (blogs w ++ [b])%list /\
     post_count (User.id user) w' = n + 1).
Proof.
  intros Ht Hc Hp Hplan L n res w'.
  destruct (ensureProfile_cases user p w Hp) as (w0 & Hens & Hb0 & Hseq0 & _).
  pose proof (post_blogs_runs user t c p w w0 Ht Hc Hens) as Hrun. cbv zeta in Hrun.
  rewrite (getPlanLimit_number _ Hplan) in Hrun. fold L in Hrun.
  assert (Hn : post_count (User.id user) w0 = n)
    by (unfold n, post_count; rewrite Hb0; reflexivity).
  rewrite Hn, Hseq0 in Hrun. cbn [Js.ge Js.template] in Hrun.
  subst res w'. rewrite Hrun. split; intros HL.
  - replace (Z.leb L n) with true by (symmetry; apply Z.leb_le; exact HL).
    cbn [fst snd log blogs]. split; [reflexivity | exact Hb0].
  - replace (Z.leb L n) with false by (symmetry; apply Z.leb_gt; exact HL).
    cbn [fst snd]. split; [reflexivity |]. split.
    + cbn [with_blog_inserted log blogs]. rewrite Hb0. reflexivity.
    + rewrite post_count_inserted, !post_count_log, Hn. reflexivity.
Qed.

(** X13. POST /blogs never takes a user past the ceiling.  Under the same
    conditions and for any body, well-formed or not, a user who has at
    most [L] posts has at most [L] posts afterwards. *)
Theorem post_blogs_stays_within_ceiling
  (user : User.t) (body : BlogBody) (p : Profile.t) (w : World) :
  profiles_of (User.id user) w = [p]
  \/ (profiles_of (User.id user) w = [] /\ p = Profile.mk (User.id user) "free" None None) ->
  Profile.plan p ∉ Js.Object_prototype ->
  let L := if String.eqb (Profile.plan p) "premium" then 20 else 4 in
  post_count (User.id user) w <= L ->
  post_count (User.id user) (snd (post_blogs user body w)) <= L.
Proof.
  intros Hp Hplan L Hn.
  destruct (Js.truthy_str (title body)) eqn:Ht;
    [destruct (Js.truthy_str (content body)) eqn:Hc |].
  - destruct (truthy_str_inv _ Ht) as (t & Het & Htne).
    destruct (truthy_str_inv _ Hc) as (c & Hec & Hcne).
    destruct body as [bt bc]. cbn [title content] in Het, Hec. subst bt bc.
    destruct (ensureProfile_cases user p w Hp) as (w0 & Hens & Hb0 & Hseq0 & _).
    pose proof (post_blogs_runs user t c p w w0 Htne Hcne Hens) as Hrun. cbv zeta in Hrun.
    rewrite (getPlanLimit_number _ Hplan) in Hrun. fold L in Hrun.
    assert (Hn0 : post_count (User.id user) w0 = post_count (User.id user) w)
      by (unfold post_count; rewrite Hb0; reflexivity).
    rewrite Hrun, Hn0. cbn [Js.ge].
    destruct (Z.leb_spec L (post_count (User.id user) w)) as [Hle | Hlt]; cbn [snd].
    + rewrite post_count_log, Hn0. exact Hn.
    + rewrite post_count_inserted, !post_count_log, Hn0. lia.
  - rewrite post_blogs_falsy_field by (right; exact Hc). exact Hn.
  - rewrite post_blogs_falsy_field by (left; exact Ht). exact Hn.
Qed.

(** ** GET /profile and GET /blogs *)

Lemma get_profile_runs (user : User.t) (p : Profile.t) (w w0 : World) :
  ensureProfile user w = (Fulfilled p, w0) ->
  get_profile user w
  = (Reply.json (mkProfileInfo (Profile.plan p) (post_count (User.id user) w0)
                   (getPlanLimit (Profile.plan p))),
     log (Call.blogs_count (User.id user)) w0).
Proof.
  intros Hens. unfold get_profile, try_catch_reply.
  unfold bind at 1. rewrite Hens.
  unfold bind at 1. rewrite getBlogCount_counts. reflexivity.
Qed.

(** X14. What GET /profile shows is what POST /blogs enforces.  For a user
    with one profile or none yet, on any plan, GET /profile answers with
    the plan, the number of the user's posts and [getPlanLimit] of the
    plan, and writes no post; and a POST /blogs with a title and a content
    is refused with 403 exactly when [blogCount >= maxBlogs] holds of that
    answer, and accepted with 200 otherwise. *)
Theorem profile_view_agrees_with_gate
  (user : User.t) (t c : string) (p : Profile.t) (w : World) :
  t <> "" -> c <> "" ->
  profiles_of (User.id user) w = [p]
  \/ (profiles_of (User.id user) w = [] /\ p = Profile.mk (User.id user) "free" None None) ->
  let info := mkProfileInfo (Profile.plan p) (post_count (User.id user) w)
                (getPlanLimit (Profile.plan p)) in
  let posted := post_blogs user (mkBody (Some t) (Some c)) w in
  fst (get_profile user w) = Reply.json info /\
  blogs (snd (get_profile user w)) = blogs w /\
  (Js.ge (blogCount info) (maxBlogs info) = true ->
     Http.status (fst posted) = 403 /\ blogs (snd posted) = blogs w) /\
  (Js.ge (blogCount info) (maxBlogs info) = false ->
     Http.status (fst posted) = 200 /\
     post_count (User.id user) (snd posted) = post_count (User.id user) w + 1).
Proof.
  intros Ht Hc Hp info posted.
  destruct (ensureProfile_cases user p w Hp) as (w0 & Hens & Hb0 & Hseq0 & _).
  assert (Hn0 : post_count (User.id user) w0 = post_count (User.id user) w)
    by (unfold post_count; rewrite Hb0; reflexivity).
  rewrite (get_profile_runs user p w w0 Hens), Hn0. cbn [fst snd log blogs].
  split; [reflexivity |]. split; [exact Hb0 |].
  pose proof (post_blogs_runs user t c p w w0 Ht Hc Hens) as Hrun. cbv zeta in Hrun.
  rewrite Hn0 in Hrun. subst posted. rewrite Hrun. cbn [blogCount maxBlogs info].
  split; intros Hge; rewrite Hge; cbn [fst snd Http.status Http.error Http.json].
  - split; [reflexivity | exact Hb0].
  - split; [reflexivity |]. rewrite post_count_inserted, !post_count_log, Hn0. reflexivity.
Qed.

Lemma insert_by_id_perm (b : Blog.t) (l : list Blog.t) :
  Permutation (insert_by_id b l) (b :: l).
Proof.
  induction l as [| x l IH]; cbn [insert_by_id]; [reflexivity |].
  destruct (Z.leb (Blog.id b) (Blog.id x)); [reflexivity |].
  rewrite IH. apply perm_swap.
Qed.

Lemma order_by_id_perm (l : list Blog.t) : Permutation (order_by_id l) l.
Proof.
  induction l as [| b l IH]; cbn [order_by_id]; [reflexivity |].
  rewrite insert_by_id_perm. apply perm_skip, IH.
Qed.

Lemma insert_by_id_sorted (b : Blog.t) (l : list Blog.t) :
  StronglySorted (fun x y => Blog.id x <= Blog.id y) l ->
  StronglySorted (fun x y => Blog.id x <= Blog.id y) (insert_by_id b l).
Proof.
  induction l as [| x l IH]; cbn [insert_by_id]; intros Hl.
  - constructor; constructor.
  - apply StronglySorted_inv in Hl as [Hl Hx].
    destruct (Z.leb_spec (Blog.id b) (Blog.id x)) as [Hle | Hgt].
    + constructor; [constructor; assumption |].
      constructor; [exact Hle |].
      eapply Forall_impl; [exact Hx |]. cbn beta. intros y Hy. lia.
    + constructor; [apply IH, Hl |].
      rewrite (insert_by_id_perm b l). constructor; [lia | exact Hx].
Qed.

Lemma order_by_id_sorted (l : list Blog.t) :
  StronglySorted (fun x y => Blog.id x <= Blog.id y) (order_by_id l).
Proof.
  induction l as [| b l IH]; cbn [order_by_id]; [constructor |].
  apply insert_by_id_sorted, IH.
Qed.

Lemma get_blogs_runs (user : User.t) (p : Profile.t) (w w0 : World) :
  ensureProfile user w = (Fulfilled p, w0) ->
  get_blogs user w = (Reply.json (order_by_id (posts_of (User.id user) w0)), w0).
Proof.
  intros Hens. unfold get_blogs, try_catch_reply.
  unfold bind at 1. rewrite Hens. reflexivity.
Qed.

(** X15. GET /blogs lists the requester's posts and no others.  For a
    user with one profile or none yet, the answer is a list that holds
    each post of the user exactly once, holds no post of anybody else,
    and is in ascending order of id; the [blogs] table is not changed. *)
Theorem get_blogs_lists_own_posts (user : User.t) (p : Profile.t) (w : World) :
  profiles_of (User.id user) w = [p]
  \/ (profiles_of (User.id user) w = [] /\ p = Profile.mk (User.id user) "free" None None) ->
  exists listing,
    fst (get_blogs user w) = Reply.json listing /\
    Permutation listing (posts_of (User.id user) w) /\
    (forall b, In b listing <-> In b (blogs w) /\ Blog.user_id b = User.id user) /\
    StronglySorted (fun x y => Blog.id x <= Blog.id y) listing /\
    blogs (snd (get_blogs user w)) = blogs w.
Proof.
  intros Hp.
  destruct (ensureProfile_cases user p w Hp) as (w0 & Hens & Hb0 & _).
  rewrite (get_blogs_runs user p w w0 Hens). cbn [fst snd].
  assert (Hposts : posts_of (User.id user) w0 = posts_of (User.id user) w)
    by (unfold posts_of; rewrite Hb0; reflexivity).
  rewrite Hposts. eexists. split; [reflexivity |].
  split; [apply order_by_id_perm |]. split; [| split; [apply order_by_id_sorted | exact Hb0]].
  intros b. rewrite <- !list_elem_of_In, (order_by_id_perm (posts_of (User.id user) w)).
  rewrite !list_elem_of_In. unfold posts_of. rewrite List.filter_In.
  unfold Supabase.owned_by. rewrite String.eqb_eq. reflexivity.
Qed.

Lemma insert_by_id_snoc (x b : Blog.t) (m : list Blog.t) :
  Blog.id x < Blog.id b ->
  insert_by_id x (m ++ [b]) = (insert_by_id x m ++ [b])%list.
Proof.
  intros Hx. induction m as [| y m IH]; cbn [app insert_by_id].
  - replace (Z.leb (Blog.id x) (Blog.id b)) with true
      by (symmetry; apply Z.leb_le; lia). reflexivity.
  - destruct (Z.leb (Blog.id x) (Blog.id y)); [reflexivity |].
    rewrite IH. reflexivity.
Qed.

Lemma order_by_id_snoc (b : Blog.t) (l : list Blog.t) :
  Forall (fun x => Blog.id x < Blog.id b) l ->
  order_by_id (l ++ [b]) = (order_by_id l ++ [b])%list.
Proof.
  induction l as [| x l IH]; intros Hl; [reflexivity |].
  apply Forall_cons in Hl as [Hx Hl]. cbn [app order_by_id].
  rewrite (IH Hl). apply insert_by_id_snoc, Hx.
Qed.

(** X16. A post that was accepted shows up in the listing, last.  In a
    world whose post ids are below the sequence, when POST /blogs accepts
    a post, the next GET /blogs of the same user answers with the listing
    from before the post followed by the new post. *)
Theorem posted_blog_is_listed
  (user : User.t) (t c : string) (p : Profile.t) (w : World) :
  t <> "" -> c <> "" ->
  profiles_of (User.id user) w = [p]
  \/ (profiles_of (User.id user) w = [] /\ p = Profile.mk (User.id user) "free" None None) ->
  fresh_ids w ->
  Js.ge (post_count (User.id user) w) (getPlanLimit (Profile.plan p)) = false ->
  let b := Blog.mk (blogs_id_seq w) t c (User.id user) in
  let w' := snd (post_blogs user (mkBody (Some t) (Some c)) w) in
  fst (post_blogs user (mkBody (Some t) (Some c)) w) = Http.json (Http.json_blog b) /\
  fst (get_blogs user w) = Reply.json (order_by_id (posts_of (User.id user) w)) /\
  fst (get_blogs user w')
  = Reply.json (order_by_id (posts_of (User.id user) w) ++ [b])%list.
Proof.
  intros Ht Hc Hp [_ Hlt] Hge b w'.
  destruct (ensureProfile_cases user p w Hp) as (w0 & Hens & Hb0 & Hseq0 & _ & _ & Hp0 & _).
  assert (Hn0 : post_count (User.id user) w0 = post_count (User.id user) w)
    by (unfold post_count; rewrite Hb0; reflexivity).
  pose proof (post_blogs_runs user t c p w w0 Ht Hc Hens) as Hrun. cbv zeta in Hrun.
  rewrite Hn0, Hge, Hseq0 in Hrun. fold b in Hrun.
  subst w'. rewrite Hrun. cbn [fst snd]. split; [reflexivity |].
  rewrite (get_blogs_runs user p w w0 Hens). cbn [fst]. split.
  - unfold posts_of. rewrite Hb0. reflexivity.
  - set (w' := with_blog_inserted b _).
    assert (Hp' : profiles_of (User.id user) w' = [p]) by exact Hp0.
    rewrite (get_blogs_runs user p w' _ (ensureProfile_found user p w' Hp')). cbn [fst].
    f_equal. unfold posts_of. cbn [w' with_blog_inserted log blogs]. rewrite Hb0.
    rewrite List.filter_app. cbn [List.filter].
    unfold Supabase.owned_by at 2. cbn [b Blog.user_id]. rewrite String.eqb_refl.
    apply order_by_id_snoc. apply Forall_filter_bool.
    eapply Forall_impl; [exact Hlt |]. cbn beta. intros x Hx. exact Hx.
Qed.

(** ** The owner's update and delete *)

Lemma no_such_id (blogId : Z) (uid : string) (bs : list Blog.t) :
  ~ In blogId (map Blog.id bs) ->
  List.filter (Supabase.blog_matches blogId uid) bs = [] /\
  List.filter (fun q => negb (Supabase.blog_matches blogId uid q)) bs = bs.
Proof.
  induction bs as [| x bs IH]; intros Hid; [split; reflexivity |].
  cbn [map] in Hid. cbn [List.filter].
  assert (Hm : Supabase.blog_matches blogId uid x = false).
  { unfold Supabase.blog_matches.
    destruct (Z.eqb_spec (Blog.id x) blogId) as [He | Hne]; [| reflexivity].
    exfalso. apply Hid. left. exact He. }
  rewrite Hm. cbn [negb].
  destruct IH as [IH1 IH2]; [intros H; apply Hid; right; exact H |].
  rewrite IH2. split; [exact IH1 | reflexivity].
Qed.

(** With distinct ids, the filter of the two routes selects the one row. *)
Lemma owned_row_selected (b : Blog.t) (bs : list Blog.t) :
  NoDup (map Blog.id bs) -> In b bs ->
  List.filter (Supabase.blog_matches (Blog.id b) (Blog.user_id b)) bs = [b].
Proof.
  induction bs as [| x bs IH]; intros Hnd Hin; [destruct Hin |].
  cbn [map] in Hnd. apply NoDup_cons in Hnd as [Hx Hnd]. rewrite list_elem_of_In in Hx.
  cbn [List.filter]. destruct Hin as [-> | Hin].
  - unfold Supabase.blog_matches at 1. rewrite Z.eqb_refl, String.eqb_refl. cbn [andb].
    rewrite (proj1 (no_such_id _ _ _ Hx)). reflexivity.
  - unfold Supabase.blog_matches at 1.
    destruct (Z.eqb_spec (Blog.id x) (Blog.id b)) as [He | Hne].
    + exfalso. apply Hx. rewrite He. apply in_map, Hin.
    + cbn [andb]. apply IH; assumption.
Qed.

Lemma Forall2_map_in {A : Type} (R : A -> A -> Prop) (f : A -> A) (l : list A) :
  (forall x, In x l -> R x (f x)) -> Forall2 R l (map f l).
Proof.
  induction l as [| x l IH]; intros H; cbn [map]; constructor.
  - apply H. left. reflexivity.
  - apply IH. intros y Hy. apply H. right. exact Hy.
Qed.

Lemma filter_map_same {A : Type} (P : A -> bool) (g : A -> A) (l : list A) :
  (forall x, P (g x) = P x) ->
  length (List.filter P (map g l)) = length (List.filter P l).
Proof.
  intros H. induction l as [| x l IH]; [reflexivity |].
  cbn [map List.filter]. rewrite H. destruct (P x); cbn [length]; rewrite IH; reflexivity.
Qed.

(** X17. The owner's update changes one post and nothing else.  In a
    world whose post ids are distinct, PUT /blogs/:id by the owner of the
    post, with a title and a content, answers with the updated row; the
    post keeps its id and owner and gets the new texts; every other post
    is as it was, and nobody's post count changes. *)
Theorem owner_update_changes_one_post
  (user : User.t) (b : Blog.t) (t c : string) (w : World) :
  t <> "" -> c <> "" ->
  fresh_ids w ->
  In b (blogs w) -> Blog.user_id b = User.id user ->
  let res := fst (put_blogs_id user (Blog.id b) (mkBody (Some t) (Some c)) w) in
  let w' := snd (put_blogs_id user (Blog.id b) (mkBody (Some t) (Some c)) w) in
  res = Http.json (Http.json_blog (Blog.mk (Blog.id b) t c (User.id user))) /\
  Forall2 (fun q q' =>
             (Blog.id q = Blog.id b -> q' = Blog.mk (Blog.id b) t c (User.id user)) /\
             (Blog.id q <> Blog.id b -> q' = q))
    (blogs w) (blogs w') /\
  (forall V, post_count V w' = post_count V w) /\
  profiles w' = profiles w.
Proof.
  intros Ht Hc [Hnd _] Hin Hown res w'.
  assert (Hrun : put_blogs_id user (Blog.id b) (mkBody (Some t) (Some c)) w
    = (Http.json (Http.json_blog (retitle t c b)),
       with_blogs
         (map (fun q => if Supabase.blog_matches (Blog.id b) (User.id user) q
                        then retitle t c q else q) (blogs w))
         (log (Call.blogs_update (Blog.id b) (User.id user)) w))).
  { unfold put_blogs_id, try_catch. cbn [title content].
    rewrite !truthy_str_Some by assumption. cbn [negb orb].
    unfold bind, blogs_update_select_single.
    rewrite <- Hown, (owned_row_selected b (blogs w) Hnd Hin). reflexivity. }
  subst res w'. rewrite Hrun. cbn [fst snd with_blogs blogs profiles log].
  split; [unfold retitle; rewrite Hown; reflexivity |]. split; [| split; [| reflexivity]].
  - apply Forall2_map_in. intros q Hq. unfold Supabase.blog_matches.
    destruct (Z.eqb_spec (Blog.id q) (Blog.id b)) as [He | Hne].
    + assert (q = b) as ->
        by (apply (same_id_same_row Blog.id (blogs w)); assumption).
      rewrite Hown, String.eqb_refl. cbn [andb]. unfold retitle. rewrite Hown.
      split; [reflexivity | contradiction].
    + cbn [andb]. split; [contradiction | reflexivity].
  - intros V. unfold post_count. f_equal. cbn [with_blogs blogs].
    apply filter_map_same. intros q.
    destruct (Supabase.blog_matches (Blog.id b) (User.id user) q); reflexivity.
Qed.

Lemma count_after_delete (uid : string) (b : Blog.t) (bs : list Blog.t) :
  NoDup (map Blog.id bs) -> In b bs -> Blog.user_id b = uid ->
  (length (List.filter (Supabase.owned_by uid)
             (List.filter (fun q => negb (Supabase.blog_matches (Blog.id b) uid q)) bs))
   + 1 = length (List.filter (Supabase.owned_by uid) bs))%nat.
Proof.
  induction bs as [| x bs IH]; intros Hnd Hin Hown; [destruct Hin |].
  cbn [map] in Hnd. apply NoDup_cons in Hnd as [Hx Hnd]. rewrite list_elem_of_In in Hx.
  cbn [List.filter]. destruct Hin as [-> | Hin].
  - unfold Supabase.blog_matches at 1. rewrite Z.eqb_refl, Hown, String.eqb_refl.
    cbn [andb negb]. rewrite (proj2 (no_such_id _ _ _ Hx)).
    unfold Supabase.owned_by at 2. rewrite Hown, String.eqb_refl. cbn [length]. lia.
  - unfold Supabase.blog_matches at 1.
    destruct (Z.eqb_spec (Blog.id x) (Blog.id b)) as [He | Hne].
    + exfalso. apply Hx. rewrite He. apply in_map, Hin.
    + cbn [andb negb List.filter]. specialize (IH Hnd Hin Hown).
      destruct (Supabase.owned_by uid x); cbn [length]; lia.
Qed.

(** X18. The owner's delete removes one post and nothing else.  In a
    world whose post ids are distinct, DELETE /blogs/:id by the owner
    answers "Blog deleted successfully."; no post with that id is left,
    every other post is still there, in order, the owner has one post
    less, and the posts of every other user are as they were. *)
Theorem owner_delete_removes_one_post (user : User.t) (b : Blog.t) (w : World) :
  fresh_ids w ->
  In b (blogs w) -> Blog.user_id b = User.id user ->
  let res := fst (delete_blogs_id user (Blog.id b) w) in
  let w' := snd (delete_blogs_id user (Blog.id b) w) in
  res = Http.json (Http.json_message "Blog deleted successfully.") /\
  blogs w' = List.filter (fun q => negb (Z.eqb (Blog.id q) (Blog.id b))) (blogs w) /\
  post_count (User.id user) w' = post_count (User.id user) w - 1 /\
  (forall V, V <> User.id user -> posts_of V w' = posts_of V w).
Proof.
  intros [Hnd _] Hin Hown res w'.
  assert (Hrun : delete_blogs_id user (Blog.id b) w
    = (Http.json (Http.json_message "Blog deleted successfully."),
       with_blogs
         (List.filter (fun q => negb (Supabase.blog_matches (Blog.id b) (User.id user) q))
            (blogs w))
         (log (Call.blogs_delete (Blog.id b) (User.id user)) w))).
  { unfold delete_blogs_id, try_catch, bind, blogs_delete_select_single.
    rewrite <- Hown, (owned_row_selected b (blogs w) Hnd Hin). reflexivity. }
  subst res w'. rewrite Hrun. cbn [fst snd with_blogs blogs].
  split; [reflexivity |]. split; [| split].
  - apply List.filter_ext_in. intros q Hq. unfold Supabase.blog_matches.
    destruct (Z.eqb_spec (Blog.id q) (Blog.id b)) as [He | Hne]; [| reflexivity].
    assert (q = b) as -> by (apply (same_id_same_row Blog.id (blogs w)); assumption).
    rewrite Hown, String.eqb_refl. reflexivity.
  - unfold post_count. cbn [with_blogs blogs].
    pose proof (count_after_delete (User.id user) b (blogs w) Hnd Hin Hown). lia.
  - intros V HV.
    apply (closed_delete _ _ (posts_of_closed V (posts_of V w)) (Blog.id b) (User.id user)
             (log (Call.blogs_delete (Blog.id b) (User.id user)) w));
      [exact (not_eq_sym HV) | reflexivity].
Qed.

(** X19. Updates and deletes are not gated by the plan.  PUT /blogs/:id
    and DELETE /blogs/:id give the same answer and leave the same posts
    whatever the [profiles] table holds: a user over the ceiling, or with
    no profile at all, edits and deletes like any other. *)
Theorem update_and_delete_ignore_profiles
  (user : User.t) (blogId : Z) (body : BlogBody) (ps : list Profile.t) (w : World) :
  let put := put_blogs_id user blogId body in
  let del := delete_blogs_id user blogId in
  fst (put (with_profiles ps w)) = fst (put w) /\
  blogs (snd (put (with_profiles ps w))) = blogs (snd (put w)) /\
  profiles (snd (put (with_profiles ps w))) = ps /\
  fst (del (with_profiles ps w)) = fst (del w) /\
  blogs (snd (del (with_profiles ps w))) = blogs (snd (del w)) /\
  profiles (snd (del (with_profiles ps w))) = ps.
Proof.
  cbv zeta. unfold put_blogs_id, delete_blogs_id, try_catch.
  destruct (negb _ || negb _);
    unfold bind, blogs_update_select_single, blogs_delete_select_single;
    cbv beta; change (blogs (with_profiles ps w)) with (blogs w);
    destruct (List.filter _ (blogs w)) as [| b [| b' l]]; repeat split.
Qed.

(** ** Deliveries, again and in sequence *)

Lemma apply_update_idem (u : Supabase.ProfileUpdate) (p : Profile.t) :
  Supabase.apply_update u (Supabase.apply_update u p) = Supabase.apply_update u p.
Proof.
  destruct u as [[pl |] [cu |] [su |]], p as [i pl' cu' su']; reflexivity.
Qed.

Lemma update_where_idem (u : Supabase.ProfileUpdate) (f : Supabase.ProfileFilter) :
  (forall p, Supabase.profile_matches f (Supabase.apply_update u p)
             = Supabase.profile_matches f p) ->
  forall ps, map (update_where u f) (map (update_where u f) ps)
             = map (update_where u f) ps.
Proof.
  intros Hf ps. rewrite map_map. apply map_ext. intros p. unfold update_where.
  destruct (Supabase.profile_matches f p) eqn:Hm.
  - rewrite Hf, Hm. apply apply_update_idem.
  - rewrite Hm. reflexivity.
Qed.

(** X20. A delivery repeated is a delivery made once.  When the provider
    delivers the same verified event twice in a row, both deliveries are
    acknowledged and the second leaves every profile as the first left
    it. *)
Theorem webhook_redelivery_changes_nothing
  (cfg : Config) (sdk : Stripe.Sdk)
  (body : string) (sig : option string) (secret : string) (event : Stripe.Event)
  (w : World) :
  webhook_configured cfg secret ->
  Stripe.constructEvent sdk body sig secret = inl event ->
  let first := post_stripe_webhook cfg sdk body sig w in
  let second := post_stripe_webhook cfg sdk body sig (snd first) in
  fst first = Http.json (Http.json_received true) /\
  fst second = Http.json (Http.json_received true) /\
  profiles (snd second) = profiles (snd first).
Proof.
  intros Hcfg Hev first second. subst first second.
  rewrite (webhook_verified cfg sdk body sig secret event w Hcfg Hev). cbn [fst snd].
  rewrite (webhook_verified cfg sdk body sig secret event _ Hcfg Hev). cbn [fst snd].
  split; [reflexivity |]. split; [reflexivity |]. unfold applied.
  destruct (String.eqb (Stripe.type event) "checkout.session.completed").
  - destruct (Js.truthy_str _); [| reflexivity].
    cbn [with_profiles log profiles]. apply update_where_idem. intros p. reflexivity.
  - destruct (String.eqb (Stripe.type event) "customer.subscription.deleted");
      [| reflexivity].
    cbn [with_profiles log profiles]. apply update_where_idem. intros p. reflexivity.
Qed.

(** X21. Upgrade, then cancel.  After a verified "checkout.session.completed"
    event for the identity U with customer [cus], followed by a verified
    "customer.subscription.deleted" event for [cus], every profile row of
    U is (U, free, cus, null): back on the free plan, the subscription
    cleared, the customer reference kept. *)
Theorem upgrade_then_cancel
  (cfg : Config) (sdk : Stripe.Sdk)
  (body1 body2 : string) (sig1 sig2 : option string) (secret U cus sub : string)
  (obj : Stripe.DataObject) (p : Profile.t) (w : World) :
  webhook_configured cfg secret ->
  Stripe.constructEvent sdk body1 sig1 secret
  = inl (Stripe.mkEvent "checkout.session.completed"
           (Stripe.mkObject (Some U) (Some cus) (Some sub))) ->
  Stripe.constructEvent sdk body2 sig2 secret
  = inl (Stripe.mkEvent "customer.subscription.deleted" obj) ->
  Stripe.customer obj = Some cus ->
  U <> "" ->
  In p (profiles w) -> Profile.id p = U ->
  let w1 := snd (post_stripe_webhook cfg sdk body1 sig1 w) in
  let w2 := snd (post_stripe_webhook cfg sdk body2 sig2 w1) in
  In (Profile.mk U "free" (Some cus) None) (profiles w2) /\
  forall q, In q (profiles w2) -> Profile.id q = U ->
            q = Profile.mk U "free" (Some cus) None.
Proof.
  intros Hcfg Hev1 Hev2 Hcus HU Hin Hid w1 w2.
  set (g := fun q =>
         update_where (Supabase.mkUpdate (Some DEFAULT_PLAN) None (Some None))
           (Supabase.eq_stripe_customer_id (Some cus))
           (update_where (Supabase.mkUpdate (Some "premium") (Some (Some cus))
                            (Some (Some sub)))
              (Supabase.eq_id U) q)).
  assert (Hw2 : profiles w2 = map g (profiles w)).
  { subst w1 w2.
    rewrite (webhook_verified cfg sdk body1 sig1 secret _ w Hcfg Hev1). cbn [snd].
    rewrite (webhook_verified cfg sdk body2 sig2 secret _ _ Hcfg Hev2). cbn [snd].
    unfold applied. cbn [Stripe.type Stripe.data_object Stripe.metadata_supabaseUserId
                         Stripe.customer Stripe.subscription].
    rewrite Hcus.
    replace (String.eqb "customer.subscription.deleted" "checkout.session.completed")
      with false by reflexivity.
    replace (String.eqb "customer.subscription.deleted" "customer.subscription.deleted")
      with true by reflexivity.
    replace (String.eqb "checkout.session.completed" "checkout.session.completed")
      with true by reflexivity.
    rewrite (truthy_str_Some U HU). cbn [Js.template_str with_profiles log profiles].
    rewrite map_map. reflexivity. }
  rewrite Hw2.
  assert (Hrow : forall q, (Profile.id q = U -> g q = Profile.mk U "free" (Some cus) None)
                           /\ Profile.id (g q) = Profile.id q).
  { intros q. unfold g. rewrite completed_row.
    split; [| rewrite update_where_id;
              destruct (String.eqb (Profile.id q) U); reflexivity].
    intros Hq. rewrite Hq, String.eqb_refl, deleted_row.
    cbn [Profile.stripe_customer_id]. rewrite String.eqb_refl. reflexivity. }
  split.
  - rewrite <- (proj1 (Hrow p) Hid). apply in_map. exact Hin.
  - intros q Hq Hqid. apply in_map_iff in Hq as (q0 & <- & _).
    apply (proj1 (Hrow q0)). rewrite <- (proj2 (Hrow q0)). exact Hqid.
Qed.

(** ** Checkout, and the event that follows it *)

Lemma checkout_not_configured (cfg : Config) (sdk : Stripe.Sdk) (user : User.t) (w : World) :
  stripe cfg = false \/ Js.truthy_str (stripePriceId cfg) = false ->
  post_billing_checkout cfg sdk user w = (Http.error 500 "Stripe not configured.", w).
Proof.
  intros H. unfold post_billing_checkout, try_catch.
  assert (Hb : negb (stripe cfg) || negb (Js.truthy_str (stripePriceId cfg)) = true)
    by (destruct H as [-> | ->]; [| rewrite orb_true_r]; reflexivity).
  rewrite Hb. reflexivity.
Qed.

Lemma checkout_already_premium
  (cfg : Config) (sdk : Stripe.Sdk) (user : User.t) (p : Profile.t) (w w0 : World) :
  checkout_configured cfg ->
  ensureProfile user w = (Fulfilled p, w0) ->
  Profile.plan p = "premium" ->
  post_billing_checkout cfg sdk user w
  = (Http.error 400 "You already have the premium plan.", w0).
Proof.
  intros Hcfg Hens Hplan. unfold post_billing_checkout, try_catch.
  rewrite (checkout_guard cfg Hcfg). unfold bind at 1. rewrite Hens, Hplan. reflexivity.
Qed.

(** X22. A refused checkout creates nothing.  When billing is not
    configured the answer is 500 "Stripe not configured." and the world is
    untouched; when the user's profile is already on premium the answer is
    400 "You already have the premium plan." and only the profile was
    looked up.  In both cases no customer and no session is created and
    no profile changes. *)
Theorem refused_checkout_creates_nothing
  (cfg : Config) (sdk : Stripe.Sdk) (user : User.t) (w : World) :
  let res := fst (post_billing_checkout cfg sdk user w) in
  let w' := snd (post_billing_checkout cfg sdk user w) in
  (stripe cfg = false \/ Js.truthy_str (stripePriceId cfg) = false ->
     res = Http.error 500 "Stripe not configured." /\ w' = w) /\
  (checkout_configured cfg ->
   forall p, profiles_of (User.id user) w = [p] -> Profile.plan p = "premium" ->
     res = Http.error 400 "You already have the premium plan." /\
     customers w' = customers w /\ checkout_sessions w' = checkout_sessions w /\
     profiles w' = profiles w /\
     calls w' = (calls w ++ [Call.profiles_select (Supabase.eq_id (User.id user))])%list).
Proof.
  intros res w'. subst res w'. split.
  - intros H. rewrite (checkout_not_configured cfg sdk user w H). split; reflexivity.
  - intros Hcfg p Hp Hplan.
    rewrite (checkout_already_premium cfg sdk user p w _ Hcfg
               (ensureProfile_found user p w Hp) Hplan).
    cbn [fst snd log customers checkout_sessions profiles calls]. repeat split.
Qed.

(** The first checkout of a profile without a customer reference, with
    the customer and the session it creates. *)
Lemma checkout_unbilled_creates
  (cfg : Config) (sdk : Stripe.Sdk) (user : User.t) (p : Profile.t) (w w0 : World) :
  checkout_configured cfg ->
  ensureProfile user w = (Fulfilled p, w0) ->
  Profile.plan p <> "premium" ->
  Js.truthy_str (Profile.stripe_customer_id p) = false ->
  let c := Stripe.mkCustomer (Stripe.issue_customer_id sdk (length (customers w0)))
             (if Js.truthy_str (User.email user) then User.email user else None)
             (User.id user) in
  let u := Supabase.mkUpdate None (Some (Some (Stripe.customer_id c))) None in
  let w' := snd (post_billing_checkout cfg sdk user w) in
  customers w' = (customers w0 ++ [c])%list /\
  profiles w' = map (update_where u (Supabase.eq_id (User.id user))) (profiles w0) /\
  exists s, checkout_sessions w' = (checkout_sessions w0 ++ [s])%list /\
            Stripe.session_customer s = Some (Stripe.customer_id c) /\
            Stripe.session_metadata_supabaseUserId s = User.id user /\
            fst (post_billing_checkout cfg sdk user w)
            = Http.json (Http.json_checkoutUrl (Stripe.url s)).
Proof.
  intros Hcfg Hp Hplan Hcus c u w'. subst w'.
  remember (post_billing_checkout cfg sdk user w) as r eqn:Hr.
  unfold post_billing_checkout, try_catch in Hr. rewrite (checkout_guard cfg Hcfg) in Hr.
  unfold bind at 1 in Hr. rewrite Hp in Hr.
  apply String.eqb_neq in Hplan. rewrite Hplan, Hcus in Hr. cbn [negb] in Hr.
  subst r. cbn. repeat split. eexists. repeat split.
Qed.

Lemma only_row_id (id : string) (p : Profile.t) (w : World) :
  profiles_of id w = [p] -> Profile.id p = id.
Proof.
  intros Hp. assert (Hin : In p (profiles_of id w)) by (rewrite Hp; left; reflexivity).
  apply List.filter_In in Hin as [_ Hm]. apply String.eqb_eq, Hm.
Qed.

(** X23. From the checkout to the upgrade.  A user who is not on premium
    and has no customer reference starts a checkout; the provider then
    delivers a verified "checkout.session.completed" event that carries
    what the session carries: its identity tag and its customer.  After
    the delivery the user's profile is on premium with the customer the
    checkout created, which is tagged with the user's id; and a further
    checkout is refused with 400 and creates no second customer. *)
Theorem checkout_then_completed_event
  (cfg : Config) (sdk : Stripe.Sdk) (user : User.t) (p : Profile.t) (w : World)
  (body : string) (sig : option string) (secret sub : string) :
  checkout_configured cfg -> webhook_configured cfg secret ->
  User.id user <> "" ->
  profiles_of (User.id user) w = [p]
  \/ (profiles_of (User.id user) w = [] /\ p = Profile.mk (User.id user) "free" None None) ->
  Profile.plan p <> "premium" ->
  Js.truthy_str (Profile.stripe_customer_id p) = false ->
  let w1 := snd (post_billing_checkout cfg sdk user w) in
  forall s, last (checkout_sessions w1) = Some s ->
  Stripe.constructEvent sdk body sig secret
  = inl (Stripe.mkEvent "checkout.session.completed"
           (Stripe.mkObject (Some (Stripe.session_metadata_supabaseUserId s))
              (Stripe.session_customer s) (Some sub))) ->
  let w2 := snd (post_stripe_webhook cfg sdk body sig w1) in
  exists c,
    customers w1 = (customers w ++ [c])%list /\
    Stripe.customer_metadata_supabaseUserId c = User.id user /\
    profiles_of (User.id user) w2
    = [Profile.mk (User.id user) "premium" (Some (Stripe.customer_id c)) (Some sub)] /\
    fst (post_billing_checkout cfg sdk user w2)
    = Http.error 400 "You already have the premium plan." /\
    customers (snd (post_billing_checkout cfg sdk user w2)) = customers w1.
Proof.
  intros Hcfg Hhook Huid Hp Hplan Hcus w1 s Hlast Hev w2.
  destruct (ensureProfile_cases user p w Hp) as (w0 & Hens & _ & _ & Hc0 & _ & Hp0 & _).
  destruct (checkout_unbilled_creates cfg sdk user p w w0 Hcfg Hens Hplan Hcus)
    as (Hc1 & Hp1 & s0 & Hs1 & Hs0c & Hs0u & _).
  fold w1 in Hc1, Hp1, Hs1. cbv zeta in Hc1, Hp1, Hs0c.
  set (c := Stripe.mkCustomer _ _ _) in Hc1, Hp1, Hs0c.
  rewrite Hs1, last_snoc in Hlast. injection Hlast as <-.
  rewrite Hs0c, Hs0u in Hev.
  assert (Hw2 : w2 = applied (Stripe.mkEvent "checkout.session.completed"
                               (Stripe.mkObject (Some (User.id user))
                                  (Some (Stripe.customer_id c)) (Some sub))) w1).
  { subst w2. rewrite (webhook_verified cfg sdk body sig secret _ w1 Hhook Hev).
    reflexivity. }
  assert (Hprofiles : profiles_of (User.id user) w2
            = [Profile.mk (User.id user) "premium" (Some (Stripe.customer_id c)) (Some sub)]).
  { rewrite Hw2. unfold applied, profiles_of.
    cbn [Stripe.type Stripe.data_object Stripe.metadata_supabaseUserId
         Stripe.customer Stripe.subscription].
    replace (String.eqb "checkout.session.completed" "checkout.session.completed")
      with true by reflexivity.
    rewrite (truthy_str_Some _ Huid). cbn [Js.template_str with_profiles log profiles].
    rewrite filter_update_eq_id, Hp1, filter_update_eq_id.
    fold (profiles_of (User.id user) w0). rewrite Hp0. cbn [map].
    unfold Supabase.apply_update. cbn. rewrite (only_row_id _ _ _ Hp0). reflexivity. }
  exists c. split; [rewrite Hc1, Hc0; reflexivity |]. split; [reflexivity |].
  split; [exact Hprofiles |].
  rewrite (checkout_already_premium cfg sdk user _ w2 _ Hcfg
             (ensureProfile_found user _ w2 Hprofiles) eq_refl).
  cbn [fst snd log customers]. split; [reflexivity |].
  rewrite Hw2. unfold applied.
  cbn [Stripe.type Stripe.data_object Stripe.metadata_supabaseUserId].
  replace (String.eqb "checkout.session.completed" "checkout.session.completed")
    with true by reflexivity.
  rewrite (truthy_str_Some _ Huid). reflexivity.
Qed.

(** ** The further statements at sample inputs *)


Lemma sample_fresh_ids : fresh_ids Sample.world.
Proof.
  split; cbn.
  - repeat (apply NoDup_cons_2; [rewrite list_elem_of_In; cbn; intuition discriminate |]).
    apply NoDup_nil_2.
  - repeat constructor.
Defined.

Lemma requireAuth_bearer_token_witness :
  requireAuth SampleAuth.provider (Some "Bearer jwt.alice") = Auth.next Sample.alice.
Proof.
  exact (requireAuth_bearer_token SampleAuth.provider "jwt.alice"
           ltac:(discriminate) eq_refl).
Defined.

Lemma requireAuth_missing_token_witness :
  requireAuth SampleAuth.provider (Some "Bearer   ")
  = Auth.respond 401 "Missing auth token.".
Proof.
  apply requireAuth_missing_token. right. exists "  ".
  split; [reflexivity | right; reflexivity].
Defined.

Lemma requireAuth_bare_token_witness :
  requireAuth SampleAuth.provider (Some "jwt.bob")
  = requireAuth SampleAuth.provider (Some "Bearer jwt.bob").
Proof. apply requireAuth_bare_token. reflexivity. Defined.



Lemma run_keeps_known_plans_witness :
  known_plans
    (run Sample.cfg (Sample.sdk Sample.completed) SampleAuth.provider
       [ POST_stripe_webhook "{}" (Some "whsec_1");
         GET_profile (Some "Bearer jwt.bob") ]
       Sample.world).
Proof.
  refine (proj1 (run_keeps_known_plans _ _ _ _ Sample.world _)).
  repeat constructor.
Defined.

Lemma others_keep_my_posts_witness :
  posts_of "alice"
    (run Sample.cfg (Sample.sdk Sample.completed) SampleAuth.provider
       [ DELETE_blogs_id (Some "Bearer jwt.bob") 1;
         PUT_blogs_id (Some "Bearer jwt.bob") 1 (mkBody (Some "Mine") (Some "now"));
         POST_blogs (Some "Bearer jwt.bob") (mkBody (Some "By") (Some "Bob"));
         DELETE_blogs_id (Some "Bearer forged") 1;
         POST_stripe_webhook "{}" (Some "whsec_1") ]
       Sample.world)
  = posts_of "alice" Sample.world.
Proof.
  apply others_keep_my_posts.
  repeat (apply Forall_cons_2; [intros user H; vm_compute in H;
                                try discriminate H; injection H as <-; discriminate |]).
  apply Forall_nil_2.
Defined.

Lemma other_routes_keep_posts_witness :
  blogs
    (run Sample.cfg (Sample.sdk Sample.completed) SampleAuth.provider
       [ GET_profile (Some "Bearer jwt.bob");
         GET_blogs (Some "Bearer jwt.alice");
         POST_billing_checkout (Some "Bearer jwt.alice");
         POST_stripe_webhook "{}" (Some "whsec_1") ]
       Sample.world)
  = blogs Sample.world.
Proof.
  refine (proj1 (other_routes_keep_posts _ _ _ _ Sample.world _)).
  repeat constructor.
Defined.

Lemma no_premium_without_webhook_witness :
  Forall (fun p => Profile.plan p <> "premium")
    (profiles
       (run Sample.cfg (Sample.sdk Sample.completed) SampleAuth.provider
          [ POST_billing_checkout (Some "Bearer jwt.U1");
            GET_profile (Some "Bearer jwt.U1");
            POST_blogs (Some "Bearer jwt.U1") (mkBody (Some "Let me") (Some "in")) ]
          Sample.world)).
Proof.
  apply no_premium_without_webhook.
  - repeat constructor.
  - repeat constructor; discriminate.
Defined.

Lemma stopped_request_changes_nothing_witness :
  snd (serve Sample.cfg (Sample.sdk Sample.completed) SampleAuth.provider
         (POST_blogs (Some "Bearer forged") (mkBody (Some "T") (Some "c")))
         Sample.world)
  = Sample.world.
Proof.
  refine (proj1 (stopped_request_changes_nothing _ _ SampleAuth.provider
                   (POST_blogs (Some "Bearer forged") (mkBody (Some "T") (Some "c")))
                   Sample.world _ _)); reflexivity.
Defined.

Lemma owner_never_changes_witness :
  Blog.user_id (Blog.mk 1 "Hi" "there" "alice")
  = Blog.user_id (Blog.mk 1 "Hello" "World" "alice").
Proof.
  apply (owner_never_changes Sample.cfg (Sample.sdk Sample.completed) SampleAuth.provider
           [ PUT_blogs_id (Some "Bearer jwt.alice") 1 (mkBody (Some "Hi") (Some "there")) ]
           Sample.world).
  - exact sample_fresh_ids.
  - left. reflexivity.
  - vm_compute. left. reflexivity.
  - reflexivity.
Defined.

Lemma post_blogs_ceiling_witness :
  fst (post_blogs Sample.U1 (mkBody (Some "First") (Some "post")) Sample.subscribed)
  = Http.json (Http.json_blog (Blog.mk 2 "First" "post" "U1")).
Proof.
  refine (proj1 (proj2 (post_blogs_ceiling Sample.U1 "First" "post"
            (Profile.mk "U1" "premium" (Some "cus_1") (Some "sub_1")) Sample.subscribed
            _ _ _ _) _)).
  - discriminate.
  - discriminate.
  - left. reflexivity.
  - rewrite list_elem_of_In. cbn. intuition discriminate.
  - vm_compute. reflexivity.
Defined.

Lemma post_blogs_stays_within_ceiling_witness :
  post_count "alice"
    (snd (post_blogs Sample.alice (mkBody (Some "Fifth") (Some "post"))
            (Sample.more_posts 3 Sample.world)))
  <= 4.
Proof.
  refine (post_blogs_stays_within_ceiling Sample.alice _
            (Profile.mk "alice" "free" None None) (Sample.more_posts 3 Sample.world)
            _ _ _).
  - left. reflexivity.
  - rewrite list_elem_of_In. cbn. intuition discriminate.
  - vm_compute. discriminate.
Defined.

Lemma profile_view_agrees_with_gate_witness :
  fst (get_profile Sample.alice Sample.world)
  = Reply.json (mkProfileInfo "free" 1 (Js.Number 4)).
Proof.
  refine (proj1 (profile_view_agrees_with_gate Sample.alice "T" "c"
                   (Profile.mk "alice" "free" None None) Sample.world _ _ _)).
  - discriminate.
  - discriminate.
  - left. reflexivity.
Defined.

Lemma get_blogs_lists_own_posts_witness :
  exists listing,
    fst (get_blogs Sample.bob Sample.world) = Reply.json listing /\
    Permutation listing (posts_of "bob" Sample.world) /\
    (forall b, In b listing <-> In b (blogs Sample.world) /\ Blog.user_id b = "bob") /\
    StronglySorted (fun x y => Blog.id x <= Blog.id y) listing /\
    blogs (snd (get_blogs Sample.bob Sample.world)) = blogs Sample.world.
Proof.
  apply (get_blogs_lists_own_posts Sample.bob (Profile.mk "bob" "free" None None)).
  right. split; reflexivity.
Defined.

Lemma posted_blog_is_listed_witness :
  fst (get_blogs Sample.alice
         (snd (post_blogs Sample.alice (mkBody (Some "Second") (Some "post"))
                 Sample.world)))
  = Reply.json [Blog.mk 1 "Hello" "World" "alice"; Blog.mk 2 "Second" "post" "alice"].
Proof.
  refine (proj2 (proj2 (posted_blog_is_listed Sample.alice "Second" "post"
            (Profile.mk "alice" "free" None None) Sample.world _ _ _ _ _))).
  - discriminate.
  - discriminate.
  - left. reflexivity.
  - exact sample_fresh_ids.
  - reflexivity.
Defined.

Lemma owner_update_changes_one_post_witness :
  fst (put_blogs_id Sample.alice 1 (mkBody (Some "Hi") (Some "there")) Sample.world)
  = Http.json (Http.json_blog (Blog.mk 1 "Hi" "there" "alice")).
Proof.
  refine (proj1 (owner_update_changes_one_post Sample.alice
                   (Blog.mk 1 "Hello" "World" "alice") "Hi" "there" Sample.world
                   _ _ _ _ _)).
  - discriminate.
  - discriminate.
  - exact sample_fresh_ids.
  - left. reflexivity.
  - reflexivity.
Defined.

Lemma owner_delete_removes_one_post_witness :
  post_count "alice" (snd (delete_blogs_id Sample.alice 1 Sample.world))
  = post_count "alice" Sample.world - 1.
Proof.
  refine (proj1 (proj2 (proj2 (owner_delete_removes_one_post Sample.alice
                   (Blog.mk 1 "Hello" "World" "alice") Sample.world _ _ _)))).
  - exact sample_fresh_ids.
  - left. reflexivity.
  - reflexivity.
Defined.

Lemma webhook_redelivery_changes_nothing_witness :
  let first := post_stripe_webhook Sample.cfg (Sample.sdk Sample.completed)
                 "{}" (Some "whsec_1") Sample.world in
  let second := post_stripe_webhook Sample.cfg (Sample.sdk Sample.completed)
                  "{}" (Some "whsec_1") (snd first) in
  profiles (snd second) = profiles (snd first).
Proof.
  refine (proj2 (proj2 (webhook_redelivery_changes_nothing Sample.cfg
            (Sample.sdk Sample.completed) "{}" (Some "whsec_1") "whsec_1"
            Sample.completed Sample.world _ _))).
  - repeat split. discriminate.
  - reflexivity.
Defined.

Lemma upgrade_then_cancel_witness :
  let sdk := SampleDeliveries.sdk SampleDeliveries.events in
  let w1 := snd (post_stripe_webhook Sample.cfg sdk "evt_completed" (Some "whsec_1")
                   Sample.world) in
  let w2 := snd (post_stripe_webhook Sample.cfg sdk "evt_deleted" (Some "whsec_1") w1) in
  In (Profile.mk "U1" "free" (Some "cus_1") None) (profiles w2).
Proof.
  refine (proj1 (upgrade_then_cancel Sample.cfg
            (SampleDeliveries.sdk SampleDeliveries.events)
            "evt_completed" "evt_deleted" (Some "whsec_1") (Some "whsec_1")
            "whsec_1" "U1" "cus_1" "sub_1" (Stripe.mkObject None (Some "cus_1") None)
            (Profile.mk "U1" "free" (Some "cus_1") None) Sample.world
            _ _ _ _ _ _ _)).
  - repeat split. discriminate.
  - reflexivity.
  - reflexivity.
  - reflexivity.
  - discriminate.
  - right. left. reflexivity.
  - reflexivity.
Defined.

Lemma refused_checkout_creates_nothing_witness :
  post_billing_checkout (mkConfig None None None None) (Sample.sdk Sample.completed)
    Sample.alice Sample.world
  = (Http.error 500 "Stripe not configured.", Sample.world)
  /\ fst (post_billing_checkout Sample.cfg (Sample.sdk Sample.completed)
            Sample.U1 Sample.subscribed)
     = Http.error 400 "You already have the premium plan.".
Proof.
  split.
  - destruct (proj1 (refused_checkout_creates_nothing (mkConfig None None None None)
                       (Sample.sdk Sample.completed) Sample.alice Sample.world)
                (or_introl eq_refl)) as [Hres Hw].
    apply injective_projections; assumption.
  - refine (proj1 (proj2 (refused_checkout_creates_nothing Sample.cfg
              (Sample.sdk Sample.completed) Sample.U1 Sample.subscribed) _
              (Profile.mk "U1" "premium" (Some "cus_1") (Some "sub_1")) _ _)).
    + split; reflexivity.
    + reflexivity.
    + reflexivity.
Defined.

Lemma checkout_then_completed_event_witness :
  let sdk := SampleDeliveries.sdk SampleDeliveries.events in
  let w1 := snd (post_billing_checkout Sample.cfg sdk Sample.alice Sample.world) in
  let w2 := snd (post_stripe_webhook Sample.cfg sdk "evt_alice" (Some "whsec_1") w1) in
  exists c,
    customers w1 = (customers Sample.world ++ [c])%list /\
    Stripe.customer_metadata_supabaseUserId c = "alice" /\
    profiles_of "alice" w2
    = [Profile.mk "alice" "premium" (Some (Stripe.customer_id c)) (Some "sub_7")] /\
    fst (post_billing_checkout Sample.cfg sdk Sample.alice w2)
    = Http.error 400 "You already have the premium plan." /\
    customers (snd (post_billing_checkout Sample.cfg sdk Sample.alice w2)) = customers w1.
Proof.
  refine (checkout_then_completed_event Sample.cfg
            (SampleDeliveries.sdk SampleDeliveries.events) Sample.alice
            (Profile.mk "alice" "free" None None) Sample.world
            "evt_alice" (Some "whsec_1") "whsec_1" "sub_7" _ _ _ _ _ _
            (Stripe.mkSession (Some "cus_0") (Some "price_1")
               "http://localhost:3000/billing-success"
               "http://localhost:3000/billing-cancel" "alice"
               "https://checkout.stripe.com/c/pay/cs_test_0") _ _).
  - split; reflexivity.
  - repeat split. discriminate.
  - discriminate.
  - left. reflexivity.
  - discriminate.
  - reflexivity.
  - reflexivity.
  - reflexivity.
Defined.

(** * The client and the server together *)

(** ** Ordering by id, filters and maps *)

Lemma insert_by_id_front (x : Blog.t) (l : list Blog.t) :
  Forall (fun y => Blog.id x <= Blog.id y) l -> insert_by_id x l = x :: l.
Proof.
  destruct l as [| y l]; [reflexivity |]. intros H.
  apply Forall_cons in H as [Hy _]. cbn [insert_by_id].
  replace (Z.leb (Blog.id x) (Blog.id y)) with true
    by (symmetry; apply Z.leb_le; exact Hy).
  reflexivity.
Qed.

Lemma filter_insert_drop (Q : Blog.t -> bool) (x : Blog.t) (m : list Blog.t) :
  Q x = false -> List.filter Q (insert_by_id x m) = List.filter Q m.
Proof.
  intros Hx. induction m as [| y m IH]; cbn [insert_by_id List.filter].
  - rewrite Hx. reflexivity.
  - destruct (Z.leb (Blog.id x) (Blog.id y)); cbn [List.filter].
    + rewrite Hx. reflexivity.
    + rewrite IH. reflexivity.
Qed.

Lemma filter_insert_keep (Q : Blog.t -> bool) (x : Blog.t) (m : list Blog.t) :
  StronglySorted (fun a b => Blog.id a <= Blog.id b) m ->
  Q x = true ->
  List.filter Q (insert_by_id x m) = insert_by_id x (List.filter Q m).
Proof.
  intros Hm Hx. induction m as [| y m IH]; cbn [insert_by_id List.filter].
  - rewrite Hx. reflexivity.
  - apply StronglySorted_inv in Hm as [Hm Hy].
    destruct (Z.leb_spec (Blog.id x) (Blog.id y)) as [Hle | Hgt]; cbn [List.filter].
    + rewrite Hx. symmetry. apply insert_by_id_front.
      destruct (Q y).
      * constructor; [exact Hle |]. apply Forall_filter_bool.
        eapply Forall_impl; [exact Hy |]. cbn beta. intros z Hz. lia.
      * apply Forall_filter_bool.
        eapply Forall_impl; [exact Hy |]. cbn beta. intros z Hz. lia.
    + rewrite (IH Hm). destruct (Q y); [| reflexivity].
      cbn [insert_by_id].
      replace (Z.leb (Blog.id x) (Blog.id y)) with false
        by (symmetry; apply Z.leb_gt; exact Hgt).
      reflexivity.
Qed.

(** Ordering and filtering commute. *)
Lemma order_by_id_filter (Q : Blog.t -> bool) (l : list Blog.t) :
  order_by_id (List.filter Q l) = List.filter Q (order_by_id l).
Proof.
  induction l as [| x l IH]; [reflexivity |]. cbn [List.filter order_by_id].
  destruct (Q x) eqn:Hx.
  - cbn [order_by_id]. rewrite IH. symmetry.
    apply filter_insert_keep; [apply order_by_id_sorted | exact Hx].
  - rewrite IH. symmetry. apply filter_insert_drop, Hx.
Qed.

(** Ordering commutes with a change of rows that keeps their ids. *)
Lemma order_by_id_map (g : Blog.t -> Blog.t) (l : list Blog.t) :
  (forall q, Blog.id (g q) = Blog.id q) ->
  order_by_id (map g l) = map g (order_by_id l).
Proof.
  intros Hg.
  assert (Hins : forall x m, insert_by_id (g x) (map g m) = map g (insert_by_id x m)).
  { intros x m. induction m as [| y m IHm]; [reflexivity |].
    cbn [map insert_by_id]. rewrite !Hg.
    destruct (Z.leb (Blog.id x) (Blog.id y)); cbn [map]; [| rewrite IHm]; reflexivity. }
  induction l as [| x l IH]; [reflexivity |].
  cbn [map order_by_id]. rewrite IH. apply Hins.
Qed.

Lemma posts_of_after_delete (id : Z) (uid : string) (bs : list Blog.t) :
  List.filter (Supabase.owned_by uid)
    (List.filter (fun q => negb (Supabase.blog_matches id uid q)) bs)
  = List.filter (fun q => negb (Z.eqb (Blog.id q) id))
      (List.filter (Supabase.owned_by uid) bs).
Proof.
  induction bs as [| q bs IH]; [reflexivity |]. cbn [List.filter].
  assert (Hm : Supabase.blog_matches id uid q
               = Z.eqb (Blog.id q) id && Supabase.owned_by uid q) by reflexivity.
  rewrite Hm.
  destruct (Supabase.owned_by uid q) eqn:Ho, (Z.eqb (Blog.id q) id) eqn:He;
    repeat (cbn [andb negb List.filter]; rewrite ?Ho, ?He);
    rewrite IH; reflexivity.
Qed.

Lemma posts_of_after_update (t c : string) (id : Z) (uid : string) (bs : list Blog.t) :
  List.filter (Supabase.owned_by uid)
    (map (fun q => if Supabase.blog_matches id uid q then retitle t c q else q) bs)
  = map (fun q => if Z.eqb (Blog.id q) id then retitle t c q else q)
      (List.filter (Supabase.owned_by uid) bs).
Proof.
  induction bs as [| q bs IH]; [reflexivity |]. cbn [map List.filter].
  assert (Hm : Supabase.blog_matches id uid q
               = Z.eqb (Blog.id q) id && Supabase.owned_by uid q) by reflexivity.
  rewrite Hm.
  assert (Hr : Supabase.owned_by uid (retitle t c q) = Supabase.owned_by uid q)
    by reflexivity.
  destruct (Supabase.owned_by uid q) eqn:Ho, (Z.eqb (Blog.id q) id) eqn:He;
    repeat (cbn [andb map]; rewrite ?Hr, ?Ho, ?He);
    rewrite IH; reflexivity.
Qed.

(** ** What the post routes answer *)

Lemma put_blogs_id_runs (user : User.t) (id : Z) (t c : string) (w : World) :
  t <> "" -> c <> "" ->
  put_blogs_id user id (mkBody (Some t) (Some c)) w
  = match List.filter (Supabase.blog_matches id (User.id user)) (blogs w) with
    | [b] =>
        (Http.json (Http.json_blog (retitle t c b)),
         with_blogs
           (map (fun q => if Supabase.blog_matches id (User.id user) q
                          then retitle t c q else q) (blogs w))
           (log (Call.blogs_update id (User.id user)) w))
    | _ => (Http.error 500 "Failed to update blog.",
            log (Call.blogs_update id (User.id user)) w)
    end.
Proof.
  intros Ht Hc. unfold put_blogs_id, try_catch. cbn [title content].
  rewrite !truthy_str_Some by assumption. cbn [negb orb].
  unfold bind, blogs_update_select_single.
  destruct (List.filter _ (blogs w)) as [| b [| b' l]]; reflexivity.
Qed.

Lemma delete_blogs_id_runs (user : User.t) (id : Z) (w : World) :
  delete_blogs_id user id w
  = match List.filter (Supabase.blog_matches id (User.id user)) (blogs w) with
    | [b] =>
        (Http.json (Http.json_message "Blog deleted successfully."),
         with_blogs
           (List.filter (fun q => negb (Supabase.blog_matches id (User.id user) q))
              (blogs w))
           (log (Call.blogs_delete id (User.id user)) w))
    | _ => (Http.error 500 "Failed to delete blog.",
            log (Call.blogs_delete id (User.id user)) w)
    end.
Proof.
  unfold delete_blogs_id, try_catch, bind, blogs_delete_select_single.
  destruct (List.filter _ (blogs w)) as [| b [| b' l]]; reflexivity.
Qed.

(** ** The client stays in step with the server *)

Section InStep.

Variable cfg : Config.
Variable sdk : Stripe.Sdk.
Variable auth : Auth.Provider.
Variable user : User.t.
Variable access_token : string.

(** The session's token is the one of [user]. *)
Hypothesis signed_in :
  requireAuth auth (Client.authorization access_token) = Auth.next user.

Lemma serve_POST_blogs (body : BlogBody) (w : World) :
  serve cfg sdk auth (POST_blogs (Client.authorization access_token) body) w
  = (http (fst (post_blogs user body w)), snd (post_blogs user body w)).
Proof. cbn [serve answer]. unfold protect. rewrite signed_in. reflexivity. Qed.

Lemma serve_PUT_blogs_id (id : Z) (body : BlogBody) (w : World) :
  serve cfg sdk auth (PUT_blogs_id (Client.authorization access_token) id body) w
  = (http (fst (put_blogs_id user id body w)), snd (put_blogs_id user id body w)).
Proof. cbn [serve answer]. unfold protect. rewrite signed_in. reflexivity. Qed.

Lemma serve_DELETE_blogs_id (id : Z) (w : World) :
  serve cfg sdk auth (DELETE_blogs_id (Client.authorization access_token) id) w
  = (http (fst (delete_blogs_id user id w)), snd (delete_blogs_id user id w)).
Proof. cbn [serve answer]. unfold protect. rewrite signed_in. reflexivity. Qed.



Lemma settle_error (status : Z) (msg : string) :
  Z.leb 200 status && Z.ltb status 300 = false ->
  Axios.settle (http (Http.error status msg)) = Axios.rejected (Some msg).
Proof. intros H. unfold Axios.settle. cbn [status_of Http.error Http.status]. rewrite H. reflexivity. Qed.

Lemma settle_json (b : Http.Body) :
  Axios.settle (http (Http.json b)) = Axios.resolved (http (Http.json b)).
Proof. reflexivity. Qed.

Lemma in_step_status (s : string) (cl : Client.t) (w : World) :
  Client.in_step user cl w -> Client.in_step user (Client.setStatusMessage s cl) w.
Proof. intros H. exact H. Qed.

Lemma in_step_same_posts (cl : Client.t) (w w' : World) :
  blogs w' = blogs w -> Client.in_step user cl w -> Client.in_step user cl w'.
Proof.
  intros Hb [Hl Hc]. unfold Client.in_step, posts_of, post_count. rewrite Hb.
  split; assumption.
Qed.

(** X24. Saving a new post keeps the client in step.  A signed-in client
    whose list is the server's listing and whose profile card counts what
    the server counts runs [submitPost], in a world with fresh post ids
    and one profile (or none yet) for the user.  Whatever the form holds
    and whatever the server answers, afterwards the client's list is
    again the server's listing and its card again counts the server's
    posts. *)
Theorem submitPost_keeps_in_step (p : Profile.t) (cl : Client.t) (w : World) :
  Client.session_access_token cl = Some access_token ->
  fresh_ids w ->
  profiles_of (User.id user) w = [p]
  \/ (profiles_of (User.id user) w = [] /\ p = Profile.mk (User.id user) "free" None None) ->
  Client.in_step user cl w ->
  Client.in_step user
    (fst (Client.submitPost cfg sdk auth cl w))
    (snd (Client.submitPost cfg sdk auth cl w)).
Proof.
  intros Hsession [_ Hlt] Hp Hstep. unfold Client.submitPost. rewrite Hsession.
  destruct (String.eqb _ "" || String.eqb _ "") eqn:Hempty; [exact Hstep |].
  destruct (Client.reachedLimit cl); [exact Hstep |].
  apply orb_false_elim in Hempty as [Ht Hc]. apply String.eqb_neq in Ht, Hc.
  rewrite serve_POST_blogs.
  destruct (ensureProfile_cases user p w Hp) as (w0 & Hens & Hb0 & Hseq0 & _).
  pose proof (post_blogs_runs user _ _ p w w0 Ht Hc Hens) as Hrun. cbv zeta in Hrun.
  rewrite Hrun. clear Hrun.
  assert (Hn0 : post_count (User.id user) w0 = post_count (User.id user) w)
    by (unfold post_count; rewrite Hb0; reflexivity).
  destruct (Js.ge _ _); cbn [fst snd].
  - rewrite settle_error by reflexivity. cbn [fst snd].
    apply in_step_status. apply (in_step_same_posts cl w); [exact Hb0 | exact Hstep].
  - rewrite settle_json. cbn [Client.data_blog Http.json fst snd].
    destruct Hstep as [Hl Hcount]. split.
    + cbn [Client.blogs Client.setStatusMessage Client.setBlog Client.setCreatePost
           Client.setProfile Client.setBlogs].
      rewrite Hl. unfold posts_of. cbn [with_blog_inserted log blogs]. rewrite Hb0.
      rewrite List.filter_app. cbn [List.filter].
      unfold Supabase.owned_by at 3. cbn [Blog.user_id]. rewrite String.eqb_refl.
      symmetry. apply order_by_id_snoc. apply Forall_filter_bool. rewrite Hseq0.
      cbn [Blog.id]. exact Hlt.
    + intros v Hv.
      cbn [Client.profile Client.setStatusMessage Client.setBlog Client.setCreatePost
           Client.setProfile Client.setBlogs] in Hv.
      rewrite post_count_inserted, !post_count_log, Hn0.
      destruct (Client.profile cl) as [v0 |]; [| discriminate Hv].
      cbn [Client.with_blogCount] in Hv. injection Hv as <-. cbn [blogCount].
      rewrite (Hcount v0 eq_refl). reflexivity.
Qed.

Lemma selected_row (id : Z) (uid : string) (b : Blog.t) (bs : list Blog.t) :
  List.filter (Supabase.blog_matches id uid) bs = [b] ->
  In b bs /\ Blog.id b = id /\ Blog.user_id b = uid.
Proof.
  intros H. assert (Hin : In b (List.filter (Supabase.blog_matches id uid) bs))
    by (rewrite H; left; reflexivity).
  apply List.filter_In in Hin as [Hin Hm]. split; [exact Hin |].
  unfold Supabase.blog_matches in Hm. apply andb_prop in Hm as [Hid Hu].
  split; [apply Z.eqb_eq, Hid | apply String.eqb_eq, Hu].
Qed.

(** X25. Deleting a post keeps the client in step.  Under the same
    conditions, after [deleteBlog] of any id the client's list is again
    the server's listing and its card again counts the server's posts:
    when the server deletes the post the client drops it and counts one
    less, and when the server refuses the client changes neither. *)
Theorem deleteBlog_keeps_in_step (id : Z) (cl : Client.t) (w : World) :
  Client.session_access_token cl = Some access_token ->
  fresh_ids w ->
  Client.in_step user cl w ->
  Client.in_step user
    (fst (Client.deleteBlog cfg sdk auth id cl w))
    (snd (Client.deleteBlog cfg sdk auth id cl w)).
Proof.
  intros Hsession [Hnd _] Hstep. unfold Client.deleteBlog. rewrite Hsession.
  rewrite serve_DELETE_blogs_id, delete_blogs_id_runs.
  destruct (List.filter _ (blogs w)) as [| b [| b' l]] eqn:Hsel; cbn [fst snd];
    try (rewrite settle_error by reflexivity; cbn [fst snd];
         apply in_step_status; apply (in_step_same_posts cl w); [reflexivity | exact Hstep]).
  rewrite settle_json. cbn [fst snd].
  destruct (selected_row _ _ _ _ Hsel) as (Hin & Hid & Hown).
  destruct Hstep as [Hl Hcount]. split.
  - cbn [Client.blogs Client.setStatusMessage Client.setProfile Client.setBlogs].
    rewrite Hl. unfold posts_of. cbn [with_blogs log blogs].
    rewrite posts_of_after_delete.
    rewrite (order_by_id_filter (fun q => negb (Z.eqb (Blog.id q) id))). reflexivity.
  - intros v Hv.
    cbn [Client.profile Client.setStatusMessage Client.setProfile Client.setBlogs] in Hv.
    destruct (Client.profile cl) as [v0 |]; [| discriminate Hv].
    cbn [Client.with_blogCount] in Hv. injection Hv as <-. cbn [blogCount].
    rewrite (Hcount v0 eq_refl). unfold post_count. cbn [with_blogs log blogs].
    subst id. pose proof (count_after_delete (User.id user) b (blogs w) Hnd Hin Hown). lia.
Qed.

(** X26. Editing a post keeps the client in step.  Under the same
    conditions, after [editBlog] of any id with any texts the client's
    list is again the server's listing and its card again counts the
    server's posts: when the server updates the post the client shows the
    row the server sent in its place, and when the server refuses (empty
    field, post of another user, no such post) the client changes
    nothing. *)
Theorem editBlog_keeps_in_step
  (id : Z) (editedBlog : BlogBody) (cl : Client.t) (w : World) :
  Client.session_access_token cl = Some access_token ->
  fresh_ids w ->
  Client.in_step user cl w ->
  Client.in_step user
    (fst (Client.editBlog cfg sdk auth id editedBlog cl w))
    (snd (Client.editBlog cfg sdk auth id editedBlog cl w)).
Proof.
  intros Hsession [Hnd _] Hstep. unfold Client.editBlog. rewrite Hsession.
  rewrite serve_PUT_blogs_id.
  destruct (Js.truthy_str (title editedBlog)) eqn:Ht;
    [destruct (Js.truthy_str (content editedBlog)) eqn:Hc |];
    try (rewrite put_blogs_id_falsy_field by (first [left; assumption | right; assumption]);
         cbn [fst snd]; rewrite settle_error by reflexivity; exact Hstep).
  destruct (truthy_str_inv _ Ht) as (t & Het & Htne).
  destruct (truthy_str_inv _ Hc) as (c & Hec & Hcne).
  destruct editedBlog as [bt bc]. cbn [title content] in Het, Hec. subst bt bc.
  rewrite (put_blogs_id_runs user id t c w Htne Hcne).
  destruct (List.filter _ (blogs w)) as [| b [| b' l]] eqn:Hsel; cbn [fst snd];
    try (rewrite settle_error by reflexivity; cbn [fst snd];
         apply in_step_status; apply (in_step_same_posts cl w); [reflexivity | exact Hstep]).
  rewrite settle_json. cbn [Client.data_blog Http.json fst snd].
  destruct (selected_row _ _ _ _ Hsel) as (Hin & Hid & Hown).
  destruct Hstep as [Hl Hcount]. split.
  - cbn [Client.blogs Client.setStatusMessage Client.setBlogs].
    rewrite Hl. unfold posts_of. cbn [with_blogs log blogs].
    rewrite posts_of_after_update.
    rewrite order_by_id_map
      by (intros q; destruct (Z.eqb (Blog.id q) id); reflexivity).
    apply map_ext_in. intros q Hq.
    destruct (Z.eqb_spec (Blog.id q) id) as [Hq_id | _]; [| reflexivity].
    f_equal. symmetry. apply (same_id_same_row Blog.id (blogs w)); try assumption.
    + apply list_elem_of_In in Hq.
      rewrite (order_by_id_perm (List.filter (Supabase.owned_by (User.id user)) (blogs w)))
        in Hq.
      apply list_elem_of_In, List.filter_In in Hq. tauto.
    + congruence.
  - intros v Hv. cbn [Client.profile Client.setStatusMessage Client.setBlogs] in Hv.
    rewrite (Hcount v Hv). unfold post_count. f_equal. cbn [with_blogs log blogs].
    symmetry. apply filter_map_same. intros q.
    destruct (Supabase.blog_matches id (User.id user) q); reflexivity.
Qed.


(** X28. A client in step is never refused a post.  When the client is in
    step and its profile card holds the ceiling of the user's plan as
    [loadProfile] stores it, [submitPost] ends in one of two ways: the
    client refuses by itself, sends nothing and changes neither list nor
    world; or the server inserts the post, the client shows it last and
    clears its message.  The server's 400 and 403 are never seen. *)
Theorem submitPost_is_never_refused
  (p : Profile.t) (v : ProfileInfo) (cl : Client.t) (w : World) :
  Client.session_access_token cl = Some access_token ->
  profiles_of (User.id user) w = [p]
  \/ (profiles_of (User.id user) w = [] /\ p = Profile.mk (User.id user) "free" None None) ->
  Client.profile cl = Some v ->
  blogCount v = post_count (User.id user) w ->
  maxBlogs v = through_json (getPlanLimit (Profile.plan p)) ->
  let cl' := fst (Client.submitPost cfg sdk auth cl w) in
  let w' := snd (Client.submitPost cfg sdk auth cl w) in
  (w' = w /\ Client.blogs cl' = Client.blogs cl /\ Client.statusMessage cl' <> "")
  \/ (exists b, blogs w' = (blogs w ++ [b])%list /\
                Client.blogs cl' = (Client.blogs cl ++ [b])%list /\
                Blog.user_id b = User.id user /\
                Client.statusMessage cl' = "").
Proof.
  intros Hsession Hp Hv Hcount Hmax cl' w'. subst cl' w'.
  unfold Client.submitPost. rewrite Hsession.
  destruct (String.eqb _ "" || String.eqb _ "") eqn:Hempty;
    [left; cbn [fst snd]; repeat split; discriminate |].
  unfold Client.reachedLimit. rewrite Hv.
  assert (Hge : Js.ge (blogCount v) (maxBlogs v)
                = Js.ge (post_count (User.id user) w) (getPlanLimit (Profile.plan p))).
  { rewrite Hcount, Hmax. destruct (getPlanLimit (Profile.plan p)) as [| n | name];
      [reflexivity .. |]. cbn [through_json]. destruct (String.eqb name "__proto__");
      reflexivity. }
  destruct (Js.ge (blogCount v) (maxBlogs v)) eqn:Hlimit.
  - left. cbn [fst snd Client.statusMessage Client.setStatusMessage Client.blogs].
    repeat split. destruct (Js.template (maxBlogs v)); discriminate.
  - right. apply orb_false_elim in Hempty as [Ht Hc]. apply String.eqb_neq in Ht, Hc.
    rewrite serve_POST_blogs.
    destruct (ensureProfile_cases user p w Hp) as (w0 & Hens & Hb0 & Hseq0 & _).
    pose proof (post_blogs_runs user _ _ p w w0 Ht Hc Hens) as Hrun. cbv zeta in Hrun.
    assert (Hn0 : post_count (User.id user) w0 = post_count (User.id user) w)
      by (unfold post_count; rewrite Hb0; reflexivity).
    rewrite Hn0, <- Hge in Hrun. rewrite Hrun. cbn [fst snd].
    rewrite settle_json. cbn [Client.data_blog Http.json fst snd].
    eexists. cbn [with_blog_inserted log blogs Client.blogs Client.statusMessage
                  Client.setStatusMessage Client.setBlog Client.setCreatePost
                  Client.setProfile Client.setBlogs].
    rewrite Hb0. repeat split.
Qed.

End InStep.

(** A 200 answer of POST /blogs or of PUT /blogs/:id carries a row: the
    branch of the client handlers for an answer without one is never
    taken. *)
Lemma posted_answer_carries_row
  (user : User.t) (id : Z) (body : BlogBody) (w : World) (a : Answer) :
  Axios.settle (http (fst (post_blogs user body w))) = Axios.resolved a
  \/ Axios.settle (http (fst (put_blogs_id user id body w))) = Axios.resolved a ->
  exists b, Client.data_blog a = Some b.
Proof.
  intros [H | H].
  - unfold post_blogs, try_catch in H.
    destruct (negb _ || negb _); [discriminate H |].
    unfold bind at 1 in H.
    destruct (ensureProfile user w) as [[p | e] w0]; [| discriminate H].
    unfold bind at 1 in H. rewrite getBlogCount_counts in H.
    destruct (Js.ge _ _); [discriminate H |].
    cbn in H. injection H as <-. eexists. reflexivity.
  - unfold put_blogs_id, try_catch, bind, blogs_update_select_single in H.
    destruct (negb _ || negb _); [discriminate H |].
    destruct (List.filter _ (blogs w)) as [| b [| b' l]]; try discriminate H.
    cbn in H. injection H as <-. eexists. reflexivity.
Qed.

(** ** The client statements at a sample input *)

Lemma sample_signed_in :
  requireAuth SampleAuth.provider (Client.authorization "jwt.alice")
  = Auth.next Sample.alice.
Proof. reflexivity. Defined.

Lemma sample_in_step : Client.in_step Sample.alice SampleClient.alice Sample.world.
Proof.
  split; [reflexivity |]. intros v Hv. injection Hv as <-. reflexivity.
Defined.

Lemma submitPost_keeps_in_step_witness :
  Client.in_step Sample.alice
    (fst (Client.submitPost Sample.cfg (Sample.sdk Sample.completed)
            SampleAuth.provider SampleClient.alice Sample.world))
    (snd (Client.submitPost Sample.cfg (Sample.sdk Sample.completed)
            SampleAuth.provider SampleClient.alice Sample.world)).
Proof.
  apply (submitPost_keeps_in_step Sample.cfg (Sample.sdk Sample.completed)
           SampleAuth.provider Sample.alice "jwt.alice" sample_signed_in
           (Profile.mk "alice" "free" None None)).
  - reflexivity.
  - exact sample_fresh_ids.
  - left. reflexivity.
  - exact sample_in_step.
Defined.

Lemma deleteBlog_keeps_in_step_witness :
  Client.in_step Sample.alice
    (fst (Client.deleteBlog Sample.cfg (Sample.sdk Sample.completed)
            SampleAuth.provider 1 SampleClient.alice Sample.world))
    (snd (Client.deleteBlog Sample.cfg (Sample.sdk Sample.completed)
            SampleAuth.provider 1 SampleClient.alice Sample.world)).
Proof.
  apply (deleteBlog_keeps_in_step Sample.cfg (Sample.sdk Sample.completed)
           SampleAuth.provider Sample.alice "jwt.alice" sample_signed_in).
  - reflexivity.
  - exact sample_fresh_ids.
  - exact sample_in_step.
Defined.

Lemma editBlog_keeps_in_step_witness :
  Client.in_step Sample.alice
    (fst (Client.editBlog Sample.cfg (Sample.sdk Sample.completed)
            SampleAuth.provider 1 (mkBody (Some "Hi") (Some "there"))
            SampleClient.alice Sample.world))
    (snd (Client.editBlog Sample.cfg (Sample.sdk Sample.completed)
            SampleAuth.provider 1 (mkBody (Some "Hi") (Some "there"))
            SampleClient.alice Sample.world)).
Proof.
  apply (editBlog_keeps_in_step Sample.cfg (Sample.sdk Sample.completed)
           SampleAuth.provider Sample.alice "jwt.alice" sample_signed_in).
  - reflexivity.
  - exact sample_fresh_ids.
  - exact sample_in_step.
Defined.


Lemma submitPost_is_never_refused_witness :
  let cl' := fst (Client.submitPost Sample.cfg (Sample.sdk Sample.completed)
                    SampleAuth.provider SampleClient.alice Sample.world) in
  let w' := snd (Client.submitPost Sample.cfg (Sample.sdk Sample.completed)
                   SampleAuth.provider SampleClient.alice Sample.world) in
  (w' = Sample.world /\ Client.blogs cl' = Client.blogs SampleClient.alice
   /\ Client.statusMessage cl' <> "")
  \/ (exists b, blogs w' = (blogs Sample.world ++ [b])%list /\
                Client.blogs cl' = (Client.blogs SampleClient.alice ++ [b])%list /\
                Blog.user_id b = "alice" /\
                Client.statusMessage cl' = "").
Proof.
  apply (submitPost_is_never_refused Sample.cfg (Sample.sdk Sample.completed)
           SampleAuth.provider Sample.alice "jwt.alice" sample_signed_in
           (Profile.mk "alice" "free" None None) (mkProfileInfo "free" 1 (Js.Number 4))).
  - reflexivity.
  - left. reflexivity.
  - reflexivity.
  - reflexivity.
  - reflexivity.
Defined.
